(** * Word2Excel: a shallow embedding of Excel2Word.py and Word2Excel.py

    The two command-line programs copy a rectangular block of cells between
    an openpyxl worksheet and a python-docx table.  This development embeds
    both [main] functions, their helpers [parse_col_arg],
    [read_table_from_word] and [ensure_workbook], and the part of Python and
    of the two document libraries that they call, and proves the properties
    of the specification about them.

    Conventions.
    - Python [int] is [Z]; a Python [str] is the list of its code points.
    - A call that may raise returns [Exc]; a run of [main] is the list of
      its effects (prints, files opened, files saved) and the way it ends.
    - The file system and the two file formats are an oracle [World]: what
      [Path.exists], [load_workbook] and [Document] give for a path.
    - What the libraries do to a text on its way is part of the model: a
      worksheet cell keeps the first 32767 characters of a text, a table
      cell reads a carriage return back as a line feed and refuses a
      character XML cannot hold, [int] reads at most 4300 digits. *)

From Stdlib Require Import ZArith NArith List Bool Lia String Ascii.
From Stdlib Require Import DecimalString DecimalFacts DecimalPos.
From stdpp Require Import base option list gmap.

Local Open Scope Z_scope.

(** ** Python text *)

(** A [str] is a sequence of Unicode code points.  [isspace] is CPython's
    table for every code point.  [isdigit], [upper] and [lower] are
    CPython's tables for the Latin-1 block U+0000..U+00FF only: beyond it
    they know no digit and no case mapping, so what is proved about them is
    stated for texts of that block ([latin1]). *)
Abbreviation str := (list N).

(** A literal, from its ASCII spelling. *)
Definition py (s : string) : str := map N_of_ascii (list_ascii_of_string s).

Definition latin1 (s : str) : Prop := Forall (fun c => (c < 256)%N) s.

(** [c.isspace()], the whitespace of [split] and [strip]: TAB..CR, FS..US,
    SPACE, NEL, NO-BREAK SPACE, OGHAM SPACE MARK (U+1680), EN QUAD..HAIR
    SPACE (U+2000..U+200A), LINE and PARAGRAPH SEPARATOR (U+2028, U+2029),
    NARROW NO-BREAK SPACE (U+202F), MEDIUM MATHEMATICAL SPACE (U+205F) and
    IDEOGRAPHIC SPACE (U+3000). *)
Definition isspace (c : N) : bool :=
  ((9 <=? c) && (c <=? 13) || (28 <=? c) && (c <=? 32) || (c =? 133) || (c =? 160)
   || (c =? 5760) || (8192 <=? c) && (c <=? 8202) || (c =? 8232) || (c =? 8233)
   || (c =? 8239) || (c =? 8287) || (c =? 12288))%N.

(** The decimal digits 0..9, the only ones [int] reads in this block. *)
Definition isdecimal (c : N) : bool := ((48 <=? c) && (c <=? 57))%N.

(** [c.isdigit()]: the decimal digits and the superscripts two, three, one. *)
Definition isdigit_char (c : N) : bool :=
  (isdecimal c || (c =? 178) || (c =? 179) || (c =? 185))%N.

(** [s.isdigit()]: at least one character, and every character a digit. *)
Definition isdigit (s : str) : bool :=
  match s with
  | [] => false
  | _ => forallb isdigit_char s
  end.

(** [s.lstrip()], [s.rstrip()] and [s.strip()] with no argument. *)
Fixpoint lstrip (s : str) : str :=
  match s with
  | c :: s' => if isspace c then lstrip s' else s
  | [] => []
  end.

Definition rstrip (s : str) : str := rev (lstrip (rev s)).

Definition strip (s : str) : str := rstrip (lstrip s).

(** [c.upper()]: one character may become two (sharp s) or leave the block
    (micro sign, y with diaeresis). *)
Definition upper_char (c : N) : str :=
  (if (97 <=? c) && (c <=? 122) then [c - 32]
   else if c =? 181 then [924]
   else if c =? 223 then [83; 83]
   else if (224 <=? c) && (c <=? 254) && negb (c =? 247) then [c - 32]
   else if c =? 255 then [376]
   else [c])%N.

Definition upper (s : str) : str := flat_map upper_char s.

(** [c.lower()]. *)
Definition lower_char (c : N) : N :=
  (if (65 <=? c) && (c <=? 90) then c + 32
   else if (192 <=? c) && (c <=? 222) && negb (c =? 215) then c + 32
   else c)%N.

Definition lower (s : str) : str := map lower_char s.

(** [s.replace(old, new)] for one-character [old] and [new]. *)
Definition replace (old new : N) (s : str) : str :=
  map (fun c => if (c =? old)%N then new else c) s.

(** [s.split()] with no argument: the maximal runs of non-whitespace.
    [word] is the run being read, last character first. *)
Fixpoint split_from (word : str) (s : str) : list str :=
  match s with
  | [] => match word with [] => [] | _ => [rev word] end
  | c :: s' =>
      if isspace c
      then match word with [] => split_from [] s' | _ => rev word :: split_from [] s' end
      else split_from (c :: word) s'
  end.

Definition split (s : str) : list str := split_from [] s.

(** [sep.join(parts)]. *)
Fixpoint join (sep : str) (parts : list str) : str :=
  match parts with
  | [] => []
  | [p] => p
  | p :: rest => p ++ sep ++ join sep rest
  end.

(** ** Exceptions *)

Inductive Exn : Type :=
  | ValueError
  | IndexError
  | KeyError
  | AttributeError
  | OSError
  | LibraryError.

(** The result of a call: a value, or the exception it raised. *)
Inductive Exc (A : Type) : Type :=
  | Ok (a : A)
  | Raise (e : Exn).
Arguments Ok {A} a.
Arguments Raise {A} e.

#[global] Instance Exc_ret : MRet Exc := fun A a => Ok a.
#[global] Instance Exc_bind : MBind Exc := fun A B f m =>
  match m with
  | Ok a => f a
  | Raise e => Raise e
  end.

#[global] Instance Exc_fmap : FMap Exc := fun A B f m =>
  match m with
  | Ok a => Ok (f a)
  | Raise e => Raise e
  end.

(** [for x in xs: body], threading the state [s] the body updates. *)
Fixpoint for_each {S X : Type} (xs : list X) (body : X -> S -> Exc S) (s : S) : Exc S :=
  match xs with
  | [] => Ok s
  | x :: xs' => s' ← body x s; for_each xs' body s'
  end.

(** [range(lo, hi)]. *)
Definition py_range (lo hi : Z) : list Z :=
  map (fun k => lo + Z.of_nat k) (seq 0 (Z.to_nat (hi - lo))).

(** [l[i]]: a negative index counts from the end. *)
Definition py_index {A : Type} (l : list A) (i : Z) : Exc A :=
  let n := Z.of_nat (length l) in
  let k := if i <? 0 then i + n else i in
  if (k <? 0) || (n <=? k) then Raise IndexError
  else match l !! Z.to_nat k with
       | Some a => Ok a
       | None => Raise IndexError
       end.

(** [len(l)]. *)
Definition len {A : Type} (l : list A) : Z := Z.of_nat (length l).

(** [max(xs)] over a sequence of integers: ValueError on an empty one. *)
Definition py_max (xs : list Z) : Exc Z :=
  match xs with
  | [] => Raise ValueError
  | x :: xs' => Ok (fold_left Z.max xs' x)
  end.

(** [int(x)] as [parse_col_arg] calls it, on a stripped text that passed
    [isdigit]: the decimal value, or ValueError when a digit is not decimal
    or when the text has more than 4300 digits (the default
    [sys.int_max_str_digits] of CPython 3.11; leading zeros count). *)
Fixpoint int_from (acc : Z) (s : str) : Exc Z :=
  match s with
  | [] => Ok acc
  | c :: s' =>
      if isdecimal c then int_from (10 * acc + (Z.of_N c - 48)) s'
      else Raise ValueError
  end.

Definition py_int (x : str) : Exc Z :=
  match x with
  | [] => Raise ValueError
  | _ => if 4300 <? len x then Raise ValueError else int_from 0 x
  end.

(** [str(n)] of an integer. *)
Definition str_of_int (n : Z) : str :=
  py (NilZero.string_of_int (Z.to_int n)).

(** ** openpyxl.utils *)

(** The position of a capital letter in the alphabet, from 1. *)
Definition letter_pos (c : N) : option Z :=
  if ((65 <=? c) && (c <=? 90))%N then Some (Z.of_N c - 64) else None.

(** The sum of [pos * power] over the letters, last letter first. *)
Fixpoint weigh (letters : str) (power : Z) : option Z :=
  match letters with
  | [] => Some 0
  | c :: rest =>
      match letter_pos c, weigh rest (26 * power) with
      | Some p, Some v => Some (p * power + v)
      | _, _ => None
      end
  end.

(** Modelled from the spec: [column_index_from_string] is openpyxl's, not the
    repository's.  Section 4.1 gives it as the standard base-26 letter
    encoding (A=1 ... Z=26, AA=27 ...), case-insensitive, failing on a
    token that is no letter sequence; the library names columns from A to
    ZZZ, so more than three letters fail too. *)
Definition column_index_from_string (col : str) : Exc Z :=
  let letters := upper col in
  if (3 <? len letters) then Raise ValueError
  else match weigh (rev letters) 1 with
       | Some idx => if (0 <? idx) && (idx <? 18279) then Ok idx else Raise ValueError
       | None => Raise ValueError
       end.

(** [get_column_letter] is openpyxl's inverse of [column_index_from_string]
    (library code): the letters of a column index, ValueError outside
    1..18278. *)
Definition get_column_letter (idx : Z) : Exc str :=
  if (idx <? 1) || (18278 <? idx) then Raise ValueError
  else
    let a := (idx - 1) mod 26 in
    let q1 := (idx - 1) / 26 in
    if q1 =? 0 then Ok [Z.to_N (65 + a)]
    else
      let b := (q1 - 1) mod 26 in
      let q2 := (q1 - 1) / 26 in
      if q2 =? 0 then Ok [Z.to_N (65 + b); Z.to_N (65 + a)]
      else Ok [Z.to_N (64 + q2); Z.to_N (65 + b); Z.to_N (65 + a)].


(** ** openpyxl: cells, worksheets, workbooks *)

(** The two libraries are modelled as stores.  A worksheet cell gives back
    the value it holds; a text assigned to it is first cut to 32767
    characters ([check_string]).  A table cell gives back the text assigned
    to it with every carriage return read as a line feed, and refuses a text
    XML cannot hold ([set_text]).  The texts of a document read from a file
    are XML character data: their only control characters are tab, line
    feed and carriage return, so they hold none of the characters
    [check_string] refuses in a worksheet cell. *)

(** A cell value: absent ([None]), a text, an integer, a boolean, or a value
    of another Python type (float, date ...) kept as the text [str] gives. *)
Inductive Value : Type :=
  | VNone
  | VStr (s : str)
  | VInt (n : Z)
  | VBool (b : bool)
  | VOther (text : str).

(** [str(val)]. *)
Definition py_str (v : Value) : str :=
  match v with
  | VNone => py "None"
  | VStr s => s
  | VInt n => str_of_int n
  | VBool true => py "True"
  | VBool false => py "False"
  | VOther text => text
  end.

(** [Side(border_style=..., color=...)]. *)
Record Side : Type := mkSide { side_style : option str; side_color : option str }.

(** [Border(left=..., right=..., top=..., bottom=...)]; a side not given is
    [None]. *)
Record Border : Type := mkBorder {
  border_left : option Side;
  border_right : option Side;
  border_top : option Side;
  border_bottom : option Side;
  border_diagonal : option Side
}.

(** [Alignment(wrap_text=..., vertical=...)]. *)
Record Alignment : Type := mkAlignment {
  wrap_text : option bool;
  vertical : option str
}.

Record Cell : Type := mkCell {
  cell_value : Value;
  cell_alignment : Alignment;
  cell_border : option Border
}.

(** openpyxl's [DEFAULT_BORDER], the border of a cell never styled: the
    four sides and the diagonal are each an empty [Side()], none of them
    [None]. *)
Definition DEFAULT_BORDER : Border :=
  let none := Some (mkSide None None) in
  mkBorder none none none none none.

(** The cell [ws.cell] creates where the sheet has none. *)
Definition new_cell : Cell :=
  mkCell VNone (mkAlignment None None) (Some DEFAULT_BORDER).

(** A worksheet: its title and its cells by (row, column), both from 1. *)
Record Worksheet : Type := mkWorksheet {
  title : str;
  cells : gmap (Z * Z) Cell
}.

(** The cell at a position, created on demand. *)
Definition cell_at (ws : Worksheet) (row column : Z) : Cell :=
  default new_cell (cells ws !! (row, column)).

(** [ws.cell(row=..., column=...)]: the cell, ValueError below row or
    column 1.  The reference it returns is the position itself. *)
Definition ws_cell (ws : Worksheet) (row column : Z) : Exc Cell :=
  if (row <? 1) || (column <? 1) then Raise ValueError
  else Ok (cell_at ws row column).

(** An assignment through a cell reference: the sheet with that cell
    changed. *)
Definition update_cell (row column : Z) (f : Cell -> Cell) (ws : Worksheet) : Worksheet :=
  mkWorksheet (title ws) (<[(row, column) := f (cell_at ws row column)]> (cells ws)).

Definition set_value (v : Value) (c : Cell) : Cell :=
  mkCell v (cell_alignment c) (cell_border c).
Definition set_alignment (a : Alignment) (c : Cell) : Cell :=
  mkCell (cell_value c) a (cell_border c).
Definition set_border (b : Border) (c : Cell) : Cell :=
  mkCell (cell_value c) (cell_alignment c) (Some b).

(** [check_string], which the [value] setter of a cell applies to a text:
    [value[:32767]]. *)
Definition check_string (value : str) : str := take (Z.to_nat 32767) value.
Arguments check_string : simpl never.

(** [ws.cell(row=..., column=..., value=val)] with a text [val]. *)
Definition ws_cell_value (row column : Z) (val : str) (ws : Worksheet) : Exc Worksheet :=
  _ ← ws_cell ws row column;
  Ok (update_cell row column (set_value (VStr (check_string val))) ws).

(** A workbook: its sheets in order and the index of the active one.  A
    worksheet reference ([ws]) is an index into [sheets]. *)
Record Workbook : Type := mkWorkbook {
  sheets : list Worksheet;
  active_index : nat
}.

(** [Workbook()]: one empty sheet. *)
Definition Workbook_new : Workbook :=
  mkWorkbook [mkWorksheet (py "Sheet") ∅] 0.

(** The first sheet with a title, and its index. *)
Fixpoint find_sheet (name : str) (l : list Worksheet) : option (nat * Worksheet) :=
  match l with
  | [] => None
  | ws :: rest =>
      if decide (title ws = name) then Some (0%nat, ws)
      else (fun r => (S r.1, r.2)) <$> find_sheet name rest
  end.

(** [wb[name]]: a reference to the sheet (its index, and the sheet as it
    stands), KeyError when no sheet has the title. *)
Definition wb_getitem (wb : Workbook) (name : str) : Exc (nat * Worksheet) :=
  match find_sheet name (sheets wb) with
  | Some ref => Ok ref
  | None => Raise KeyError
  end.

(** [name in wb.sheetnames]. *)
Definition in_sheetnames (name : str) (wb : Workbook) : bool :=
  bool_decide (name ∈ map title (sheets wb)).

(** [wb.active]: [None] when the index names no sheet. *)
Definition wb_active (wb : Workbook) : option (nat * Worksheet) :=
  (fun ws => (active_index wb, ws)) <$> sheets wb !! active_index wb.

(** The workbook after the sheet behind a reference was changed. *)
Definition with_sheet (k : nat) (ws : Worksheet) (wb : Workbook) : Workbook :=
  mkWorkbook (<[k := ws]> (sheets wb)) (active_index wb).

(** The truth value of [args.sheet]: [None] and the empty text are false. *)
Definition truthy (s : option str) : bool :=
  match s with
  | Some (_ :: _) => true
  | _ => false
  end.

(** ** python-docx: documents and tables *)

Inductive TableAlignment : Type := LEFT | CENTER | RIGHT.

(** A table: the text of its cells, row by row (the rows of a table read
    from a file may differ in length). *)
Record Table : Type := mkTable {
  tbl_alignment : option TableAlignment;
  tbl_style : option str;
  tbl_rows : list (list str)
}.

Inductive Block : Type :=
  | Heading (text : str) (level : Z)
  | TableBlock (t : Table).

Record Document : Type := mkDocument {
  font_name : option str;
  font_east_asia : option str;
  font_size : option Z;
  body : list Block
}.

(** [Document()]: the empty default template. *)
Definition Document_new : Document := mkDocument None None None [].

(** [doc.tables]. *)
Definition tables (d : Document) : list Table :=
  omap (fun b => match b with TableBlock t => Some t | Heading _ _ => None end) (body d).

(** [doc.add_table(rows=..., cols=...)]: every cell empty. *)
Definition add_table (rows cols : Z) : Table :=
  mkTable None None (replicate (Z.to_nat rows) (replicate (Z.to_nat cols) [])).

(** [tbl.cell(i, j)]: IndexError outside the table.  The reference it
    returns is the position itself. *)
Definition tbl_cell (t : Table) (i j : Z) : Exc (nat * nat) :=
  if (i <? 0) || (j <? 0) then Raise IndexError
  else match tbl_rows t !! Z.to_nat i with
       | Some row => if j <? len row then Ok (Z.to_nat i, Z.to_nat j) else Raise IndexError
       | None => Raise IndexError
       end.

(** A character XML 1.0 can hold: tab, line feed, carriage return, and the
    code points from U+0020 on that are no surrogate and neither U+FFFE nor
    U+FFFF. *)
Definition xml_char (c : N) : bool :=
  ((c =? 9) || (c =? 10) || (c =? 13) || (32 <=? c) && (c <=? 55295)
   || (57344 <=? c) && (c <=? 65533) || (65536 <=? c) && (c <=? 1114111))%N.

(** What [cell.text] reads back after [cell.text = text]: python-docx writes
    a carriage return and a line feed as the same line break, which reads
    as a line feed; every other character reads as it was written. *)
Definition run_text (text : str) : str :=
  map (fun c => if (c =? 13)%N then 10%N else c) text.

(** [cell.text = text] through a reference [tbl_cell] returned: ValueError,
    raised by lxml, when the text holds a character XML cannot hold. *)
Definition set_text (ref : nat * nat) (text : str) (t : Table) : Exc Table :=
  if forallb xml_char text then
    Ok (mkTable (tbl_alignment t) (tbl_style t)
          (alter (fun row => <[ref.2 := run_text text]> row) ref.1 (tbl_rows t)))
  else Raise ValueError.

(** ** The file system *)

(** What the run finds outside: whether a path exists, what
    [load_workbook] and [Document] give for it (the object read, or the
    exception raised), and the error a save to a path ends in, if any. *)
Record World : Type := mkWorld {
  path_exists : str -> bool;
  load_workbook : str -> Exc Workbook;
  open_document : str -> Exc Document;
  save_error : str -> option Exn
}.

(** ** Runs *)

(** The lines the two programs print, by print site, with the values they
    interpolate. *)
Inductive Msg : Type :=
  | ExcelNotFound (path : str)
  | ColumnError (e : Exn)
  | RowsBelowOne
  | InvalidRange
  | SheetNotFound (sheet : option str)
  | OpenExcelError (e : Exn)
  | ReadingRegion (r1 r2 c1 c2 nrows ncols : Z)
  | WordWritten (path : str)
  | WriteWordError (e : Exn)
  | WordNotFound (path : str)
  | ColumnArgError (e : Exn)
  | InvalidRowColRange
  | ReadWordError (e : Exn)
  | WordTable (index rows cols : Z)
  | WritingRegion (r1 r2 c1 c2 : Z)
  | ExcelWritten (rng : str) (path : str).

Inductive Event : Type :=
  | Print (m : Msg)
  | LoadWorkbook (path : str)
  | OpenDocument (path : str)
  | SaveDocument (path : str) (d : Document)
  | SaveWorkbook (path : str) (wb : Workbook).

(** How a run ends: [main] returns, [sys.exit(code)], or an exception no
    handler catches. *)
Inductive Ending : Type :=
  | Returned
  | SysExit (code : Z)
  | Uncaught (e : Exn).

(** The exit status of the process. *)
Definition exit_status (e : Ending) : Z :=
  match e with
  | Returned => 0
  | SysExit code => code
  | Uncaught _ => 1
  end.

Record Run : Type := mkRun { trace : list Event; ending : Ending }.

Definition stop (e : Ending) : Run := mkRun [] e.
Definition emit (ev : Event) (k : Run) : Run := mkRun (ev :: trace k) (ending k).
Definition say (m : Msg) (k : Run) : Run := emit (Print m) k.
Definition emits (evs : list Event) (k : Run) : Run := mkRun (evs ++ trace k) (ending k).

(** The events that write a file, and those that read one. *)
Definition is_save (ev : Event) : bool :=
  match ev with
  | SaveDocument _ _ | SaveWorkbook _ _ => true
  | _ => false
  end.

Definition is_open (ev : Event) : bool :=
  match ev with
  | LoadWorkbook _ | OpenDocument _ => true
  | _ => false
  end.

(** ** Excel2Word.py *)

Module Excel2Word.

(** The parsed command line. *)
Record Args : Type := mkArgs {
  excel : str;
  sheet : option str;
  row_start : Z;
  row_end : Z;
  col_start : str;
  col_end : str;
  word_out : str
}.

(** [parse_col_arg]: 'C' or '3' to the 1-based column number. *)
Definition parse_col_arg (x : str) : Exc Z :=
  let x := strip x in
  if isdigit x then
    val ← py_int x;
    if val <? 1 then Raise ValueError else Ok val
  else column_index_from_string (upper x).

(** The text of a cell value: [""] for [None], [str(val)] otherwise. *)
Definition cell_text (val : Value) : str :=
  match val with
  | VNone => []
  | _ => py_str val
  end.

(** [main], line 74: [wb[args.sheet] if args.sheet else wb.active]. *)
Definition select_sheet (sheet : option str) (wb : Workbook)
  : Exc (option (nat * Worksheet)) :=
  if truthy sheet then Some <$> wb_getitem wb (default [] sheet)
  else Ok (wb_active wb).

(** [main], lines 87-93: the region read into [data], row by row. *)
Definition read_region (ws : Worksheet) (r1 r2 c1 c2 : Z) : Exc (list (list str)) :=
  for_each (py_range r1 (r2 + 1)) (fun r data =>
    row_vals ← for_each (py_range c1 (c2 + 1)) (fun c row_vals =>
      cell ← ws_cell ws r c;
      Ok (row_vals ++ [cell_text (cell_value cell)])) [];
    Ok (data ++ [row_vals])) [].

(** [main], lines 110-113: [data] copied into the table cell by cell. *)
Definition fill_table (data : list (list str)) (nrows ncols : Z) (tbl : Table) : Exc Table :=
  for_each (py_range 0 nrows) (fun i tbl =>
    for_each (py_range 0 ncols) (fun j tbl =>
      cell ← tbl_cell tbl i j;
      row ← py_index data i;
      text ← py_index row j;
      set_text cell text tbl) tbl) tbl.

(** The heading line, "Dữ liệu từ Excel". *)
Definition heading_text : str :=
  [68; 7919; 32; 108; 105; 7879; 117; 32; 116; 7915; 32; 69; 120; 99; 101; 108]%N.

(** [main], lines 96-116, up to the save: the new document with its font,
    its heading and the filled table.  [tbl] is a reference into the
    document, so the document holds the table as the loops leave it. *)
Definition build_document (data : list (list str)) (nrows ncols : Z) : Exc Document :=
  let tbl := add_table nrows ncols in
  let tbl := mkTable (Some CENTER) (Some (py "Table Grid")) (tbl_rows tbl) in
  tbl ← fill_table data nrows ncols tbl;
  Ok (mkDocument (Some (py "Calibri")) (Some (py "Calibri")) (Some 11)
        [Heading heading_text 1; TableBlock tbl]).

Definition main (args : Args) (w : World) : Run :=
  let excel_path := excel args in
  if negb (path_exists w excel_path) then
    say (ExcelNotFound excel_path) (stop (SysExit 1))
  else
    match (c1 ← parse_col_arg (col_start args);
           c2 ← parse_col_arg (col_end args);
           Ok (c1, c2)) with
    | Raise e => say (ColumnError e) (stop (SysExit 1))
    | Ok (c1, c2) =>
        let r1 := row_start args in
        let r2 := row_end args in
        if (r1 <? 1) || (r2 <? 1) then say RowsBelowOne (stop (SysExit 1))
        else if (c1 >? c2) || (r1 >? r2) then say InvalidRange (stop (SysExit 1))
        else
          emit (LoadWorkbook excel_path)
            match (wb ← load_workbook w excel_path;
                   select_sheet (sheet args) wb) with
            | Raise KeyError => say (SheetNotFound (sheet args)) (stop (SysExit 1))
            | Raise e => say (OpenExcelError e) (stop (SysExit 1))
            | Ok ws =>
                let nrows := r2 - r1 + 1 in
                let ncols := c2 - c1 + 1 in
                say (ReadingRegion r1 r2 c1 c2 nrows ncols)
                  match ws with
                  | None => stop (Uncaught AttributeError)
                  | Some (_, ws) =>
                      match read_region ws r1 r2 c1 c2 with
                      | Raise e => stop (Uncaught e)
                      | Ok data =>
                          let out_path := word_out args in
                          match (doc ← build_document data nrows ncols;
                                 match save_error w out_path with
                                 | Some e => Raise e
                                 | None => Ok doc
                                 end) with
                          | Raise e => say (WriteWordError e) (stop (SysExit 1))
                          | Ok doc =>
                              emit (SaveDocument out_path doc)
                                (say (WordWritten out_path) (stop Returned))
                          end
                      end
                  end
            end
    end.

End Excel2Word.

(** ** Word2Excel.py *)

Module Word2Excel.

(** The parsed command line. *)
Record Args : Type := mkArgs {
  word_in : str;
  table_index : Z;
  excel_out : str;
  sheet : option str;
  row_start : Z;
  row_end : Z;
  col_start : str;
  col_end : str
}.

Definition parse_col_arg (x : str) : Exc Z :=
  let x := strip x in
  if isdigit x then
    val ← py_int x;
    if val <? 1 then Raise ValueError else Ok val
  else column_index_from_string (upper x).

(** [" ".join(cell.text.replace("\xa0", " ").split())]. *)
Definition clean_text (text : str) : str :=
  join [32%N] (split (replace 160 32 text)).

(** [read_table_from_word], lines 34-45, on the document [Document(word_path)]
    gave. *)
Definition read_table (doc : Document) (table_index : Z) : Exc (list (list str)) :=
  if (table_index <? 0) || (table_index >=? len (tables doc)) then Raise IndexError
  else
    tbl ← py_index (tables doc) table_index;
    Ok (foldl (fun data row =>
                 data ++ [foldl (fun row_vals text => row_vals ++ [clean_text text]) [] row])
          [] (tbl_rows tbl)).

Definition read_table_from_word (w : World) (word_path : str) (table_index : Z)
  : Exc (list (list str)) :=
  doc ← open_document w word_path;
  read_table doc table_index.

Definition ensure_workbook (w : World) (path : str) : Workbook :=
  if path_exists w path then
    match load_workbook w path with
    | Ok wb => wb
    | Raise _ => Workbook_new
    end
  else Workbook_new.

(** [main], line 100:
    [wb[args.sheet] if args.sheet and args.sheet in wb.sheetnames else wb.active]. *)
Definition select_sheet (sheet : option str) (wb : Workbook)
  : Exc (option (nat * Worksheet)) :=
  if truthy sheet && in_sheetnames (default [] sheet) wb
  then Some <$> wb_getitem wb (default [] sheet)
  else Ok (wb_active wb).

(** [Alignment(wrap_text=True, vertical="top")]. *)
Definition align : Alignment := mkAlignment (Some true) (Some (py "top")).
(** [Side(border_style="thin", color="000000")]. *)
Definition thin : Side := mkSide (Some (py "thin")) (Some (py "000000")).
(** [Border(left=thin, right=thin, top=thin, bottom=thin)]. *)
Definition border_style : Border :=
  mkBorder (Some thin) (Some thin) (Some thin) (Some thin) None.

(** [main], lines 115-122: values, alignment and border of the copied
    extent. *)
Definition write_values (table_data : list (list str)) (r1 c1 rows_to_write cols_to_write : Z)
    (ws : Worksheet) : Exc Worksheet :=
  for_each (py_range 0 rows_to_write) (fun i ws =>
    for_each (py_range 0 cols_to_write) (fun j ws =>
      row ← py_index table_data i;
      val ← (if j <? len row then py_index row j else Ok []);
      ws ← ws_cell_value (r1 + i) (c1 + j) val ws;
      let ws := update_cell (r1 + i) (c1 + j) (set_alignment align) ws in
      Ok (update_cell (r1 + i) (c1 + j) (set_border border_style) ws)) ws) ws.

(** [cell.border is None or cell.border.left is None]. *)
Definition border_unset (cell : Cell) : bool :=
  match cell_border cell with
  | None => true
  | Some b => match border_left b with None => true | Some _ => false end
  end.

(** [main], lines 125-130: border and alignment over the whole range. *)
Definition format_range (r1 r2 c1 c2 : Z) (ws : Worksheet) : Exc Worksheet :=
  for_each (py_range r1 (r2 + 1)) (fun rr ws =>
    for_each (py_range c1 (c2 + 1)) (fun cc ws =>
      cell ← ws_cell ws rr cc;
      let ws := if border_unset cell
                then update_cell rr cc (set_border border_style) ws else ws in
      Ok (update_cell rr cc (set_alignment align) ws)) ws) ws.

(** [main], lines 94-135: from the grid read to the saved workbook. *)
Definition write_table (args : Args) (w : World) (c1 c2 : Z) (table_data : list (list str)) : Run :=
  let r1 := row_start args in
  let r2 := row_end args in
  let rows_word := len table_data in
  match py_max (map len table_data) with
  | Raise e => stop (Uncaught e)
  | Ok cols_word =>
      say (WordTable (table_index args) rows_word cols_word)
        (emits (if path_exists w (excel_out args) then [LoadWorkbook (excel_out args)] else [])
           (let wb := ensure_workbook w (excel_out args) in
            match select_sheet (sheet args) wb with
            | Raise e => stop (Uncaught e)
            | Ok ws =>
                let nrows_target := r2 - r1 + 1 in
                let ncols_target := c2 - c1 + 1 in
                let rows_to_write := Z.min rows_word nrows_target in
                let cols_to_write := Z.min cols_word ncols_target in
                say (WritingRegion r1 r2 c1 c2)
                  match ws with
                  | None => stop (Uncaught AttributeError)
                  | Some (k, ws) =>
                      match (ws ← write_values table_data r1 c1 rows_to_write cols_to_write ws;
                             format_range r1 r2 c1 c2 ws) with
                      | Raise e => stop (Uncaught e)
                      | Ok ws =>
                          match (a ← get_column_letter c1;
                                 b ← get_column_letter c2;
                                 Ok (a ++ str_of_int r1 ++ py ":" ++ b ++ str_of_int r2)) with
                          | Raise e => stop (Uncaught e)
                          | Ok rng =>
                              match save_error w (excel_out args) with
                              | Some e => stop (Uncaught e)
                              | None =>
                                  emit (SaveWorkbook (excel_out args) (with_sheet k ws wb))
                                    (say (ExcelWritten rng (excel_out args)) (stop Returned))
                              end
                          end
                      end
                  end
            end))
  end.

Definition main (args : Args) (w : World) : Run :=
  let word_path := word_in args in
  if negb (path_exists w word_path) then
    say (WordNotFound word_path) (stop (SysExit 1))
  else
    match (c1 ← parse_col_arg (col_start args);
           c2 ← parse_col_arg (col_end args);
           Ok (c1, c2)) with
    | Raise e => say (ColumnArgError e) (stop (SysExit 1))
    | Ok (c1, c2) =>
        let r1 := row_start args in
        let r2 := row_end args in
        if (r1 <? 1) || (r2 <? r1) || (c1 <? 1) || (c2 <? c1) then
          say InvalidRowColRange (stop (SysExit 1))
        else
          emit (OpenDocument word_path)
            match read_table_from_word w word_path (table_index args) with
            | Raise e => say (ReadWordError e) (stop (SysExit 1))
            | Ok table_data => write_table args w c1 c2 table_data
            end
    end.

End Word2Excel.

(** ** Reference notions for the character tables *)

(** Equality of two texts, as a boolean. *)
Definition eqs (a b : str) : bool := bool_decide (a = b).

(** ** Reference notions for the column-reference normalizer *)

(** A token of decimal digits only. *)
Definition all_decimal (t : str) : Prop := t <> [] /\ forallb isdecimal t = true.

(** The integer a digit string denotes: each digit weighs a power of ten. *)
Fixpoint decimal_value (t : str) : Z :=
  match t with
  | [] => 0
  | c :: t' => (Z.of_N c - 48) * 10 ^ len t' + decimal_value t'
  end.

(** A letter A..Z or a..z. *)
Definition isletter (c : N) : bool :=
  ((65 <=? c) && (c <=? 90) || (97 <=? c) && (c <=? 122))%N.

(** A = a = 1 ... Z = z = 26. *)
Definition letter_value (c : N) : Z :=
  if (c <=? 90)%N then Z.of_N c - 64 else Z.of_N c - 96.

(** A capital letter A..Z. *)
Definition iscapital (c : N) : bool := ((65 <=? c) && (c <=? 90))%N.

(** A column label in capitals: one to three letters A..Z. *)
Definition capital_token (u : str) : Prop :=
  u <> [] /\ (length u <= 3)%nat /\ forallb iscapital u = true.

(** A column label of one to three letters, in any case. *)
Definition letter_token (t : str) : Prop :=
  t <> [] /\ (length t <= 3)%nat /\ forallb isletter t = true.

(** The standard base-26 value of a column label: each letter weighs a
    power of 26. *)
Fixpoint column_value (t : str) : Z :=
  match t with
  | [] => 0
  | c :: t' => letter_value c * 26 ^ len t' + column_value t'
  end.

(** ** Reference notions for the whitespace of a table cell *)

(** The whitespace characters, listed: the ASCII controls TAB, LF, VT, FF,
    CR and FS, GS, RS, US, the space, NEL, the non-breaking space, and the
    spaces and separators of the other scripts (U+1680, U+2000..U+200A,
    U+2028, U+2029, U+202F, U+205F, U+3000). *)
Definition white_points : list N :=
  [9; 10; 11; 12; 13; 28; 29; 30; 31; 32; 133; 160; 5760;
   8192; 8193; 8194; 8195; 8196; 8197; 8198; 8199; 8200; 8201; 8202;
   8232; 8233; 8239; 8287; 12288]%N.

(** Whitespace, the non-breaking space counted in. *)
Definition is_white (c : N) : bool := existsb (N.eqb c) white_points.

(** Every maximal run of whitespace collapsed to one ASCII space;
    [in_run] tells that the character before was whitespace. *)
Fixpoint squeeze_from (in_run : bool) (s : str) : str :=
  match s with
  | [] => []
  | c :: s' =>
      if is_white c
      then if in_run then squeeze_from true s' else 32%N :: squeeze_from true s'
      else c :: squeeze_from false s'
  end.

Definition squeeze (s : str) : str := squeeze_from false s.

(** Leading whitespace removed. *)
Fixpoint trim_left (s : str) : str :=
  match s with
  | c :: s' => if is_white c then trim_left s' else s
  | [] => []
  end.

(** Leading and trailing whitespace removed. *)
Definition trim (s : str) : str := rev (trim_left (rev (trim_left s))).

(** The text of a cell as the specification words it: runs collapsed, then
    trimmed. *)
Definition tidy (text : str) : str := trim (squeeze text).

(** The single space a text ending in whitespace leaves behind [squeeze]. *)
Definition trail (s : str) : str :=
  match last s with
  | Some c => if isspace c then [32%N] else []
  | None => []
  end.

(** A word of [split]: not empty, no whitespace in it. *)
Definition solid (p : str) : Prop :=
  p <> [] /\ forallb (fun c => negb (isspace c)) p = true.

(** No whitespace at either end. *)
Definition tight (x : str) : Prop := lstrip x = x /\ lstrip (rev x) = rev x.

(** ** Reference notions for the range validator *)

(** A range that breaks the contract: rows out of order or below 1, or
    normalized columns out of order or below 1. *)
Definition bad_range (r1 r2 : Z) (c1 c2 : Exc Z) : Prop :=
  r1 > r2 \/ r1 < 1 \/ r2 < 1 \/
  exists a b, c1 = Ok a /\ c2 = Ok b /\ (a > b \/ a < 1 \/ b < 1).

(** A table index inside [0, tableCount - 1]. *)
Definition index_inside (doc : Document) (idx : Z) : Prop :=
  0 <= idx <= len (tables doc) - 1.

(** ** Reference notions for the exporter *)

(** The grid of a region: the text of every cell, row by row. *)
Definition grid_of (ws : Worksheet) (r1 r2 c1 c2 : Z) : list (list str) :=
  map (fun r => map (fun c => Excel2Word.cell_text (cell_value (cell_at ws r c)))
                  (py_range c1 (c2 + 1)))
    (py_range r1 (r2 + 1)).

(** A text every character of which XML can hold. *)
Definition xml_text (s : str) : Prop := forallb xml_char s = true.

(** A text with every carriage return turned into a line feed. *)
Definition line_feeds (s : str) : str := replace 13 10 s.

(** A region every cell text of which XML can hold. *)
Definition xml_region (ws : Worksheet) (r1 r2 c1 c2 : Z) : Prop :=
  forall r c, r1 <= r <= r2 -> c1 <= c <= c2 ->
    xml_text (Excel2Word.cell_text (cell_value (cell_at ws r c))).

(** The document the exporter saves, from the texts of its table. *)
Definition exported_document (grid : list (list str)) : Document :=
  mkDocument (Some (py "Calibri")) (Some (py "Calibri")) (Some 11)
    [Heading Excel2Word.heading_text 1;
     TableBlock (mkTable (Some CENTER) (Some (py "Table Grid")) grid)].

(** ** Reference notions for the importer *)

(** The text the importer copies from offset (i, j) of the grid: the table
    cell there, or the empty text where row [i] is shorter. *)
Definition padded (table_data : list (list str)) (i j : Z) : str :=
  match table_data !! Z.to_nat i with
  | Some row => default [] (row !! Z.to_nat j)
  | None => []
  end.

(** Whether (r, c) lies in the block of [nrows] by [ncols] cells whose
    first cell is (r1, c1). *)
Definition in_block (r1 c1 nrows ncols r c : Z) : bool :=
  (r1 <=? r) && (r <? r1 + nrows) && (c1 <=? c) && (c <? c1 + ncols).

(** The text a worksheet cell holds of a text written to it: its first
    32767 characters. *)
Definition held (v : str) : str := firstn (Z.to_nat 32767) v.
Arguments held : simpl never.

(** A cell of the copied extent: the text, wrapped, top-aligned, thin
    borders. *)
Definition copied (v : str) : Cell :=
  mkCell (VStr (held v)) Word2Excel.align (Some Word2Excel.border_style).

(** A cell after the second pass over the range. *)
Definition formatted (old : Cell) : Cell :=
  set_alignment Word2Excel.align
    (if Word2Excel.border_unset old then set_border Word2Excel.border_style old else old).

(** The cell at (r, c) after an import of [table_data], [cols_word] wide,
    into rows r1..r2 and columns c1..c2, from the cell [old] that was
    there. *)
Definition imported_cell (table_data : list (list str)) (cols_word r1 r2 c1 c2 : Z)
    (old : Cell) (r c : Z) : Cell :=
  if in_block r1 c1 (Z.min (len table_data) (r2 - r1 + 1)) (Z.min cols_word (c2 - c1 + 1)) r c
  then copied (padded table_data (r - r1) (c - c1))
  else if in_block r1 c1 (r2 - r1 + 1) (c2 - c1 + 1) r c then formatted old
  else old.

(** The workbooks and the documents a run saved. *)
Definition saved_workbooks (run : Run) : list (str * Workbook) :=
  omap (fun ev => match ev with SaveWorkbook p wb => Some (p, wb) | _ => None end) (trace run).

Definition saved_documents (run : Run) : list (str * Document) :=
  omap (fun ev => match ev with SaveDocument p d => Some (p, d) | _ => None end) (trace run).

(** ** Concrete inputs *)

(** A file on disk: a workbook, a document, or bytes neither library reads. *)
Inductive File : Type :=
  | XlsxFile (wb : Workbook)
  | DocxFile (d : Document)
  | Garbage.

Fixpoint file_at (path : str) (files : list (str * File)) : option File :=
  match files with
  | [] => None
  | (p, f) :: rest => if decide (p = path) then Some f else file_at path rest
  end.

(** A directory holding [files] in which every save succeeds. *)
Definition disk (files : list (str * File)) : World :=
  mkWorld
    (fun path => bool_decide (is_Some (file_at path files)))
    (fun path => match file_at path files with
                 | Some (XlsxFile wb) => Ok wb
                 | Some _ => Raise LibraryError
                 | None => Raise OSError
                 end)
    (fun path => match file_at path files with
                 | Some (DocxFile d) => Ok d
                 | Some _ => Raise LibraryError
                 | None => Raise OSError
                 end)
    (fun _ => None).

(** The world with one path missing. *)
Definition without (path : str) (w : World) : World :=
  mkWorld (fun p => if decide (p = path) then false else path_exists w p)
    (load_workbook w) (open_document w) (save_error w).

(** A cell never styled that holds a text. *)
Definition text_cell (s : string) : Cell :=
  mkCell (VStr (py s)) (mkAlignment None None) (Some DEFAULT_BORDER).

(** A cell never styled that holds a value. *)
Definition value_cell (v : Value) : Cell :=
  mkCell v (mkAlignment None None) (Some DEFAULT_BORDER).

(** A document whose only table has the given rows. *)
Definition table_document (rows : list (list str)) : Document :=
  mkDocument None None None [TableBlock (mkTable None None rows)].

(** The active sheet of the first workbook a run saved. *)
Definition imported_sheet (run : Run) : option Worksheet :=
  '(_, wb) ← head (saved_workbooks run);
  snd <$> wb_active wb.

(** The export scenario of the specification: "a", "b" / "c", - / -, - at
    rows 2-4, columns C-D. *)
Definition export_scenario_sheet : Worksheet :=
  mkWorksheet (py "Sheet1")
    (<[(2, 3) := text_cell "a"]> (<[(2, 4) := text_cell "b"]> (<[(3, 3) := text_cell "c"]> ∅))).

Definition export_scenario_world : World :=
  disk [(py "in.xlsx", XlsxFile (mkWorkbook [export_scenario_sheet] 0))].

Definition export_scenario_args : Excel2Word.Args :=
  Excel2Word.mkArgs (py "in.xlsx") None 2 4 (py "C") (py "D") (py "out.docx").

(** A sheet of typed values: 42, -7 / True, 2.5 / no value, "x" at rows 1-3,
    columns A-B. *)
Definition typed_sheet : Worksheet :=
  mkWorksheet (py "Sheet")
    (<[(1, 1) := value_cell (VInt 42)]> (<[(1, 2) := value_cell (VInt (-7))]>
       (<[(2, 1) := value_cell (VBool true)]> (<[(2, 2) := value_cell (VOther (py "2.5"))]>
          (<[(3, 2) := text_cell "x"]> ∅))))).

Definition typed_export_world : World :=
  disk [(py "in.xlsx", XlsxFile (mkWorkbook [typed_sheet] 0))].

Definition typed_export_args : Excel2Word.Args :=
  Excel2Word.mkArgs (py "in.xlsx") None 1 3 (py "1") (py "2") (py "out.docx").

(** A sheet whose A1 holds "a", a carriage return, "b". *)
Definition cr_sheet : Worksheet :=
  mkWorksheet (py "Sheet") (<[(1, 1) := value_cell (VStr [97; 13; 98]%N)]> ∅).

Definition cr_export_world : World :=
  disk [(py "in.xlsx", XlsxFile (mkWorkbook [cr_sheet] 0))].

Definition cr_export_args : Excel2Word.Args :=
  Excel2Word.mkArgs (py "in.xlsx") None 1 1 (py "A") (py "A") (py "out.docx").

(** The import scenario of the specification: rows "x", "y", "z" / "1", "2"
    into rows 1-2, columns A-D. *)
Definition import_scenario_document : Document :=
  table_document [[py "x"; py "y"; py "z"]; [py "1"; py "2"]].

Definition import_scenario_args : Word2Excel.Args :=
  Word2Excel.mkArgs (py "in.docx") 0 (py "out.xlsx") None 1 2 (py "A") (py "D").

(** The destination does not exist yet. *)
Definition import_scenario_world : World :=
  disk [(py "in.docx", DocxFile import_scenario_document)].

(** The destination exists and holds "old" in D1. *)
Definition import_scenario_world_old : World :=
  disk [(py "in.docx", DocxFile import_scenario_document);
        (py "out.xlsx",
         XlsxFile (mkWorkbook [mkWorksheet (py "Sheet") (<[(1, 4) := text_cell "old"]> ∅)] 0))].

(** A table of one cell imported into rows 1-2, columns A-B. *)
Definition small_import_args : Word2Excel.Args :=
  Word2Excel.mkArgs (py "in.docx") 0 (py "out.xlsx") None 1 2 (py "A") (py "B").

Definition small_import_world : World :=
  disk [(py "in.docx", DocxFile (table_document [[py "x"]]))].

(** The same import into a workbook whose B2 has a medium left border and
    no other side. *)
Definition left_bordered : Border :=
  mkBorder (Some (mkSide (Some (py "medium")) None)) None None None None.

Definition small_import_world_bordered : World :=
  disk [(py "in.docx", DocxFile (table_document [[py "x"]]));
        (py "out.xlsx",
         XlsxFile (mkWorkbook
           [mkWorksheet (py "Sheet")
              (<[(2, 2) := mkCell VNone (mkAlignment None None) (Some left_bordered)]> ∅)] 0))].

(** A destination that exists and cannot be read. *)
Definition small_import_world_garbage : World :=
  disk [(py "in.docx", DocxFile (table_document [[py "x"]])); (py "out.xlsx", Garbage)].

(** A document whose only table has no row. *)
Definition empty_table_world : World :=
  disk [(py "in.docx", DocxFile (table_document []))].

(** A round trip of one cell, " a" in A1. *)
Definition spaced_sheet : Worksheet :=
  mkWorksheet (py "Sheet") (<[(1, 1) := text_cell " a"]> ∅).

Definition spaced_export_args : Excel2Word.Args :=
  Excel2Word.mkArgs (py "in.xlsx") None 1 1 (py "A") (py "A") (py "t.docx").

Definition spaced_export_world : World :=
  disk [(py "in.xlsx", XlsxFile (mkWorkbook [spaced_sheet] 0))].

Definition spaced_import_args : Word2Excel.Args :=
  Word2Excel.mkArgs (py "t.docx") 0 (py "back.xlsx") None 1 1 (py "A") (py "A").

(** The disk after a run: the files it saved are there. *)
Definition disk_after (run : Run) : World :=
  disk (map (fun pd => (pd.1, DocxFile pd.2)) (saved_documents run)).

(** ** Reference notions for the further properties *)

(** The characters of a text that are not whitespace, in order. *)
Definition ink (s : str) : str := List.filter (fun c => negb (isspace c)) s.

(** The world in which every save raises OSError. *)
Definition read_only (w : World) : World :=
  mkWorld (path_exists w) (load_workbook w) (open_document w) (fun _ => Some OSError).

(** The range name of the importer's last line, when the columns have
    letters. *)
Definition range_name (r1 r2 c1 c2 : Z) : Exc str :=
  a ← get_column_letter c1;
  b ← get_column_letter c2;
  Ok (a ++ str_of_int r1 ++ py ":" ++ b ++ str_of_int r2).

(** An import into columns 20000-20001, given as numbers. *)
Definition far_import_args : Word2Excel.Args :=
  Word2Excel.mkArgs (py "in.docx") 0 (py "out.xlsx") None 1 2 (py "20000") (py "20001").

(** A workbook that cannot be read as a zip archive member: loading raises
    KeyError. *)
Definition broken_archive_world : World :=
  mkWorld (fun _ => true) (fun _ => Raise KeyError) (fun _ => Raise LibraryError)
    (fun _ => None).

(** A grid made rectangular: every row padded with empty texts to a width. *)
Definition rectangle (table_data : list (list str)) (width : Z) : list (list str) :=
  map (fun row => row ++ replicate (Z.to_nat (width - len row)) []) table_data.

(** The disk after a run that saved workbooks: they are there, with the
    files [files] beside them. *)
Definition disk_with_saved (run : Run) (files : list (str * File)) : World :=
  disk (map (fun pw => (pw.1, XlsxFile pw.2)) (saved_workbooks run) ++ files).

(** The export scenario's sheet with styles and cells outside rows 2-4,
    columns C-D changed. *)
Definition export_scenario_sheet_restyled : Worksheet :=
  mkWorksheet (py "Sheet1")
    (<[(2, 3) := mkCell (VStr (py "a")) Word2Excel.align (Some Word2Excel.border_style)]>
       (<[(2, 4) := text_cell "b"]> (<[(3, 3) := text_cell "c"]>
          (<[(1, 1) := text_cell "title"]> (<[(9, 9) := text_cell "note"]> ∅))))).

Definition export_scenario_world_restyled : World :=
  disk [(py "in.xlsx", XlsxFile (mkWorkbook [export_scenario_sheet_restyled] 0))].

(** An export of rows 1-2, columns A-C, of "out.xlsx". *)
Definition reexport_args : Excel2Word.Args :=
  Excel2Word.mkArgs (py "out.xlsx") None 1 2 (py "A") (py "C") (py "again.docx").

(** The import scenario sized to its table: rows 1-2, columns A-C. *)
Definition fitted_import_args : Word2Excel.Args :=
  Word2Excel.mkArgs (py "in.docx") 0 (py "out.xlsx") None 1 2 (py "A") (py "C").

(** The import scenario run a first time into the workbook that holds
    "old" in D1, the workbook it saves, and the disk it leaves. *)
Definition first_import_run : Run :=
  Word2Excel.main import_scenario_args import_scenario_world_old.

Definition first_import_workbook : Workbook :=
  default Workbook_new (snd <$> head (saved_workbooks first_import_run)).

Definition second_import_world : World :=
  disk_with_saved first_import_run [(py "in.docx", DocxFile import_scenario_document)].

(** A sheet whose A1 holds "x" and the control character BEL (U+0007). *)
Definition bell_sheet : Worksheet :=
  mkWorksheet (py "Sheet") (<[(1, 1) := value_cell (VStr [120; 7]%N)]> ∅).

Definition bell_export_world : World :=
  disk [(py "in.xlsx", XlsxFile (mkWorkbook [bell_sheet] 0))].

(** Whether [get_column_letter] gives a column one to three capital letters
    whose base-26 value is the column. *)
Definition names_column (c : Z) : bool :=
  match get_column_letter c with
  | Ok a =>
      (0 <? len a) && (len a <=? 3) && forallb iscapital a && (column_value a =? c)
  | Raise _ => false
  end.

(** * Properties *)

(** ** Character tables *)

(** [P] on the [n] code points from [c] on. *)
Fixpoint holds_from (P : N -> bool) (n : nat) (c : N) : bool :=
  match n with
  | O => true
  | S n' => P c && holds_from P n' (N.succ c)
  end.

Lemma holds_from_spec P n c x :
  holds_from P n c = true -> (c <= x < c + N.of_nat n)%N -> P x = true.
Proof.
  revert c. induction n as [| n IH]; intros c H Hx; [lia |].
  simpl in H. apply andb_true_iff in H as [Hc Hn].
  destruct (N.eq_dec x c) as [-> | Hne]; [done |].
  apply (IH (N.succ c)); [done | lia].
Qed.

(** A boolean fact about code points holds everywhere when it holds up to
    the last whitespace character, U+3000 (checked by evaluation), and
    beyond it. *)
Lemma by_table (P : N -> bool) :
  holds_from P (N.to_nat 12289) 0 = true ->
  (forall c, (12289 <= c)%N -> P c = true) ->
  forall c, P c = true.
Proof.
  intros Hsmall Hbig c.
  destruct (N.lt_ge_cases c 12289) as [Hlt | Hge]; [| by apply Hbig].
  apply (holds_from_spec P _ 0 c Hsmall). lia.
Qed.

(** Beyond U+3000 the tables are constant. *)
Ltac compare_all :=
  repeat match goal with
    | |- context [(?a <=? ?b)%N] => destruct (N.leb_spec a b); try lia
    | |- context [(?a =? ?b)%N] => destruct (N.eqb_spec a b); try lia
    end;
  try reflexivity.

Lemma isspace_beyond c : (12289 <= c)%N -> isspace c = false.
Proof. intros H. unfold isspace. compare_all. Qed.

Lemma is_white_beyond c : (12289 <= c)%N -> is_white c = false.
Proof. intros H. unfold is_white, white_points, existsb. compare_all. Qed.

Lemma isdigit_char_beyond c : (12289 <= c)%N -> isdigit_char c = false.
Proof. intros H. unfold isdigit_char, isdecimal. compare_all. Qed.

Lemma upper_char_beyond c : (12289 <= c)%N -> upper_char c = [c].
Proof. intros H. unfold upper_char. compare_all. Qed.

Lemma lower_char_beyond c : (12289 <= c)%N -> lower_char c = c.
Proof. intros H. unfold lower_char. compare_all. Qed.

Ltac beyond :=
  repeat first
    [ rewrite upper_char_beyond by done
    | rewrite lower_char_beyond by done
    | rewrite isspace_beyond by done
    | rewrite is_white_beyond by done
    | rewrite isdigit_char_beyond by done
    | progress simpl ];
  auto; try (apply bool_decide_eq_true_2; reflexivity); try (by apply N.eqb_refl).

(** [tabled] proves [forall c, P c = true] for a boolean [P] over the tables. *)
Ltac tabled :=
  apply by_table; [by vm_compute | intros ? ?; unfold eqs; beyond].

Lemma eqs_true a b : eqs a b = true -> a = b.
Proof. apply bool_decide_eq_true. Qed.

Lemma upper_char_space_tbl c : implb (isspace c) (eqs (upper_char c) [c]) = true.
Proof. revert c. tabled. Qed.

Lemma upper_char_space c : isspace c = true -> upper_char c = [c].
Proof.
  intros H. pose proof (upper_char_space_tbl c) as G.
  rewrite H in G. by apply eqs_true.
Qed.

Lemma upper_char_nonspace_tbl c :
  (isspace c || match upper_char c with d :: _ => negb (isspace d) | [] => false end) = true.
Proof. revert c. tabled. Qed.

Lemma upper_char_nonspace c :
  isspace c = false -> exists d rest, upper_char c = d :: rest /\ isspace d = false.
Proof.
  intros H. pose proof (upper_char_nonspace_tbl c) as G. rewrite H in G. simpl in G.
  destruct (upper_char c) as [| d rest]; [done |].
  exists d, rest. split; [done |]. by apply negb_true_iff.
Qed.

Lemma upper_char_rev c : rev (upper_char c) = upper_char c.
Proof.
  apply eqs_true. revert c. tabled.
Qed.

Lemma lower_char_space c : isspace (lower_char c) = isspace c.
Proof.
  apply Bool.eqb_prop. revert c. tabled.
Qed.

Lemma isdigit_lower_char c : isdigit_char (lower_char c) = isdigit_char c.
Proof. apply Bool.eqb_prop. revert c. tabled. Qed.

Lemma isdigit_upper_char c : forallb isdigit_char (upper_char c) = isdigit_char c.
Proof. apply Bool.eqb_prop. revert c. tabled. Qed.

Lemma digit_fixed_tbl c :
  implb (isdigit_char c) (eqs (upper_char c) [c] && (lower_char c =? c)%N) = true.
Proof. revert c. tabled. Qed.

Lemma digit_fixed c : isdigit_char c = true -> upper_char c = [c] /\ lower_char c = c.
Proof.
  intros H. pose proof (digit_fixed_tbl c) as G. rewrite H in G.
  apply andb_true_iff in G as [G1 G2]. split; [by apply eqs_true | by apply N.eqb_eq].
Qed.

Lemma upper_char_idem c : flat_map upper_char (upper_char c) = upper_char c.
Proof. apply eqs_true. revert c. tabled. Qed.

Lemma upper_lower_char c : upper_char (lower_char c) = upper_char c.
Proof. apply eqs_true. revert c. tabled. Qed.

Lemma upper_char_not_nil c : upper_char c <> [].
Proof.
  assert (H : negb (eqs (upper_char c) []) = true) by (revert c; tabled).
  intros E. rewrite E in H. done.
Qed.

Lemma decimal_char c :
  isdecimal c = true -> isspace c = false /\ isdigit_char c = true.
Proof.
  unfold isdecimal, isspace, isdigit_char, isdecimal. intros H.
  apply andb_true_iff in H as [H1 H2]. apply N.leb_le in H1, H2.
  split.
  - repeat match goal with
      | |- context [(?a <=? ?b)%N] => destruct (N.leb_spec a b); try lia
      | |- context [(?a =? ?b)%N] => destruct (N.eqb_spec a b); try lia
      end; reflexivity.
  - destruct (N.leb_spec 48 c), (N.leb_spec c 57); try lia; reflexivity.
Qed.

(** ** Text *)

Lemma lstrip_upper t : lstrip (upper t) = upper (lstrip t).
Proof.
  induction t as [| c t IH]; [done |]. simpl.
  destruct (isspace c) eqn:E.
  - rewrite (upper_char_space c E). simpl. by rewrite E.
  - destruct (upper_char_nonspace c E) as (d & rest & Hd & Hs).
    unfold upper at 2. simpl. rewrite Hd. simpl. by rewrite Hs.
Qed.

Lemma rev_upper t : rev (upper t) = upper (rev t).
Proof.
  unfold upper. induction t as [| c t IH]; [done |]. simpl.
  rewrite rev_app_distr, IH, flat_map_app. simpl.
  by rewrite app_nil_r, upper_char_rev.
Qed.

Lemma strip_upper t : strip (upper t) = upper (strip t).
Proof.
  unfold strip, rstrip.
  by rewrite lstrip_upper, rev_upper, lstrip_upper, rev_upper.
Qed.

Lemma lstrip_lower t : lstrip (lower t) = lower (lstrip t).
Proof.
  induction t as [| c t IH]; [done |]. simpl.
  rewrite lower_char_space. by destruct (isspace c).
Qed.

Lemma rev_lower t : rev (lower t) = lower (rev t).
Proof. unfold lower. symmetry. apply map_rev. Qed.

Lemma strip_lower t : strip (lower t) = lower (strip t).
Proof.
  unfold strip, rstrip.
  by rewrite lstrip_lower, rev_lower, lstrip_lower, rev_lower.
Qed.

Lemma isdigit_upper t : isdigit (upper t) = isdigit t.
Proof.
  destruct t as [| c t]; [done |].
  assert (H : forall s, forallb isdigit_char (upper s) = forallb isdigit_char s).
  { induction s as [| d s IH]; [done |]. unfold upper in *. simpl.
    by rewrite forallb_app, IH, isdigit_upper_char. }
  unfold isdigit. specialize (H (c :: t)).
  destruct (upper (c :: t)) as [| d u] eqn:E; [| done].
  unfold upper in E. simpl in E. apply app_eq_nil in E as [E _].
  by apply upper_char_not_nil in E.
Qed.

Lemma isdigit_lower t : isdigit (lower t) = isdigit t.
Proof.
  destruct t as [| c t]; [done |]. unfold isdigit, lower. simpl.
  rewrite isdigit_lower_char. f_equal.
  induction t as [| d t IH]; [done |]. simpl. by rewrite isdigit_lower_char, IH.
Qed.

Lemma isdigit_fixed t : isdigit t = true -> upper t = t /\ lower t = t.
Proof.
  intros H. assert (G : forallb isdigit_char t = true) by (by destruct t).
  clear H. induction t as [| c t IH]; [done |].
  simpl in G. apply andb_true_iff in G as [G1 G2].
  destruct (digit_fixed c G1) as [Hu Hl], (IH G2) as [IHu IHl].
  unfold upper, lower in *. simpl. by rewrite Hu, Hl, IHu, IHl.
Qed.

Lemma upper_upper t : upper (upper t) = upper t.
Proof.
  unfold upper. induction t as [| c t IH]; [done |]. simpl.
  by rewrite flat_map_app, IH, upper_char_idem.
Qed.

Lemma upper_lower t : upper (lower t) = upper t.
Proof.
  unfold upper, lower. induction t as [| c t IH]; [done |]. simpl.
  by rewrite IH, upper_lower_char.
Qed.

(** ** The column-reference normalizer *)

Lemma lstrip_id t : forallb (fun c => negb (isspace c)) t = true -> lstrip t = t.
Proof.
  destruct t as [| c t]; [done |]. simpl. intros H.
  apply andb_true_iff in H as [H _]. apply negb_true_iff in H. by rewrite H.
Qed.

Lemma strip_id t : forallb (fun c => negb (isspace c)) t = true -> strip t = t.
Proof.
  intros H. unfold strip, rstrip. rewrite (lstrip_id t H).
  rewrite lstrip_id; [apply rev_involutive |].
  apply forallb_forall. intros c Hc. apply in_rev in Hc.
  by apply (proj1 (forallb_forall _ _) H).
Qed.

Lemma forallb_impl {A} (P Q : A -> bool) l :
  (forall a, P a = true -> Q a = true) -> forallb P l = true -> forallb Q l = true.
Proof.
  intros HPQ H. apply forallb_forall. intros a Ha.
  apply HPQ. by apply (proj1 (forallb_forall _ _) H).
Qed.

Lemma forallb_rev {A} (P : A -> bool) l : forallb P (rev l) = forallb P l.
Proof.
  induction l as [| a l IH]; [done |]. simpl.
  rewrite forallb_app, IH. simpl. rewrite andb_true_r. apply andb_comm.
Qed.

Lemma len_cons {A} (a : A) l : len (a :: l) = len l + 1.
Proof. unfold len. simpl length. lia. Qed.

Lemma len_nonneg {A} (l : list A) : 0 <= len l.
Proof. unfold len. lia. Qed.

Lemma int_from_decimal t acc :
  forallb isdecimal t = true ->
  int_from acc t = Ok (acc * 10 ^ len t + decimal_value t).
Proof.
  revert acc. induction t as [| c t IH]; intros acc H.
  - simpl. f_equal. unfold len. simpl. lia.
  - simpl in H. apply andb_true_iff in H as [Hc Ht].
    simpl. rewrite Hc, (IH _ Ht). f_equal.
    rewrite len_cons, Z.pow_add_r by (pose proof (len_nonneg t); lia). lia.
Qed.

Lemma int_from_inv s acc v : int_from acc s = Ok v -> forallb isdecimal s = true.
Proof.
  revert acc. induction s as [| c s IH]; intros acc; [done |]. simpl.
  destruct (isdecimal c); [apply IH | done].
Qed.

Lemma int_from_raise s acc e : int_from acc s = Raise e -> e = ValueError.
Proof.
  revert acc. induction s as [| c s IH]; intros acc; [done |]. simpl.
  destruct (isdecimal c); [apply IH | congruence].
Qed.

Lemma py_int_decimal s :
  all_decimal s -> (length s <= 4300)%nat -> py_int s = Ok (decimal_value s).
Proof.
  intros [Hne Hall] Hlen. unfold py_int. destruct s as [| c s]; [done |].
  destruct (Z.ltb_spec 4300 (len (c :: s))); [unfold len in *; lia |].
  rewrite (int_from_decimal _ 0 Hall). f_equal; lia.
Qed.

Lemma py_int_inv s v :
  py_int s = Ok v -> all_decimal s /\ (length s <= 4300)%nat /\ v = decimal_value s.
Proof.
  unfold py_int. destruct s as [| c s]; [done |].
  destruct (Z.ltb_spec 4300 (len (c :: s))); [done |]. intros Ev.
  pose proof (int_from_inv _ _ _ Ev) as Hall.
  rewrite (int_from_decimal _ 0 Hall) in Ev. injection Ev as <-.
  split; [by split |]. split; [unfold len in *; lia |].
  cbn [decimal_value]. lia.
Qed.

Lemma py_int_raise s e : py_int s = Raise e -> e = ValueError.
Proof.
  unfold py_int. destruct s as [| c s]; [congruence |].
  destruct (_ <? _); [congruence | apply int_from_raise].
Qed.

Lemma isdigit_decimal s : all_decimal s -> isdigit s = true.
Proof.
  intros [Hne Hall]. destruct s as [| a s']; [done |]. unfold isdigit.
  eapply forallb_impl; [| exact Hall]. intros x Hx. by destruct (decimal_char x Hx).
Qed.

Lemma parse_decimal t :
  all_decimal (strip t) -> (length (strip t) <= 4300)%nat ->
  Excel2Word.parse_col_arg t =
    if decide (1 <= decimal_value (strip t)) then Ok (decimal_value (strip t))
    else Raise ValueError.
Proof.
  intros Hdec Hlen. unfold Excel2Word.parse_col_arg.
  rewrite (isdigit_decimal _ Hdec), (py_int_decimal _ Hdec Hlen).
  unfold mbind, Exc_bind.
  destruct (Z.ltb_spec (decimal_value (strip t)) 1); case_decide; try lia; done.
Qed.

Lemma parse_other_digits t :
  isdigit (strip t) = true -> ~ all_decimal (strip t) ->
  Excel2Word.parse_col_arg t = Raise ValueError.
Proof.
  intros Hd Hn. unfold Excel2Word.parse_col_arg. rewrite Hd.
  destruct (py_int (strip t)) as [v | e] eqn:Ev.
  - by destruct (py_int_inv _ _ Ev) as [Hall _].
  - by rewrite (py_int_raise _ _ Ev).
Qed.

Lemma letter_char_tbl c :
  implb (isletter c)
    (negb (isspace c) && negb (isdigit_char c)
     && eqs (upper_char c) [if (c <=? 90)%N then c else (c - 32)%N]
     && bool_decide (letter_pos (if (c <=? 90)%N then c else (c - 32)%N) = Some (letter_value c))
     && bool_decide (1 <= letter_value c <= 26)) = true.
Proof.
  revert c. apply by_table; [by vm_compute |].
  intros c Hc. unfold isletter.
  repeat match goal with
    | |- context [(?a <=? ?b)%N] => destruct (N.leb_spec a b); try lia
    end;
  try reflexivity.
Qed.

Lemma letter_char c :
  isletter c = true ->
  isspace c = false /\ isdigit_char c = false /\
  exists u, upper_char c = [u] /\ letter_pos u = Some (letter_value c) /\
            1 <= letter_value c <= 26.
Proof.
  intros H. pose proof (letter_char_tbl c) as G. rewrite H in G. simpl in G.
  repeat (apply andb_true_iff in G as [G ?]).
  apply negb_true_iff in G.
  repeat split; [done | by apply negb_true_iff |].
  eexists. split; [by apply eqs_true |]. split; by eapply bool_decide_eq_true.
Qed.

Lemma parse_letters t :
  letter_token (strip t) -> Excel2Word.parse_col_arg t = Ok (column_value (strip t)).
Proof.
  intros (Hne & Hlen & Hall). unfold Excel2Word.parse_col_arg.
  set (s := strip t) in *. clearbody s. clear t.
  replace (isdigit s) with false.
  2:{ destruct s as [| c s]; [done |]. simpl in Hall.
      apply andb_true_iff in Hall as [Hc _].
      destruct (letter_char c Hc) as (_ & Hd & _). unfold isdigit. simpl. by rewrite Hd. }
  unfold column_index_from_string. rewrite upper_upper.
  destruct s as [| a [| b [| c [| d s]]]]; [done | | | | simpl in Hlen; lia];
    simpl in Hall;
    repeat match goal with
      | H : _ && _ = true |- _ => apply andb_true_iff in H as [? ?]
      end;
    repeat match goal with
      | H : isletter ?x = true |- _ =>
          destruct (letter_char x H) as (_ & _ & ? & ? & ? & ?); clear H
      end;
    unfold upper; simpl flat_map;
    repeat match goal with H : upper_char _ = _ |- _ => rewrite H; clear H end;
    simpl;
    repeat match goal with H : letter_pos _ = _ |- _ => rewrite H; clear H end;
    unfold len; simpl length;
    match goal with
    | |- context [(0 <? ?v) && (?v <? 18279)] =>
        destruct (Z.ltb_spec 0 v); [| lia]; destruct (Z.ltb_spec v 18279); [| lia]
    end;
    simpl; f_equal; lia.
Qed.

Lemma letter_value_capital c : iscapital c = true -> letter_pos c = Some (letter_value c).
Proof.
  unfold iscapital, letter_pos, letter_value. intros H. rewrite H.
  apply andb_true_iff in H as [_ H]. by rewrite H.
Qed.

Lemma column_value_snoc t c :
  column_value (t ++ [c]) = 26 * column_value t + letter_value c.
Proof.
  induction t as [| d t IH]; simpl.
  - unfold len. simpl. lia.
  - rewrite IH. unfold len. rewrite length_app. simpl length.
    replace (Z.of_nat (length t + 1)) with (Z.of_nat (length t) + 1) by lia.
    rewrite Z.pow_add_r by lia. lia.
Qed.

Lemma weigh_capital l p :
  forallb iscapital l = true -> weigh l p = Some (p * column_value (rev l)).
Proof.
  revert p. induction l as [| c l IH]; intros p H.
  - simpl. f_equal. lia.
  - simpl in H. apply andb_true_iff in H as [Hc Hl]. simpl.
    rewrite (letter_value_capital c Hc), (IH _ Hl), column_value_snoc. f_equal. lia.
Qed.

Lemma weigh_inv l p v : weigh l p = Some v -> forallb iscapital l = true.
Proof.
  revert p v. induction l as [| c l IH]; intros p v; [done |]. simpl.
  destruct (letter_pos c) as [q |] eqn:Ec; [| done].
  destruct (weigh l (26 * p)) as [u |] eqn:El; [| done]. intros _.
  rewrite (IH _ _ El), andb_true_r.
  unfold letter_pos in Ec. unfold iscapital. by destruct (_ && _).
Qed.

Lemma letter_value_bounds c : iscapital c = true -> 1 <= letter_value c <= 26.
Proof.
  unfold iscapital, letter_value. intros H. apply andb_true_iff in H as [H1 H2].
  rewrite H2. apply N.leb_le in H1, H2. lia.
Qed.

Lemma capital_token_bounds u : capital_token u -> 0 < column_value u < 18279.
Proof.
  intros (Hne & Hlen & Hall).
  destruct u as [| a [| b [| c [| d u]]]]; [done | | | | simpl in Hlen; lia];
    simpl in Hall;
    repeat match goal with
      | H : _ && _ = true |- _ => apply andb_true_iff in H as [? ?]
      end;
    repeat match goal with
      | H : iscapital ?x = true |- _ => apply letter_value_bounds in H
      end;
    simpl; unfold len; simpl; lia.
Qed.

(** The column letter conversion on a text already in upper case. *)
Lemma column_index_capital u :
  upper u = u -> capital_token u -> column_index_from_string u = Ok (column_value u).
Proof.
  intros Hu Hcap. unfold column_index_from_string. rewrite Hu.
  pose proof (capital_token_bounds _ Hcap) as Hb.
  destruct Hcap as (Hne & Hlen & Hall).
  destruct (Z.ltb_spec 3 (len u)); [unfold len in *; lia |].
  rewrite weigh_capital by (by rewrite forallb_rev).
  rewrite rev_involutive, Z.mul_1_l.
  destruct (Z.ltb_spec 0 (column_value u)); [| lia].
  destruct (Z.ltb_spec (column_value u) 18279); [done | lia].
Qed.

Lemma column_index_other u :
  upper u = u -> ~ capital_token u -> column_index_from_string u = Raise ValueError.
Proof.
  intros Hu Hn. unfold column_index_from_string. rewrite Hu.
  destruct (Z.ltb_spec 3 (len u)); [done |].
  destruct (weigh (rev u) 1) as [idx |] eqn:Ew; [| done].
  pose proof (weigh_inv _ _ _ Ew) as Hcap. rewrite forallb_rev in Hcap.
  rewrite weigh_capital in Ew by (by rewrite forallb_rev).
  rewrite rev_involutive in Ew. injection Ew as <-.
  destruct (Z.ltb_spec 0 (1 * column_value u)); [| done].
  exfalso. apply Hn. split; [| split; [unfold len in *; lia | done]].
  intros E. rewrite E in *. simpl in *. lia.
Qed.

Lemma parse_capitals t :
  isdigit (strip t) = false -> capital_token (upper (strip t)) ->
  Excel2Word.parse_col_arg t = Ok (column_value (upper (strip t))).
Proof.
  intros Hd Hcap. unfold Excel2Word.parse_col_arg. rewrite Hd.
  apply column_index_capital; [apply upper_upper | done].
Qed.

Lemma parse_no_capitals t :
  isdigit (strip t) = false -> ~ capital_token (upper (strip t)) ->
  Excel2Word.parse_col_arg t = Raise ValueError.
Proof.
  intros Hd Hcap. unfold Excel2Word.parse_col_arg. rewrite Hd.
  apply column_index_other; [apply upper_upper | done].
Qed.

Lemma case_of_letters c :
  iscapital c = true -> lower [c] = [(c + 32)%N] /\ upper [(c + 32)%N] = [c].
Proof.
  unfold iscapital. intros H. apply andb_true_iff in H as [H1 H2].
  apply N.leb_le in H1, H2.
  unfold lower, upper, lower_char, upper_char. simpl.
  destruct (N.leb_spec 65 c); [| lia]. destruct (N.leb_spec c 90); [| lia].
  destruct (N.leb_spec 97 (c + 32)); [| lia]. destruct (N.leb_spec (c + 32) 122); [| lia].
  simpl. split; [done |]. do 2 f_equal. lia.
Qed.

Lemma parse_case_insensitive t :
  Excel2Word.parse_col_arg (lower t) = Excel2Word.parse_col_arg (upper t).
Proof.
  unfold Excel2Word.parse_col_arg.
  rewrite strip_lower, strip_upper, isdigit_lower, isdigit_upper.
  destruct (isdigit (strip t)) eqn:E.
  - destruct (isdigit_fixed _ E) as [-> ->]. done.
  - by rewrite upper_lower, upper_upper.
Qed.



(** ** Whitespace of a table cell *)

Lemma is_white_isspace c : is_white c = isspace c.
Proof. apply Bool.eqb_prop. revert c. tabled. Qed.

Lemma trim_left_lstrip s : trim_left s = lstrip s.
Proof.
  induction s as [| c s IH]; [done |]. simpl.
  rewrite is_white_isspace. by destruct (isspace c).
Qed.

Lemma trim_strip s : trim s = strip s.
Proof. unfold trim, strip, rstrip. by rewrite !trim_left_lstrip. Qed.

(** One whitespace character replaced by another changes no word. *)
Lemma split_replace_white a b w s :
  isspace a = true -> isspace b = true -> split_from w (replace a b s) = split_from w s.
Proof.
  intros Ha Hb. revert w. induction s as [| c s IH]; intros w; [done |].
  simpl. destruct (N.eqb_spec c a) as [-> | Hc].
  - rewrite Ha, Hb. destruct w; by rewrite IH.
  - destruct (isspace c), w; by rewrite ?IH.
Qed.

Lemma split_replace w s : split_from w (replace 160 32 s) = split_from w s.
Proof. by apply split_replace_white. Qed.

Lemma split_from_not_nil w s : w <> [] -> split_from w s <> [].
Proof.
  revert w. induction s as [| c s IH]; intros w Hw.
  - simpl. by destruct w.
  - simpl. destruct (isspace c).
    + by destruct w.
    + by apply IH.
Qed.

Lemma split_nil_white s : split_from [] s = [] -> forallb isspace s = true.
Proof.
  induction s as [| c s IH]; [done |]. simpl.
  destruct (isspace c); [done |].
  intros H. by apply split_from_not_nil in H.
Qed.

Lemma trail_cons c s : s <> [] -> trail (c :: s) = trail s.
Proof. unfold trail. destruct s; [done |]. done. Qed.

Lemma trail_white c s :
  isspace c = true -> forallb isspace s = true -> trail (c :: s) = [32%N].
Proof.
  revert c. induction s as [| d s IH]; intros c Hc Hs.
  - unfold trail. simpl. by rewrite Hc.
  - simpl in Hs. apply andb_true_iff in Hs as [Hd Hs].
    rewrite trail_cons by done. by apply IH.
Qed.

Lemma join_cons2 sep p q r : join sep (p :: q :: r) = p ++ sep ++ join sep (q :: r).
Proof. done. Qed.

(** [squeeze] against [split] and [join], inside a word and inside a run. *)
Lemma squeeze_split s :
  (forall w, w <> [] ->
     rev w ++ squeeze_from false s = join [32%N] (split_from w s) ++ trail s) /\
  squeeze_from true s =
    join [32%N] (split_from [] s) ++
    match split_from [] s with [] => [] | _ => trail s end.
Proof.
  induction s as [| c s [IH1 IH2]].
  - split; [| done]. intros w Hw. destruct w as [| a w]; [done |].
    cbn [split_from join]. change (trail []) with (@nil N).
    by rewrite !app_nil_r.
  - split.
    + intros w Hw. simpl. rewrite is_white_isspace.
      destruct (isspace c) eqn:Ec.
      * destruct w as [| a w]; [done |]. rewrite IH2.
        destruct (split_from [] s) as [| p ps] eqn:Es.
        -- simpl. rewrite (trail_white c s Ec (split_nil_white s Es)). done.
        -- rewrite join_cons2. rewrite <- !app_assoc. simpl.
           rewrite trail_cons; [done |]. intros ->. done.
      * replace (rev w ++ c :: squeeze_from false s)
          with (rev (c :: w) ++ squeeze_from false s) by (simpl; by rewrite <- app_assoc).
        rewrite IH1 by done. f_equal.
        destruct s; [unfold trail; simpl; by rewrite Ec | symmetry; by apply trail_cons].
    + simpl. rewrite is_white_isspace. destruct (isspace c) eqn:Ec.
      * rewrite IH2. destruct (split_from [] s) eqn:Es; [done |].
        rewrite trail_cons; [done |]. intros ->. done.
      * change (c :: squeeze_from false s) with (rev [c] ++ squeeze_from false s).
        rewrite IH1 by done.
        destruct (split_from [c] s) eqn:Es; [by apply split_from_not_nil in Es |].
        f_equal. destruct s; [unfold trail; simpl; by rewrite Ec | symmetry; by apply trail_cons].
Qed.

Lemma squeeze_lead s :
  squeeze_from false s =
    match s with
    | c :: _ => if isspace c then [32%N] else []
    | [] => []
    end ++ squeeze_from true s.
Proof.
  destruct s as [| c s]; [done |]. simpl. rewrite is_white_isspace.
  by destruct (isspace c).
Qed.

Lemma rev_cons_not_nil {A} (a : A) w : rev (a :: w) <> [].
Proof. simpl. by destruct (rev w). Qed.

Lemma split_solid w s :
  forallb (fun c => negb (isspace c)) w = true ->
  Forall solid (split_from w s).
Proof.
  revert w. induction s as [| c s IH]; intros w Hw.
  - simpl. destruct w as [| a w]; [constructor |].
    constructor; [| constructor]. split; [apply rev_cons_not_nil |].
    apply forallb_forall. intros x Hx. apply in_rev in Hx.
    by apply (proj1 (forallb_forall _ _) Hw).
  - simpl. destruct (isspace c) eqn:Ec.
    + destruct w as [| a w]; [by apply IH |].
      constructor; [| by apply IH]. split; [apply rev_cons_not_nil |].
      apply forallb_forall. intros x Hx. apply in_rev in Hx.
      by apply (proj1 (forallb_forall _ _) Hw).
    + apply IH. simpl. by rewrite Ec, Hw.
Qed.

Lemma lstrip_app x y : x <> [] -> lstrip x = x -> lstrip (x ++ y) = x ++ y.
Proof.
  destruct x as [| c x]; [done |]. intros _. simpl.
  destruct (isspace c) eqn:Ec; [| done].
  intros H. exfalso.
  assert (L : forall s, (length (lstrip s) <= length s)%nat).
  { induction s as [| d s IHs]; [done |]. simpl. destruct (isspace d); simpl; lia. }
  specialize (L x). rewrite H in L. simpl in L. lia.
Qed.

Lemma solid_tight p : solid p -> tight p /\ p <> [].
Proof.
  intros [Hne Hall]. split; [| done]. split.
  - by apply lstrip_id.
  - apply lstrip_id. apply forallb_forall. intros x Hx. apply in_rev in Hx.
    by apply (proj1 (forallb_forall _ _) Hall).
Qed.

Lemma join_tight sep ps :
  Forall solid ps -> ps <> [] -> tight (join sep ps) /\ join sep ps <> [].
Proof.
  induction ps as [| p ps IH]; [done |]. intros H _.
  apply Forall_cons in H as [Hp Hps].
  destruct ps as [| q r]; [by apply solid_tight |].
  destruct (IH Hps) as [[T1 T2] Tne]; [done |].
  destruct (solid_tight p Hp) as [[P1 P2] Pne].
  rewrite join_cons2. split; [| by destruct p].
  split.
  - by apply lstrip_app.
  - rewrite !rev_app_distr, <- app_assoc. apply lstrip_app; [| done].
    intros E. apply (f_equal (@rev N)) in E. rewrite rev_involutive in E. done.
Qed.

Lemma lstrip_white_app a x : forallb isspace a = true -> lstrip (a ++ x) = lstrip x.
Proof.
  induction a as [| c a IH]; [done |]. simpl. intros H.
  apply andb_true_iff in H as [-> H]. by apply IH.
Qed.

Lemma strip_core a m b :
  forallb isspace a = true -> forallb isspace b = true -> tight m ->
  strip (a ++ m ++ b) = m.
Proof.
  intros Ha Hb [T1 T2]. unfold strip, rstrip.
  rewrite lstrip_white_app by done.
  destruct m as [| c m].
  - simpl. assert (E : lstrip b = []).
    { rewrite <- (app_nil_r b). rewrite lstrip_white_app by done. done. }
    by rewrite E.
  - rewrite lstrip_app by done.
    rewrite rev_app_distr, lstrip_white_app.
    + rewrite T2. apply rev_involutive.
    + apply forallb_forall. intros x Hx. apply in_rev in Hx.
      by apply (proj1 (forallb_forall _ _) Hb).
Qed.

Lemma clean_text_tidy text : Word2Excel.clean_text text = tidy text.
Proof.
  unfold Word2Excel.clean_text, tidy, squeeze, split.
  rewrite trim_strip, split_replace, squeeze_lead.
  destruct (squeeze_split text) as [_ ->].
  pose proof (split_solid [] text eq_refl) as Hs.
  symmetry. apply strip_core.
  - destruct text as [| c ?]; [done |]. by destruct (isspace c).
  - destruct (split_from [] text); [done |]. unfold trail.
    destruct (last text) as [c |]; [| done]. by destruct (isspace c).
  - destruct (split_from [] text) as [| p ps] eqn:E; [done |].
    by apply join_tight.
Qed.

(** ** Loops *)

Lemma for_each_app {S X} (xs ys : list X) (body : X -> S -> Exc S) (s : S) :
  for_each (xs ++ ys) body s = (s' ← for_each xs body s; for_each ys body s').
Proof.
  revert s. induction xs as [| x xs IH]; intros s; [done |].
  simpl. destruct (body x s) as [s1 | e]; [apply IH | done].
Qed.

Lemma for_each_map {S X Y} (f : X -> Y) (xs : list X) (body : Y -> S -> Exc S) (s : S) :
  for_each (map f xs) body s = for_each xs (fun x => body (f x)) s.
Proof.
  revert s. induction xs as [| x xs IH]; intros s; [done |].
  simpl. destruct (body (f x) s) as [s1 | e]; [apply IH | done].
Qed.

(** A loop in a loop runs over the pairs, row by row. *)
Lemma for_each_nested {S X Y} (xs : list X) (ys : list Y) (body : X -> Y -> S -> Exc S) (s : S) :
  for_each xs (fun x s => for_each ys (body x) s) s =
  for_each (list_prod xs ys) (fun p s => body p.1 p.2 s) s.
Proof.
  revert s. induction xs as [| x xs IH]; intros s; [done |].
  simpl. rewrite for_each_app, for_each_map. simpl.
  destruct (for_each ys (body x) s) as [s1 | e]; [apply IH | done].
Qed.

(** A loop whose body never raises is a fold. *)
Lemma for_each_fold {S X} (xs : list X) (body : X -> S -> Exc S) (step : X -> S -> S)
    (Inv : S -> Prop) (s : S) :
  Inv s ->
  (forall x s, In x xs -> Inv s -> body x s = Ok (step x s) /\ Inv (step x s)) ->
  for_each xs body s = Ok (foldl (fun s x => step x s) s xs) /\
  Inv (foldl (fun s x => step x s) s xs).
Proof.
  revert s. induction xs as [| x xs IH]; intros s Hs Hbody; [done |].
  destruct (Hbody x s (or_introl eq_refl) Hs) as [E Hs']. simpl. rewrite E. simpl.
  apply IH; [done |]. intros y t Hy. apply Hbody. by right.
Qed.

(** A loop that appends one item per round builds the list of the items. *)
Lemma for_each_collect {X Y} (xs : list X) (body : X -> list Y -> Exc (list Y))
    (item : X -> Y) (acc : list Y) :
  (forall x acc, In x xs -> body x acc = Ok (acc ++ [item x])) ->
  for_each xs body acc = Ok (acc ++ map item xs).
Proof.
  revert acc. induction xs as [| x xs IH]; intros acc H.
  - simpl. by rewrite app_nil_r.
  - simpl. rewrite H by (by left). simpl.
    rewrite IH by (intros; apply H; by right).
    by rewrite <- app_assoc.
Qed.

Lemma in_py_range x lo hi : In x (py_range lo hi) <-> lo <= x < hi.
Proof.
  unfold py_range. rewrite in_map_iff. split.
  - intros (k & <- & Hk). apply in_seq in Hk. lia.
  - intros H. exists (Z.to_nat (x - lo)). split; [lia |]. apply in_seq. lia.
Qed.

Lemma length_py_range lo hi : length (py_range lo hi) = Z.to_nat (hi - lo).
Proof. unfold py_range. by rewrite length_map, length_seq. Qed.

Lemma lookup_py_range lo hi (k : nat) :
  (k < Z.to_nat (hi - lo))%nat -> py_range lo hi !! k = Some (lo + Z.of_nat k).
Proof.
  intros H. unfold py_range. rewrite list_lookup_fmap.
  rewrite lookup_seq_lt by done. done.
Qed.

Lemma foldl_append {X Y} (item : X -> Y) (xs : list X) (acc : list Y) :
  foldl (fun acc x => acc ++ [item x]) acc xs = acc ++ map item xs.
Proof.
  revert acc. induction xs as [| x xs IH]; intros acc; simpl.
  - by rewrite app_nil_r.
  - by rewrite IH, <- app_assoc.
Qed.

Lemma py_index_lookup {A} (l : list A) (i : Z) a :
  0 <= i -> l !! Z.to_nat i = Some a -> py_index l i = Ok a.
Proof.
  intros Hi Ha. unfold py_index.
  pose proof (lookup_lt_Some _ _ _ Ha) as Hlt.
  destruct (Z.ltb_spec i 0); [lia |].
  destruct (Z.ltb_spec i 0); [lia |].
  destruct (Z.leb_spec (Z.of_nat (length l)) i); [lia |].
  simpl. by rewrite Ha.
Qed.

(** ** Cells of a worksheet *)

Lemma cell_at_update r c f ws r' c' :
  cell_at (update_cell r c f ws) r' c' =
    if decide ((r, c) = (r', c')) then f (cell_at ws r c) else cell_at ws r' c'.
Proof.
  unfold cell_at, update_cell. simpl. rewrite lookup_insert.
  case_decide as E; [| done]. by inversion E.
Qed.

Lemma update_cell_twice r c f g ws :
  update_cell r c f (update_cell r c g ws) = update_cell r c (fun x => f (g x)) ws.
Proof.
  unfold update_cell at 1. rewrite cell_at_update. rewrite decide_True by done.
  unfold update_cell. simpl. by rewrite insert_insert_eq.
Qed.

(** A loop of cell updates: the sheet keeps its title, and a cell ends as
    its old content changed by the updates made at its position, in order. *)
Lemma for_each_update {X} (ps : list X) (pos : X -> Z * Z) (g : X -> Cell -> Cell)
    (body : X -> Worksheet -> Exc Worksheet) (ws : Worksheet) :
  (forall x ws, In x ps -> body x ws = Ok (update_cell (pos x).1 (pos x).2 (g x) ws)) ->
  exists ws',
    for_each ps body ws = Ok ws' /\ title ws' = title ws /\
    forall r c,
      cell_at ws' r c =
        foldl (fun cell x => if decide (pos x = (r, c)) then g x cell else cell)
          (cell_at ws r c) ps.
Proof.
  revert ws. induction ps as [| x ps IH]; intros ws Hbody.
  - exists ws. done.
  - simpl. rewrite Hbody by (by left). simpl.
    destruct (IH (update_cell (pos x).1 (pos x).2 (g x) ws)) as (ws' & E & Ht & Hc).
    { intros; apply Hbody; by right. }
    exists ws'. split; [done |]. split; [done |].
    intros r c. rewrite Hc, cell_at_update.
    destruct (pos x) as [a b] eqn:Ep. simpl.
    destruct (decide ((a, b) = (r, c))) as [[= -> ->] | Hne]; done.
Qed.

Lemma foldl_miss {X} (ps : list X) (pos : X -> Z * Z) (g : X -> Cell -> Cell) q cell :
  (forall x, In x ps -> pos x <> q) ->
  foldl (fun cell x => if decide (pos x = q) then g x cell else cell) cell ps = cell.
Proof.
  revert cell. induction ps as [| x ps IH]; intros cell H; [done |].
  simpl. rewrite decide_False by (apply H; by left).
  apply IH. intros; apply H; by right.
Qed.

Lemma foldl_hit {X} (ps : list X) (pos : X -> Z * Z) (g : X -> Cell -> Cell) q g0 cell :
  (forall x, In x ps -> pos x = q -> g x = g0) ->
  (forall y, g0 (g0 y) = g0 y) ->
  (exists x, In x ps /\ pos x = q) ->
  foldl (fun cell x => if decide (pos x = q) then g x cell else cell) cell ps = g0 cell.
Proof.
  intros Hsame Hidem. revert cell.
  assert (Hpost : forall ps' cell, (forall x, In x ps' -> pos x = q -> g x = g0) ->
     foldl (fun cell x => if decide (pos x = q) then g x cell else cell) (g0 cell) ps' = g0 cell).
  { induction ps' as [| y ps' IH']; intros cell H; [done |]. simpl.
    case_decide as E.
    - rewrite (H y (or_introl eq_refl) E), Hidem. apply IH'.
      intros z Hz Hq; apply H; [by right | done].
    - apply IH'. intros z Hz Hq; apply H; [by right | done]. }
  induction ps as [| x ps IH]; intros cell (x0 & Hin & Hq); [done |].
  simpl. case_decide as E.
  - rewrite (Hsame x (or_introl eq_refl) E). apply Hpost.
    intros z Hz Hq'; apply Hsame; [by right | done].
  - destruct Hin as [-> | Hin]; [done |].
    apply IH; [intros z Hz Hq'; apply Hsame; [by right | done] | by exists x0].
Qed.

(** ** The importer's two passes *)

Lemma update_cell_ext r c f g ws :
  f (cell_at ws r c) = g (cell_at ws r c) -> update_cell r c f ws = update_cell r c g ws.
Proof. unfold update_cell. by intros ->. Qed.

Lemma in_block_spec r1 c1 n m r c :
  in_block r1 c1 n m r c = true <-> r1 <= r < r1 + n /\ c1 <= c < c1 + m.
Proof.
  unfold in_block. rewrite !andb_true_iff, !Z.leb_le, !Z.ltb_lt. lia.
Qed.

Lemma write_values_cells table_data r1 c1 n m ws :
  1 <= r1 -> 1 <= c1 -> n <= len table_data ->
  exists ws',
    Word2Excel.write_values table_data r1 c1 n m ws = Ok ws' /\ title ws' = title ws /\
    forall r c,
      cell_at ws' r c =
        if in_block r1 c1 n m r c then copied (padded table_data (r - r1) (c - c1))
        else cell_at ws r c.
Proof.
  intros Hr Hc Hn. unfold Word2Excel.write_values. rewrite for_each_nested.
  edestruct (for_each_update (list_prod (py_range 0 n) (py_range 0 m))
               (fun p => (r1 + p.1, c1 + p.2))
               (fun p _ => copied (padded table_data p.1 p.2))) as (ws' & E & Ht & Hcells);
    [| exists ws'; split; [exact E |]; split; [exact Ht |] ].
  - intros [i j] ws0 Hin. apply in_prod_iff in Hin as [Hi Hj].
    apply in_py_range in Hi, Hj. simpl.
    destruct (table_data !! Z.to_nat i) as [row |] eqn:Erow.
    2:{ apply lookup_ge_None in Erow. unfold len in Hn. lia. }
    rewrite (py_index_lookup _ _ _ (proj1 Hi) Erow). simpl.
    assert (Hval : (if j <? len row then py_index row j else Ok []) =
                   Ok (padded table_data i j)).
    { unfold padded. rewrite Erow. destruct (Z.ltb_spec j (len row)) as [Hlt | Hge].
      - destruct (row !! Z.to_nat j) as [v |] eqn:Ev.
        + simpl. apply py_index_lookup; [lia | done].
        + apply lookup_ge_None in Ev. unfold len in Hlt. lia.
      - rewrite lookup_ge_None_2 by (unfold len in Hge; lia). done. }
    rewrite Hval. simpl. unfold ws_cell_value, ws_cell.
    destruct (Z.ltb_spec (r1 + i) 1); [lia |].
    destruct (Z.ltb_spec (c1 + j) 1); [lia |]. simpl.
    rewrite !update_cell_twice. reflexivity.
  - intros r c. rewrite Hcells.
    destruct (in_block r1 c1 n m r c) eqn:Eb.
    + apply in_block_spec in Eb.
      apply (foldl_hit (list_prod (py_range 0 n) (py_range 0 m))
               (fun p => (r1 + p.1, c1 + p.2))
               (fun p _ => copied (padded table_data p.1 p.2)) (r, c)
               (fun _ => copied (padded table_data (r - r1) (c - c1)))).
      * intros [i j] _ [= <- <-]. simpl.
        replace (r1 + i - r1) with i by lia. replace (c1 + j - c1) with j by lia. done.
      * done.
      * exists (r - r1, c - c1). split; [| simpl; f_equal; lia].
        apply in_prod_iff. rewrite !in_py_range. lia.
    + apply foldl_miss. intros [i j] Hin [= <- <-].
      apply in_prod_iff in Hin as [Hi Hj]. apply in_py_range in Hi, Hj.
      assert (in_block r1 c1 n m (r1 + i) (c1 + j) = true) by (apply in_block_spec; lia).
      congruence.
Qed.

Lemma formatted_idem y : formatted (formatted y) = formatted y.
Proof.
  unfold formatted, Word2Excel.border_unset, set_alignment, set_border.
  destruct y as [v a [[[l |] ? ? ? ?] |]]; done.
Qed.

Lemma formatted_copied v : formatted (copied v) = copied v.
Proof. done. Qed.

Lemma format_range_cells r1 r2 c1 c2 ws :
  1 <= r1 -> 1 <= c1 ->
  exists ws',
    Word2Excel.format_range r1 r2 c1 c2 ws = Ok ws' /\ title ws' = title ws /\
    forall r c,
      cell_at ws' r c =
        if in_block r1 c1 (r2 - r1 + 1) (c2 - c1 + 1) r c then formatted (cell_at ws r c)
        else cell_at ws r c.
Proof.
  intros Hr Hc. unfold Word2Excel.format_range. rewrite for_each_nested.
  edestruct (for_each_update (list_prod (py_range r1 (r2 + 1)) (py_range c1 (c2 + 1)))
               (fun p => p) (fun _ => formatted)) as (ws' & E & Ht & Hcells);
    [| exists ws'; split; [exact E |]; split; [exact Ht |] ].
  - intros [rr cc] ws0 Hin. apply in_prod_iff in Hin as [Hi Hj].
    apply in_py_range in Hi, Hj. simpl. unfold ws_cell.
    destruct (Z.ltb_spec rr 1); [lia |]. destruct (Z.ltb_spec cc 1); [lia |]. simpl.
    destruct (Word2Excel.border_unset (cell_at ws0 rr cc)) eqn:Eu.
    + rewrite update_cell_twice. apply f_equal, update_cell_ext.
      unfold formatted. by rewrite Eu.
    + apply f_equal, update_cell_ext. unfold formatted. by rewrite Eu.
  - intros r c. rewrite Hcells.
    destruct (in_block r1 c1 (r2 - r1 + 1) (c2 - c1 + 1) r c) eqn:Eb.
    + apply in_block_spec in Eb.
      apply (foldl_hit (list_prod (py_range r1 (r2 + 1)) (py_range c1 (c2 + 1)))
               (fun p => p) (fun _ => formatted) (r, c) formatted);
        [done | apply formatted_idem |].
      exists (r, c). split; [| done]. apply in_prod_iff. rewrite !in_py_range. lia.
    + apply foldl_miss. intros [i j] Hin [= <- <-].
      apply in_prod_iff in Hin as [Hi Hj]. apply in_py_range in Hi, Hj.
      assert (in_block r1 c1 (r2 - r1 + 1) (c2 - c1 + 1) i j = true)
        by (apply in_block_spec; lia).
      congruence.
Qed.

Lemma get_column_letter_ok c : 1 <= c <= 18278 -> exists a, get_column_letter c = Ok a.
Proof.
  intros H. unfold get_column_letter.
  destruct (Z.ltb_spec c 1); [lia |]. destruct (Z.ltb_spec 18278 c); [lia |]. simpl.
  repeat case_match; eauto.
Qed.

Lemma get_column_letter_raise c : 18278 < c -> get_column_letter c = Raise ValueError.
Proof.
  intros H. unfold get_column_letter.
  destruct (Z.ltb_spec c 1); [done |]. destruct (Z.ltb_spec 18278 c); [done | lia].
Qed.

(** The two passes together. *)
Lemma import_cells table_data cols_word r1 r2 c1 c2 ws :
  1 <= r1 -> 1 <= c1 ->
  exists ws',
    (ws1 ← Word2Excel.write_values table_data r1 c1
             (Z.min (len table_data) (r2 - r1 + 1)) (Z.min cols_word (c2 - c1 + 1)) ws;
     Word2Excel.format_range r1 r2 c1 c2 ws1) = Ok ws' /\
    title ws' = title ws /\
    forall r c, cell_at ws' r c =
                  imported_cell table_data cols_word r1 r2 c1 c2 (cell_at ws r c) r c.
Proof.
  intros Hr Hc.
  destruct (write_values_cells table_data r1 c1
              (Z.min (len table_data) (r2 - r1 + 1)) (Z.min cols_word (c2 - c1 + 1)) ws)
    as (ws1 & E1 & T1 & C1); [done | done | lia |].
  destruct (format_range_cells r1 r2 c1 c2 ws1) as (ws2 & E2 & T2 & C2); [done | done |].
  exists ws2. rewrite E1. simpl. split; [done |]. split; [congruence |].
  intros r c. rewrite C2, C1. unfold imported_cell.
  destruct (in_block r1 c1 (Z.min _ _) (Z.min _ _) r c) eqn:Eb; [| done].
  apply in_block_spec in Eb.
  assert (in_block r1 c1 (r2 - r1 + 1) (c2 - c1 + 1) r c = true) as ->
    by (apply in_block_spec; lia).
  apply formatted_copied.
Qed.

(** ** The exporter's loops *)

Lemma py_range_snoc (n : nat) :
  py_range 0 (Z.of_nat (S n)) = py_range 0 (Z.of_nat n) ++ [Z.of_nat n].
Proof.
  unfold py_range. rewrite !Z.sub_0_r, !Nat2Z.id, seq_S, map_app. done.
Qed.

(** The invariant rule for a counting loop. *)
Lemma for_each_count {St} (n : nat) (body : Z -> St -> Exc St) (P : nat -> St -> Prop) (s : St) :
  P 0%nat s ->
  (forall k s, (k < n)%nat -> P k s -> exists s', body (Z.of_nat k) s = Ok s' /\ P (S k) s') ->
  exists s', for_each (py_range 0 (Z.of_nat n)) body s = Ok s' /\ P n s'.
Proof.
  intros H0 Hstep. induction n as [| n IH].
  - exists s. done.
  - destruct IH as (s1 & E1 & P1); [intros k t Hk; apply Hstep; lia |].
    destruct (Hstep n s1) as (s2 & E2 & P2); [lia | done |].
    exists s2. rewrite py_range_snoc, for_each_app, E1. simpl. by rewrite E2.
Qed.

Lemma insert_take_drop_step {A} (l1 l2 : list A) (k : nat) x :
  l1 !! k = Some x -> (k < length l2)%nat ->
  <[k := x]> (take k l1 ++ drop k l2) = take (S k) l1 ++ drop (S k) l2.
Proof.
  intros H1 H2. pose proof (lookup_lt_Some _ _ _ H1) as Hk.
  rewrite insert_app_r_alt by (rewrite length_take; lia).
  rewrite length_take, Nat.min_l, Nat.sub_diag by lia.
  rewrite (take_S_r _ _ _ H1), <- app_assoc. f_equal.
  destruct (drop k l2) as [| y rest] eqn:E.
  - apply (f_equal length) in E. rewrite length_drop in E. simpl in E. lia.
  - simpl. f_equal. replace (S k) with (k + 1)%nat by lia.
    rewrite <- (drop_drop l2 1 k), E. done.
Qed.

Lemma alter_insert_same {A} (f : A -> A) (l : list A) (i : nat) (x : A) :
  alter f i (<[i := x]> l) = <[i := f x]> l.
Proof. rewrite !list_insert_alter, list_alter_alter_eq. done. Qed.

Lemma fill_table_grid data nrows ncols a s :
  0 <= nrows -> 0 <= ncols ->
  length data = Z.to_nat nrows ->
  Forall (fun row => length row = Z.to_nat ncols) data ->
  Forall (Forall xml_text) data ->
  Excel2Word.fill_table data nrows ncols
    (mkTable a s (replicate (Z.to_nat nrows) (replicate (Z.to_nat ncols) []))) =
  Ok (mkTable a s (map (map run_text) data)).
Proof.
  intros Hn Hm Hlen Hrows Hxml.
  set (n := Z.to_nat nrows) in *. set (m := Z.to_nat ncols) in *.
  set (rows0 := replicate n (replicate m ([] : str))).
  set (stored := map (map run_text) data).
  assert (Hlen' : length stored = n) by (unfold stored; by rewrite length_map).
  unfold Excel2Word.fill_table.
  replace nrows with (Z.of_nat n) by lia. replace ncols with (Z.of_nat m) by lia.
  edestruct (for_each_count n
    (fun i tbl => for_each (py_range 0 (Z.of_nat m))
       (fun j tbl => cell ← tbl_cell tbl i j; row ← py_index data i;
                     text ← py_index row j; set_text cell text tbl) tbl)
    (fun k t => t = mkTable a s (take k stored ++ drop k rows0))
    (mkTable a s rows0)) as (t' & E & ->).
  - done.
  - intros i t Hi ->.
    destruct (data !! i) as [d |] eqn:Ed; [| apply lookup_ge_None in Ed; lia].
    assert (Hd : length d = m).
    { rewrite Forall_forall in Hrows. apply Hrows.
      by eapply list_elem_of_lookup_2. }
    assert (Hdx : Forall xml_text d).
    { rewrite Forall_forall in Hxml. apply Hxml.
      by eapply list_elem_of_lookup_2. }
    set (d' := map run_text d).
    assert (Ed' : stored !! i = Some d').
    { unfold stored. by rewrite list_lookup_fmap, Ed. }
    assert (Hd' : length d' = m) by (unfold d'; by rewrite length_map).
    set (before := take i stored ++ drop i rows0).
    assert (Hrow0 : before !! i = Some (replicate m ([] : str))).
    { unfold before. rewrite lookup_app_r by (rewrite length_take; lia).
      rewrite length_take, Nat.min_l, Nat.sub_diag by lia.
      rewrite lookup_drop, Nat.add_0_r. unfold rows0.
      apply lookup_replicate_2. lia. }
    edestruct (for_each_count m
      (fun j tbl => cell ← tbl_cell tbl (Z.of_nat i) j; row ← py_index data (Z.of_nat i);
                    text ← py_index row j; set_text cell text tbl)
      (fun k t => t = mkTable a s (<[i := take k d' ++ drop k (replicate m [])]> before))
      (mkTable a s before)) as (t' & E & ->).
    + simpl. rewrite list_insert_id; done.
    + intros j t Hj ->. unfold tbl_cell. simpl.
      destruct (Z.ltb_spec (Z.of_nat i) 0); [lia |].
      destruct (Z.ltb_spec (Z.of_nat j) 0); [lia |]. simpl.
      rewrite !Nat2Z.id.
      rewrite list_lookup_insert_eq by (by eapply lookup_lt_Some).
      assert (Hl : len (take j d' ++ drop j (replicate m ([] : str))) = Z.of_nat m).
      { unfold len. rewrite length_app, length_take, length_drop, length_replicate. lia. }
      rewrite Hl. destruct (Z.ltb_spec (Z.of_nat j) (Z.of_nat m)); [| lia]. simpl.
      rewrite (py_index_lookup data (Z.of_nat i) d) by (rewrite ?Nat2Z.id; done || lia).
      simpl.
      destruct (d !! j) as [v |] eqn:Ev; [| apply lookup_ge_None in Ev; lia].
      rewrite (py_index_lookup d (Z.of_nat j) v) by (rewrite ?Nat2Z.id; done || lia).
      simpl. unfold set_text.
      assert (Hv : forallb xml_char v = true).
      { rewrite Forall_forall in Hdx. apply Hdx. by eapply list_elem_of_lookup_2. }
      rewrite Hv. eexists. split; [done |]. simpl. f_equal.
      rewrite alter_insert_same. f_equal.
      apply insert_take_drop_step; [| by rewrite length_replicate].
      unfold d'. by rewrite list_lookup_fmap, Ev.
    + exists (mkTable a s (<[i := take m d' ++ drop m (replicate m [])]> before)).
      split; [exact E |]. f_equal.
      rewrite <- Hd' at 1. rewrite firstn_all.
      rewrite drop_ge by (by rewrite length_replicate). rewrite app_nil_r.
      unfold before. apply insert_take_drop_step; [done |].
      unfold rows0. by rewrite length_replicate.
  - rewrite E. f_equal. f_equal.
    rewrite <- Hlen' at 1. rewrite firstn_all.
    rewrite drop_ge by (unfold rows0; by rewrite length_replicate).
    apply app_nil_r.
Qed.

Lemma read_region_grid ws r1 r2 c1 c2 :
  1 <= r1 -> 1 <= c1 ->
  Excel2Word.read_region ws r1 r2 c1 c2 = Ok (grid_of ws r1 r2 c1 c2).
Proof.
  intros Hr Hc. unfold Excel2Word.read_region, grid_of.
  rewrite (for_each_collect _ _
    (fun r => map (fun c => Excel2Word.cell_text (cell_value (cell_at ws r c)))
                (py_range c1 (c2 + 1)))); [done |].
  intros r acc Hin. apply in_py_range in Hin.
  rewrite (for_each_collect _ _
    (fun c => Excel2Word.cell_text (cell_value (cell_at ws r c)))); [done |].
  intros c acc' Hc'. apply in_py_range in Hc'. unfold ws_cell.
  destruct (Z.ltb_spec r 1); [lia |]. destruct (Z.ltb_spec c 1); [lia |]. done.
Qed.

Lemma length_grid_of ws r1 r2 c1 c2 :
  length (grid_of ws r1 r2 c1 c2) = Z.to_nat (r2 - r1 + 1).
Proof. unfold grid_of. rewrite length_map, length_py_range. f_equal. lia. Qed.

Lemma rows_grid_of ws r1 r2 c1 c2 :
  Forall (fun row => length row = Z.to_nat (c2 - c1 + 1)) (grid_of ws r1 r2 c1 c2).
Proof.
  unfold grid_of. apply Forall_forall. intros row Hin.
  apply list_elem_of_In, in_map_iff in Hin as (r & <- & _).
  rewrite length_map, length_py_range. f_equal. lia.
Qed.

Lemma lookup_grid_of ws r1 r2 c1 c2 (i j : nat) :
  (i < Z.to_nat (r2 - r1 + 1))%nat -> (j < Z.to_nat (c2 - c1 + 1))%nat ->
  grid_of ws r1 r2 c1 c2 !! i ≫= (.!! j) =
    Some (Excel2Word.cell_text (cell_value (cell_at ws (r1 + Z.of_nat i) (c1 + Z.of_nat j)))).
Proof.
  intros Hi Hj. unfold grid_of.
  rewrite list_lookup_fmap, lookup_py_range by lia. simpl.
  rewrite list_lookup_fmap, lookup_py_range by lia. done.
Qed.

Lemma grid_of_xml ws r1 r2 c1 c2 :
  xml_region ws r1 r2 c1 c2 -> Forall (Forall xml_text) (grid_of ws r1 r2 c1 c2).
Proof.
  intros H. unfold grid_of. apply Forall_forall. intros row Hrow.
  apply list_elem_of_In, in_map_iff in Hrow as (r & <- & Hr). apply in_py_range in Hr.
  apply Forall_forall. intros x Hx.
  apply list_elem_of_In, in_map_iff in Hx as (c & <- & Hc). apply in_py_range in Hc.
  apply H; lia.
Qed.

Lemma build_document_grid ws r1 r2 c1 c2 :
  r1 <= r2 -> c1 <= c2 -> xml_region ws r1 r2 c1 c2 ->
  Excel2Word.build_document (grid_of ws r1 r2 c1 c2) (r2 - r1 + 1) (c2 - c1 + 1) =
    Ok (exported_document (map (map line_feeds) (grid_of ws r1 r2 c1 c2))).
Proof.
  intros Hr Hc Hx. unfold Excel2Word.build_document, add_table. simpl tbl_rows.
  rewrite fill_table_grid;
    [done | lia | lia | apply length_grid_of | apply rows_grid_of | by apply grid_of_xml].
Qed.

(** ** Runs of the two programs *)

Lemma parse_col_arg_positive x c : Excel2Word.parse_col_arg x = Ok c -> 1 <= c.
Proof.
  unfold Excel2Word.parse_col_arg. destruct (isdigit (strip x)).
  - destruct (py_int (strip x)) as [v | e]; simpl; [| done].
    destruct (Z.ltb_spec v 1); [done |]. intros [= <-]. done.
  - unfold column_index_from_string. repeat case_match; try done.
    intros [= <-]. lia.
Qed.

(** The exporter, once its arguments are valid and the sheet is found. *)
Lemma export_run args w c1 c2 wb k ws :
  let r1 := Excel2Word.row_start args in
  let r2 := Excel2Word.row_end args in
  let out := Excel2Word.word_out args in
  path_exists w (Excel2Word.excel args) = true ->
  Excel2Word.parse_col_arg (Excel2Word.col_start args) = Ok c1 ->
  Excel2Word.parse_col_arg (Excel2Word.col_end args) = Ok c2 ->
  1 <= r1 -> r1 <= r2 -> c1 <= c2 ->
  load_workbook w (Excel2Word.excel args) = Ok wb ->
  Excel2Word.select_sheet (Excel2Word.sheet args) wb = Ok (Some (k, ws)) ->
  xml_region ws r1 r2 c1 c2 ->
  Excel2Word.main args w =
    emit (LoadWorkbook (Excel2Word.excel args))
      (say (ReadingRegion r1 r2 c1 c2 (r2 - r1 + 1) (c2 - c1 + 1))
         match save_error w out with
         | Some e => say (WriteWordError e) (stop (SysExit 1))
         | None =>
             emit (SaveDocument out
                     (exported_document (map (map line_feeds) (grid_of ws r1 r2 c1 c2))))
               (say (WordWritten out) (stop Returned))
         end).
Proof.
  intros r1 r2 out Hex Hc1 Hc2 Hr1 Hr12 Hc12 Hload Hsel Hxml.
  pose proof (parse_col_arg_positive _ _ Hc1) as Hpos.
  unfold Excel2Word.main. rewrite Hex, Hc1, Hc2. simpl.
  fold r1 r2 out.
  destruct (Z.ltb_spec r1 1); [lia |]. destruct (Z.ltb_spec r2 1); [lia |]. simpl.
  destruct (Z.gtb_spec c1 c2); [lia |]. destruct (Z.gtb_spec r1 r2); [lia |]. simpl.
  rewrite Hload. simpl. rewrite Hsel.
  rewrite read_region_grid by done.
  rewrite build_document_grid by done. simpl.
  by destruct (save_error w out).
Qed.

Lemma py_index_inv {A} (l : list A) (i : Z) a :
  0 <= i -> py_index l i = Ok a -> l !! Z.to_nat i = Some a.
Proof.
  intros Hi. unfold py_index. destruct (Z.ltb_spec i 0); [lia |].
  destruct (_ || _); [done |]. destruct (l !! Z.to_nat i); [| done].
  by intros [= ->].
Qed.

Lemma read_table_inside doc idx :
  0 <= idx <= len (tables doc) - 1 ->
  exists tbl, tables doc !! Z.to_nat idx = Some tbl /\
    Word2Excel.read_table doc idx = Ok (map (map Word2Excel.clean_text) (tbl_rows tbl)).
Proof.
  intros H. unfold Word2Excel.read_table.
  destruct (Z.ltb_spec idx 0); [lia |].
  destruct (Z.geb_spec idx (len (tables doc))); [lia |]. simpl.
  destruct (tables doc !! Z.to_nat idx) as [tbl |] eqn:E.
  2:{ apply lookup_ge_None in E. unfold len in *. lia. }
  exists tbl. split; [done |].
  rewrite (py_index_lookup _ _ _ (proj1 H) E). simpl. f_equal.
  rewrite (foldl_append (fun row => foldl (fun row_vals text => row_vals ++ [Word2Excel.clean_text text]) [] row)).
  simpl. apply map_ext. intros row. by rewrite foldl_append.
Qed.

Lemma read_table_outside doc idx :
  ~ (0 <= idx <= len (tables doc) - 1) -> Word2Excel.read_table doc idx = Raise IndexError.
Proof.
  intros H. unfold Word2Excel.read_table.
  destruct (Z.ltb_spec idx 0); [done |].
  destruct (Z.geb_spec idx (len (tables doc))); [done | lia].
Qed.

(** The importer, once its arguments are valid and the document opened. *)
Lemma import_run args w c1 c2 doc :
  let r1 := Word2Excel.row_start args in
  let r2 := Word2Excel.row_end args in
  path_exists w (Word2Excel.word_in args) = true ->
  Word2Excel.parse_col_arg (Word2Excel.col_start args) = Ok c1 ->
  Word2Excel.parse_col_arg (Word2Excel.col_end args) = Ok c2 ->
  1 <= r1 -> r1 <= r2 -> c1 <= c2 ->
  open_document w (Word2Excel.word_in args) = Ok doc ->
  Word2Excel.main args w =
    emit (OpenDocument (Word2Excel.word_in args))
      match Word2Excel.read_table doc (Word2Excel.table_index args) with
      | Raise e => say (ReadWordError e) (stop (SysExit 1))
      | Ok table_data => Word2Excel.write_table args w c1 c2 table_data
      end.
Proof.
  intros r1 r2 Hex Hc1 Hc2 Hr1 Hr12 Hc12 Hdoc.
  pose proof (parse_col_arg_positive _ _ Hc1) as Hpos.
  unfold Word2Excel.main. rewrite Hex, Hc1, Hc2. simpl. fold r1 r2.
  destruct (Z.ltb_spec r1 1); [lia |]. destruct (Z.ltb_spec r2 r1); [lia |].
  destruct (Z.ltb_spec c1 1); [lia |]. destruct (Z.ltb_spec c2 c1); [lia |]. simpl.
  unfold Word2Excel.read_table_from_word. rewrite Hdoc. done.
Qed.

(** The second half of the importer on a grid with at least one row. *)
Lemma write_table_run args w c1 c2 table_data cols_word k ws :
  let r1 := Word2Excel.row_start args in
  let r2 := Word2Excel.row_end args in
  let out := Word2Excel.excel_out args in
  1 <= r1 -> 1 <= c1 -> c1 <= c2 -> c2 <= 18278 ->
  py_max (map len table_data) = Ok cols_word ->
  Word2Excel.select_sheet (Word2Excel.sheet args) (Word2Excel.ensure_workbook w out)
    = Ok (Some (k, ws)) ->
  save_error w out = None ->
  exists ws' rng,
    Word2Excel.write_table args w c1 c2 table_data =
      mkRun (Print (WordTable (Word2Excel.table_index args) (len table_data) cols_word)
             :: (if path_exists w out then [LoadWorkbook out] else []) ++
             [Print (WritingRegion r1 r2 c1 c2);
              SaveWorkbook out (with_sheet k ws' (Word2Excel.ensure_workbook w out));
              Print (ExcelWritten rng out)])
        Returned /\
    title ws' = title ws /\
    forall r c, cell_at ws' r c =
                  imported_cell table_data cols_word r1 r2 c1 c2 (cell_at ws r c) r c.
Proof.
  intros r1 r2 out Hr1 Hc1 Hc12 Hc2 Hmax Hsel Hsave.
  destruct (import_cells table_data cols_word r1 r2 c1 c2 ws Hr1 Hc1) as (ws' & E & Ht & Hcells).
  destruct (get_column_letter_ok c1) as [a Ha]; [lia |].
  destruct (get_column_letter_ok c2) as [b Hb]; [lia |].
  exists ws', (a ++ str_of_int r1 ++ py ":" ++ b ++ str_of_int r2).
  split; [| done].
  unfold Word2Excel.write_table. rewrite Hmax. fold r1 r2 out. rewrite Hsel.
  rewrite E, Ha, Hb. simpl. rewrite Hsave.
  reflexivity.
Qed.

Lemma py_max_ok x xs : exists m, py_max (x :: xs) = Ok m.
Proof. by eexists. Qed.

(** Nothing the second half prints is a read error. *)
Lemma write_table_no_read_error args w c1 c2 table_data e :
  ~ In (Print (ReadWordError e)) (trace (Word2Excel.write_table args w c1 c2 table_data)).
Proof.
  unfold Word2Excel.write_table.
  repeat (case_match; simpl; try rewrite in_app_iff);
    intuition (try discriminate).
  all: repeat match goal with H : In _ _ |- _ => destruct H as [H | H]; try discriminate end.
Qed.

(** ** The claims *)

(** C3.  Range validation, in both programs: when the rows are out of order
    or below 1, or the normalized columns are out of order or below 1, the
    run prints one error line and ends in [sys.exit(1)] - exit status 1 -
    having opened no source document and saved no file. *)
Theorem invalid_range_is_rejected :
  (forall args w,
     bad_range (Excel2Word.row_start args) (Excel2Word.row_end args)
       (Excel2Word.parse_col_arg (Excel2Word.col_start args))
       (Excel2Word.parse_col_arg (Excel2Word.col_end args)) ->
     let run := Excel2Word.main args w in
     ending run = SysExit 1 /\ exit_status (ending run) = 1 /\
     saved_documents run = [] /\ saved_workbooks run = [] /\
     exists m, trace run = [Print m]) /\
  (forall args w,
     bad_range (Word2Excel.row_start args) (Word2Excel.row_end args)
       (Word2Excel.parse_col_arg (Word2Excel.col_start args))
       (Word2Excel.parse_col_arg (Word2Excel.col_end args)) ->
     let run := Word2Excel.main args w in
     ending run = SysExit 1 /\ exit_status (ending run) = 1 /\
     saved_documents run = [] /\ saved_workbooks run = [] /\
     exists m, trace run = [Print m]).
Proof.
  split; intros args w Hbad run; subst run.
  - unfold Excel2Word.main.
    destruct (path_exists w (Excel2Word.excel args)); simpl; [| by eauto 10].
    destruct (Excel2Word.parse_col_arg (Excel2Word.col_start args)) as [c1 |] eqn:E1;
      simpl; [| by eauto 10].
    destruct (Excel2Word.parse_col_arg (Excel2Word.col_end args)) as [c2 |] eqn:E2;
      simpl; [| by eauto 10].
    pose proof (parse_col_arg_positive _ _ E1). pose proof (parse_col_arg_positive _ _ E2).
    destruct (Z.ltb_spec (Excel2Word.row_start args) 1); simpl; [by eauto 10 |].
    destruct (Z.ltb_spec (Excel2Word.row_end args) 1); simpl; [by eauto 10 |].
    destruct (Z.gtb_spec c1 c2); simpl; [by eauto 10 |].
    destruct (Z.gtb_spec (Excel2Word.row_start args) (Excel2Word.row_end args)); simpl;
      [by eauto 10 |].
    exfalso. destruct Hbad as [? | [? | [? | (a & b & [= <-] & [= <-] & ?)]]]; lia.
  - unfold Word2Excel.main.
    destruct (path_exists w (Word2Excel.word_in args)); simpl; [| by eauto 10].
    destruct (Word2Excel.parse_col_arg (Word2Excel.col_start args)) as [c1 |] eqn:E1;
      simpl; [| by eauto 10].
    destruct (Word2Excel.parse_col_arg (Word2Excel.col_end args)) as [c2 |] eqn:E2;
      simpl; [| by eauto 10].
    destruct (Z.ltb_spec (Word2Excel.row_start args) 1); simpl; [by eauto 10 |].
    destruct (Z.ltb_spec (Word2Excel.row_end args) (Word2Excel.row_start args)); simpl;
      [by eauto 10 |].
    destruct (Z.ltb_spec c1 1); simpl; [by eauto 10 |].
    destruct (Z.ltb_spec c2 c1); simpl; [by eauto 10 |].
    exfalso. destruct Hbad as [? | [? | [? | (a & b & [= <-] & [= <-] & ?)]]]; lia.
Qed.

Lemma invalid_range_is_rejected_witness :
  ending (Excel2Word.main
            (Excel2Word.mkArgs (py "in.xlsx") None 5 4 (py "C") (py "D") (py "out.docx"))
            export_scenario_world) = SysExit 1 /\
  ending (Word2Excel.main
            (Word2Excel.mkArgs (py "in.docx") 0 (py "out.xlsx") None 1 2 (py "D") (py "A"))
            import_scenario_world) = SysExit 1.
Proof.
  split.
  - apply (proj1 invalid_range_is_rejected). left. simpl. lia.
  - apply (proj2 invalid_range_is_rejected). right. right. right.
    exists 4, 1. split; [reflexivity | split; [reflexivity | left; lia]].
Defined.

Lemma digits_decimal d : forallb isdecimal (py (NilEmpty.string_of_uint d)) = true.
Proof. induction d; done. Qed.

Lemma int_from_uint_acc d acc :
  int_from (Z.pos acc) (py (NilEmpty.string_of_uint d)) = Ok (Z.pos (Pos.of_uint_acc d acc)).
Proof.
  revert acc. induction d as [| d IH | d IH | d IH | d IH | d IH | d IH | d IH | d IH | d IH | d IH];
    intros acc; [done | ..];
    cbn [NilEmpty.string_of_uint py list_ascii_of_string map int_from Pos.of_uint_acc];
    change (isdecimal (N_of_ascii _)) with true; cbn [N_of_ascii N_of_digits];
    match goal with
    | |- int_from ?a _ = Ok (Z.pos (Pos.of_uint_acc _ ?b)) =>
        replace a with (Z.pos b) by lia
    end; apply IH.
Qed.

Lemma int_from_uint d :
  int_from 0 (py (NilEmpty.string_of_uint d)) = Ok (Z.of_N (Pos.of_uint d)).
Proof.
  induction d as [| d IH | d IH | d IH | d IH | d IH | d IH | d IH | d IH | d IH | d IH];
    [done | exact IH | ..];
    cbn [NilEmpty.string_of_uint py list_ascii_of_string map int_from Pos.of_uint];
    change (isdecimal (N_of_ascii _)) with true; cbn [N_of_ascii N_of_digits];
    match goal with
    | |- int_from ?a _ = Ok (Z.of_N (N.pos (Pos.of_uint_acc _ ?b))) =>
        replace a with (Z.pos b) by lia
    end; apply int_from_uint_acc.
Qed.

Lemma str_of_int_pos p :
  str_of_int (Z.pos p) = py (NilEmpty.string_of_uint (Pos.to_uint p)).
Proof.
  unfold str_of_int. simpl. unfold NilZero.string_of_uint.
  pose proof (Unsigned.to_uint_nonnil p). by destruct (Pos.to_uint p).
Qed.

(** [str] of a natural number is its decimal numeral. *)
Lemma str_of_int_decimal n :
  0 <= n -> all_decimal (str_of_int n) /\ decimal_value (str_of_int n) = n.
Proof.
  intros Hn. destruct n as [| p | p]; [by vm_compute | | lia].
  rewrite str_of_int_pos.
  pose proof (digits_decimal (Pos.to_uint p)) as Hall.
  pose proof (int_from_uint (Pos.to_uint p)) as Hv.
  rewrite DecimalPos.Unsigned.of_to, (int_from_decimal _ 0 Hall) in Hv.
  injection Hv as Hv. split; [| lia]. split; [| done].
  pose proof (Unsigned.to_uint_nonnil p). by destruct (Pos.to_uint p).
Qed.

(** It has no leading zero. *)
Lemma str_of_int_head n : 0 < n -> head (str_of_int n) <> Some 48%N.
Proof.
  intros Hn. destruct n as [| p | p]; [lia | | lia].
  rewrite str_of_int_pos.
  assert (E : Decimal.nzhead (Pos.to_uint p) = Pos.to_uint p).
  { pose proof (DecimalPos.Unsigned.to_of (Pos.to_uint p)) as E.
    rewrite DecimalPos.Unsigned.of_to in E. simpl in E.
    rewrite <- unorm_nzhead; [done |].
    intros Hz. apply unorm_0 in Hz. rewrite Hz in E.
    by apply (Unsigned.to_uint_nonzero p). }
  pose proof (nzhead_nonzero (Pos.to_uint p)) as Hnz. rewrite E in Hnz.
  destruct (Pos.to_uint p) as [| d | d | d | d | d | d | d | d | d | d]; try done.
  by specialize (Hnz d).
Qed.

Lemma str_of_int_neg n : n < 0 -> str_of_int n = 45%N :: str_of_int (- n).
Proof.
  intros Hn. destruct n as [| p | p]; [lia | lia |].
  change (- Z.neg p) with (Z.pos p). rewrite str_of_int_pos.
  unfold str_of_int. simpl. unfold NilZero.string_of_uint.
  pose proof (Unsigned.to_uint_nonnil p). by destruct (Pos.to_uint p).
Qed.

Lemma line_feeds_id s : ~ In 13%N s -> line_feeds s = s.
Proof.
  induction s as [| c s IH]; [done |]. intros H. unfold line_feeds, replace in *. simpl.
  destruct (N.eqb_spec c 13) as [-> | _]; [exfalso; apply H; by left |].
  f_equal. apply IH. intros Hin. apply H. by right.
Qed.

(** C4, as amended.  Export, for every valid range and source sheet whose
    texts in the range XML can hold: the grid read has exactly r2-r1+1 rows of
    c2-c1+1 texts, entry (i, j) being the empty text for an absent value of
    cell (r1+i, c1+j) and [str] of the value otherwise (a text itself, the
    decimal numeral of an integer, True or False for a boolean); the run
    saves one document whose single table has the same dimensions and, in
    cell (i, j), grid entry (i, j) with every carriage return turned into a
    line feed - the grid entry itself when it holds no carriage return.  On
    the 3 by 2 scenario the table is "a","b" / "c","" / "",""; on a sheet of
    typed values it holds their texts. *)
Theorem export_table_matches_grid :
  (Excel2Word.cell_text VNone = [] /\
   (forall s, Excel2Word.cell_text (VStr s) = s) /\
   (forall n, 0 <= n ->
      all_decimal (Excel2Word.cell_text (VInt n)) /\
      decimal_value (Excel2Word.cell_text (VInt n)) = n) /\
   (forall n, 0 < n -> head (Excel2Word.cell_text (VInt n)) <> Some 48%N) /\
   (forall n, n < 0 ->
      Excel2Word.cell_text (VInt n) = 45%N :: Excel2Word.cell_text (VInt (- n))) /\
   Excel2Word.cell_text (VBool true) = py "True" /\
   Excel2Word.cell_text (VBool false) = py "False" /\
   (forall text, Excel2Word.cell_text (VOther text) = text)) /\
  (forall args w c1 c2 wb k ws,
     let r1 := Excel2Word.row_start args in
     let r2 := Excel2Word.row_end args in
     path_exists w (Excel2Word.excel args) = true ->
     Excel2Word.parse_col_arg (Excel2Word.col_start args) = Ok c1 ->
     Excel2Word.parse_col_arg (Excel2Word.col_end args) = Ok c2 ->
     1 <= r1 -> r1 <= r2 -> r2 <= 1048576 -> c1 <= c2 ->
     load_workbook w (Excel2Word.excel args) = Ok wb ->
     Excel2Word.select_sheet (Excel2Word.sheet args) wb = Ok (Some (k, ws)) ->
     save_error w (Excel2Word.word_out args) = None ->
     xml_region ws r1 r2 c1 c2 ->
     exists data doc tbl,
       Excel2Word.read_region ws r1 r2 c1 c2 = Ok data /\
       len data = r2 - r1 + 1 /\
       Forall (fun row => len row = c2 - c1 + 1) data /\
       (forall i j, 0 <= i < r2 - r1 + 1 -> 0 <= j < c2 - c1 + 1 ->
          data !! Z.to_nat i ≫= (.!! Z.to_nat j) =
            Some (Excel2Word.cell_text (cell_value (cell_at ws (r1 + i) (c1 + j))))) /\
       ending (Excel2Word.main args w) = Returned /\
       saved_documents (Excel2Word.main args w) = [(Excel2Word.word_out args, doc)] /\
       tables doc = [tbl] /\
       len (tbl_rows tbl) = r2 - r1 + 1 /\
       Forall (fun row => len row = c2 - c1 + 1) (tbl_rows tbl) /\
       tbl_rows tbl = map (map line_feeds) data /\
       (forall i j, 0 <= i < r2 - r1 + 1 -> 0 <= j < c2 - c1 + 1 ->
          tbl_rows tbl !! Z.to_nat i ≫= (.!! Z.to_nat j) =
            Some (line_feeds
                    (Excel2Word.cell_text (cell_value (cell_at ws (r1 + i) (c1 + j))))))) /\
  (forall s, ~ In 13%N s -> line_feeds s = s) /\
  (tables ∘ snd) <$> saved_documents (Excel2Word.main export_scenario_args export_scenario_world) =
    [[mkTable (Some CENTER) (Some (py "Table Grid"))
        [[py "a"; py "b"]; [py "c"; py ""]; [py ""; py ""]]]] /\
  (tables ∘ snd) <$> saved_documents (Excel2Word.main typed_export_args typed_export_world) =
    [[mkTable (Some CENTER) (Some (py "Table Grid"))
        [[py "42"; py "-7"]; [py "True"; py "2.5"]; [py ""; py "x"]]]].
Proof.
  split.
  { split; [done |]. split; [done |]. split; [exact str_of_int_decimal |].
    split; [exact str_of_int_head |]. split; [exact str_of_int_neg |]. done. }
  split; [| split; [exact line_feeds_id | split; by vm_compute]].
  intros args w c1 c2 wb k ws r1 r2 Hex Hc1 Hc2 Hr1 Hr12 _ Hc12 Hload Hsel Hsave Hxml.
  pose proof (parse_col_arg_positive _ _ Hc1) as Hpos.
  set (data := grid_of ws r1 r2 c1 c2).
  exists data, (exported_document (map (map line_feeds) data)),
    (mkTable (Some CENTER) (Some (py "Table Grid")) (map (map line_feeds) data)).
  rewrite (export_run args w c1 c2 wb k ws) by done. fold r1 r2 data. rewrite Hsave.
  assert (Hlen : len data = r2 - r1 + 1).
  { unfold len, data. rewrite length_grid_of. lia. }
  assert (Hrows : Forall (fun row => len row = c2 - c1 + 1) data).
  { eapply Forall_impl; [apply rows_grid_of |]. intros row Hrow. unfold len. simpl in *. lia. }
  assert (Hget : forall i j, 0 <= i < r2 - r1 + 1 -> 0 <= j < c2 - c1 + 1 ->
            data !! Z.to_nat i ≫= (.!! Z.to_nat j) =
              Some (Excel2Word.cell_text (cell_value (cell_at ws (r1 + i) (c1 + j))))).
  { intros i j Hi Hj. unfold data. rewrite lookup_grid_of by lia.
    by rewrite !Z2Nat.id by lia. }
  split; [by apply read_region_grid |].
  split; [done |]. split; [done |]. split; [done |].
  split; [done |]. split; [done |]. split; [done |]. simpl tbl_rows.
  split; [unfold len in *; by rewrite length_map |].
  split.
  { apply Forall_forall. intros row Hrow.
    apply list_elem_of_In, in_map_iff in Hrow as (row0 & <- & Hrow0).
    rewrite Forall_forall in Hrows. apply list_elem_of_In in Hrow0.
    specialize (Hrows _ Hrow0). unfold len in *. by rewrite length_map. }
  split; [done |].
  intros i j Hi Hj. specialize (Hget i j Hi Hj).
  rewrite list_lookup_fmap.
  destruct (data !! Z.to_nat i) as [row |]; [| done]. simpl in *.
  by rewrite list_lookup_fmap, Hget.
Qed.

Lemma export_table_matches_grid_witness :
  exists data doc tbl,
    Excel2Word.read_region export_scenario_sheet 2 4 3 4 = Ok data /\
    len data = 3 /\
    saved_documents (Excel2Word.main export_scenario_args export_scenario_world)
      = [(py "out.docx", doc)] /\
    tables doc = [tbl] /\ tbl_rows tbl = map (map line_feeds) data.
Proof.
  destruct (proj1 (proj2 export_table_matches_grid) export_scenario_args export_scenario_world
              3 4 (mkWorkbook [export_scenario_sheet] 0) 0%nat export_scenario_sheet)
    as (data & doc & tbl & H1 & H2 & _ & _ & _ & H3 & H4 & _ & _ & H5 & _);
    [reflexivity | reflexivity | reflexivity | simpl; lia | simpl; lia | simpl; lia | lia
    | reflexivity | reflexivity | reflexivity | |].
  - intros r c Hr Hc. simpl in Hr.
    assert (Hr' : r = 2 \/ r = 3 \/ r = 4) by lia.
    assert (Hc' : c = 3 \/ c = 4) by lia.
    destruct Hr' as [-> | [-> | ->]], Hc' as [-> | ->]; reflexivity.
  - exists data, doc, tbl. repeat split; assumption.
Defined.

(** C4 as stated fails on a text with a carriage return: "a", CR, "b" in A1
    is read into the grid as it is, and the table cell of the saved
    document reads "a", LF, "b". *)
Lemma export_turns_carriage_return :
  Excel2Word.read_region cr_sheet 1 1 1 1 = Ok [[[97; 13; 98]%N]] /\
  (tables ∘ snd) <$> saved_documents (Excel2Word.main cr_export_args cr_export_world) =
    [[mkTable (Some CENTER) (Some (py "Table Grid")) [[[97; 10; 98]%N]]]] /\
  [[[97; 10; 98]%N]] <> [[[97; 13; 98]%N]].
Proof. by vm_compute. Qed.

(** C7.  Every table cell the importer reads is stored as the cell's text
    with the non-breaking space counted as whitespace, every maximal run of
    whitespace collapsed to one ASCII space, and leading and trailing
    whitespace removed; the grid keeps the shape of the table. *)
Theorem read_table_cleans_text :
  (forall text, Word2Excel.clean_text text = tidy text) /\
  (forall doc idx tbl,
     0 <= idx -> tables doc !! Z.to_nat idx = Some tbl ->
     Word2Excel.read_table doc idx = Ok (map (map tidy) (tbl_rows tbl))) /\
  (forall w path idx doc tbl,
     open_document w path = Ok doc ->
     0 <= idx -> tables doc !! Z.to_nat idx = Some tbl ->
     Word2Excel.read_table_from_word w path idx = Ok (map (map tidy) (tbl_rows tbl))).
Proof.
  split; [exact clean_text_tidy |].
  assert (H : forall doc idx tbl,
     0 <= idx -> tables doc !! Z.to_nat idx = Some tbl ->
     Word2Excel.read_table doc idx = Ok (map (map tidy) (tbl_rows tbl))).
  { intros doc idx tbl Hidx Htbl.
    destruct (read_table_inside doc idx) as (tbl' & E & ->).
    - apply lookup_lt_Some in Htbl. unfold len. lia.
    - rewrite Htbl in E. injection E as <-. f_equal.
      apply map_ext. intros row. apply map_ext. exact clean_text_tidy. }
  split; [exact H |].
  intros w path idx doc tbl Hdoc Hidx Htbl.
  unfold Word2Excel.read_table_from_word. rewrite Hdoc. simpl. by apply H.
Qed.

Lemma read_table_cleans_text_witness :
  Word2Excel.read_table
    (table_document [[[160; 120; 9; 32; 121; 32]%N]; [py "  1   2 "; py ""]]) 0
  = Ok [[py "x y"]; [py "1 2"; py ""]].
Proof.
  apply (proj1 (proj2 read_table_cleans_text)
           (table_document [[[160; 120; 9; 32; 121; 32]%N]; [py "  1   2 "; py ""]]) 0
           (mkTable None None [[[160; 120; 9; 32; 121; 32]%N]; [py "  1   2 "; py ""]]));
    [lia | reflexivity].
Defined.

(** C8.  The table index: reading a table fails with IndexError exactly when
    the index is outside [0, tableCount - 1]; inside, the selected table is
    read.  In a run whose arguments are valid and whose document opened, an
    index outside makes [main] print the read error and exit with status 1,
    and an index inside hands the grid to the rest of [main], which never
    prints that error. *)
Theorem table_index_checked :
  (forall doc idx,
     Word2Excel.read_table doc idx = Raise IndexError <-> ~ index_inside doc idx) /\
  (forall doc idx,
     index_inside doc idx ->
     exists tbl, tables doc !! Z.to_nat idx = Some tbl /\
       Word2Excel.read_table doc idx = Ok (map (map Word2Excel.clean_text) (tbl_rows tbl))) /\
  (forall args w c1 c2 doc,
     let idx := Word2Excel.table_index args in
     let run := Word2Excel.main args w in
     path_exists w (Word2Excel.word_in args) = true ->
     Word2Excel.parse_col_arg (Word2Excel.col_start args) = Ok c1 ->
     Word2Excel.parse_col_arg (Word2Excel.col_end args) = Ok c2 ->
     1 <= Word2Excel.row_start args -> Word2Excel.row_start args <= Word2Excel.row_end args ->
     c1 <= c2 ->
     open_document w (Word2Excel.word_in args) = Ok doc ->
     (~ index_inside doc idx ->
        run = mkRun [OpenDocument (Word2Excel.word_in args); Print (ReadWordError IndexError)]
                (SysExit 1) /\
        exit_status (ending run) = 1) /\
     (index_inside doc idx ->
        exists tbl, tables doc !! Z.to_nat idx = Some tbl /\
          run = emit (OpenDocument (Word2Excel.word_in args))
                  (Word2Excel.write_table args w c1 c2
                     (map (map Word2Excel.clean_text) (tbl_rows tbl)))) /\
     (In (Print (ReadWordError IndexError)) (trace run) <-> ~ index_inside doc idx)).
Proof.
  assert (H1 : forall doc idx,
     Word2Excel.read_table doc idx = Raise IndexError <-> ~ index_inside doc idx).
  { intros doc idx. split.
    - intros E Hin. destruct (read_table_inside doc idx Hin) as (tbl & _ & E').
      congruence.
    - apply read_table_outside. }
  split; [exact H1 |]. split; [exact read_table_inside |].
  intros args w c1 c2 doc idx run Hex Hc1 Hc2 Hr1 Hr12 Hc12 Hdoc. subst run.
  rewrite (import_run args w c1 c2 doc) by done. fold idx.
  assert (Hout : ~ index_inside doc idx ->
     emit (OpenDocument (Word2Excel.word_in args))
       match Word2Excel.read_table doc idx with
       | Ok table_data => Word2Excel.write_table args w c1 c2 table_data
       | Raise e => say (ReadWordError e) (stop (SysExit 1))
       end =
     mkRun [OpenDocument (Word2Excel.word_in args); Print (ReadWordError IndexError)]
       (SysExit 1)).
  { intros Hn. by rewrite (read_table_outside doc idx Hn). }
  split; [intros Hn; by rewrite (Hout Hn) |].
  split.
  - intros Hin. destruct (read_table_inside doc idx Hin) as (tbl & Htbl & E).
    exists tbl. by rewrite E.
  - split.
    + intros Hp Hin. destruct (read_table_inside doc idx Hin) as (tbl & Htbl & E).
      rewrite E in Hp. simpl in Hp. destruct Hp as [Hp | Hp]; [done |].
      by apply write_table_no_read_error in Hp.
    + intros Hn. rewrite (Hout Hn). simpl. auto.
Qed.

Lemma table_index_checked_witness :
  Word2Excel.main
    (Word2Excel.mkArgs (py "in.docx") 1 (py "out.xlsx") None 1 2 (py "A") (py "D"))
    import_scenario_world
  = mkRun [OpenDocument (py "in.docx"); Print (ReadWordError IndexError)] (SysExit 1).
Proof.
  apply (proj2 (proj2 table_index_checked)
           (Word2Excel.mkArgs (py "in.docx") 1 (py "out.xlsx") None 1 2 (py "A") (py "D"))
           import_scenario_world 1 4 import_scenario_document);
    [reflexivity | reflexivity | reflexivity | simpl; lia | simpl; lia | lia | reflexivity |].
  unfold index_inside. simpl. unfold len. simpl. lia.
Defined.

Lemma fold_left_max_ge xs x : x <= fold_left Z.max xs x.
Proof.
  revert x. induction xs as [| y xs IH]; intros x; simpl; [lia |].
  etransitivity; [| apply IH]. lia.
Qed.

Lemma fold_left_max_in xs x : In (fold_left Z.max xs x) (x :: xs).
Proof.
  revert x. induction xs as [| y xs IH]; intros x; simpl; [by left |].
  destruct (IH (Z.max x y)) as [E | Hin]; [| by right; right].
  rewrite <- E. destruct (Z.max_spec x y) as [[_ ->] | [_ ->]]; auto.
Qed.

Lemma fold_left_max_bound xs x y : In y (x :: xs) -> y <= fold_left Z.max xs x.
Proof.
  revert x. induction xs as [| z xs IH]; intros x Hin; simpl.
  - destruct Hin as [-> | []]. lia.
  - destruct Hin as [-> | [-> | Hin]].
    + etransitivity; [| apply fold_left_max_ge]. lia.
    + etransitivity; [| apply fold_left_max_ge]. lia.
    + apply IH. by right.
Qed.

(** C10.  The width of the grid, [max(len(r) for r in table_data)], has a
    value exactly when the grid has a row: on a table with no row it raises
    ValueError outside any handler, so the run ends there with a traceback
    (exit status 1), nothing written; a run that saves a workbook read a
    table with at least one row. *)
Theorem empty_table_stops_import :
  (forall xs, py_max xs = Raise ValueError <-> xs = []) /\
  (forall xs, xs <> [] ->
     exists m, py_max xs = Ok m /\ In m xs /\ forall x, In x xs -> x <= m) /\
  (forall args w c1 c2,
     Word2Excel.write_table args w c1 c2 [] = mkRun [] (Uncaught ValueError)) /\
  (forall args w c1 c2 doc tbl,
     let run := Word2Excel.main args w in
     path_exists w (Word2Excel.word_in args) = true ->
     Word2Excel.parse_col_arg (Word2Excel.col_start args) = Ok c1 ->
     Word2Excel.parse_col_arg (Word2Excel.col_end args) = Ok c2 ->
     1 <= Word2Excel.row_start args -> Word2Excel.row_start args <= Word2Excel.row_end args ->
     c1 <= c2 ->
     open_document w (Word2Excel.word_in args) = Ok doc ->
     0 <= Word2Excel.table_index args ->
     tables doc !! Z.to_nat (Word2Excel.table_index args) = Some tbl ->
     tbl_rows tbl = [] ->
     run = mkRun [OpenDocument (Word2Excel.word_in args)] (Uncaught ValueError) /\
     exit_status (ending run) = 1 /\ saved_workbooks run = []) /\
  (forall args w out wb,
     In (SaveWorkbook out wb) (trace (Word2Excel.main args w)) ->
     exists doc tbl,
       open_document w (Word2Excel.word_in args) = Ok doc /\
       tables doc !! Z.to_nat (Word2Excel.table_index args) = Some tbl /\
       tbl_rows tbl <> []).
Proof.
  split; [intros [| x xs]; split; done |].
  split.
  { intros [| x xs] Hne; [done |]. exists (fold_left Z.max xs x).
    split; [done |]. split; [apply fold_left_max_in | apply fold_left_max_bound]. }
  split; [done |].
  split.
  - intros args w c1 c2 doc tbl run Hex Hc1 Hc2 Hr1 Hr12 Hc12 Hdoc Hidx Htbl Hrows.
    subst run. rewrite (import_run args w c1 c2 doc) by done.
    destruct (read_table_inside doc (Word2Excel.table_index args)) as (tbl' & E & ->).
    { apply lookup_lt_Some in Htbl. unfold len. lia. }
    rewrite Htbl in E. injection E as <-. rewrite Hrows. done.
  - intros args w out wb. unfold Word2Excel.main.
    destruct (path_exists w (Word2Excel.word_in args)); simpl; [| by intros [|[]]].
    destruct (Word2Excel.parse_col_arg (Word2Excel.col_start args)) as [c1 |]; simpl;
      [| by intros [|[]]].
    destruct (Word2Excel.parse_col_arg (Word2Excel.col_end args)) as [c2 |]; simpl;
      [| by intros [|[]]].
    destruct (_ || _); simpl; [by intros [|[]] |].
    unfold Word2Excel.read_table_from_word.
    destruct (open_document w (Word2Excel.word_in args)) as [doc |]; simpl;
      [| by intros [| [|[]]]].
    unfold Word2Excel.read_table.
    destruct (Z.ltb_spec (Word2Excel.table_index args) 0); simpl; [by intros [| [|[]]] |].
    destruct (_ >=? _); simpl; [by intros [| [|[]]] |].
    destruct (py_index (tables doc) (Word2Excel.table_index args)) as [tbl |] eqn:E; simpl;
      [| by intros [| [|[]]]].
    apply py_index_inv in E; [| done].
    intros [Hin | Hin]; [done |].
    exists doc, tbl. split; [done |]. split; [done |].
    intros Hrows. rewrite Hrows in Hin. simpl in Hin. done.
Qed.

Lemma empty_table_stops_import_witness :
  Word2Excel.main small_import_args empty_table_world
  = mkRun [OpenDocument (py "in.docx")] (Uncaught ValueError).
Proof.
  apply (proj1 (proj2 (proj2 (proj2 empty_table_stops_import)))
           small_import_args empty_table_world 1 2 (table_document [])
           (mkTable None None []));
    [reflexivity | reflexivity | reflexivity | simpl; lia | simpl; lia | lia
    | reflexivity | simpl; lia | reflexivity | reflexivity].
Defined.

(** The importer on a table with at least one row, into a range whose
    columns have letters, when the save succeeds. *)
Lemma import_succeeds args w c1 c2 doc tbl k ws :
  let r1 := Word2Excel.row_start args in
  let r2 := Word2Excel.row_end args in
  let out := Word2Excel.excel_out args in
  let table_data := map (map Word2Excel.clean_text) (tbl_rows tbl) in
  path_exists w (Word2Excel.word_in args) = true ->
  Word2Excel.parse_col_arg (Word2Excel.col_start args) = Ok c1 ->
  Word2Excel.parse_col_arg (Word2Excel.col_end args) = Ok c2 ->
  1 <= r1 -> r1 <= r2 -> c1 <= c2 -> c2 <= 18278 ->
  open_document w (Word2Excel.word_in args) = Ok doc ->
  0 <= Word2Excel.table_index args ->
  tables doc !! Z.to_nat (Word2Excel.table_index args) = Some tbl ->
  tbl_rows tbl <> [] ->
  Word2Excel.select_sheet (Word2Excel.sheet args) (Word2Excel.ensure_workbook w out)
    = Ok (Some (k, ws)) ->
  save_error w out = None ->
  exists ws' cols_word rng,
    py_max (map len table_data) = Ok cols_word /\
    Word2Excel.main args w =
      mkRun (OpenDocument (Word2Excel.word_in args)
             :: Print (WordTable (Word2Excel.table_index args) (len table_data) cols_word)
             :: (if path_exists w out then [LoadWorkbook out] else []) ++
             [Print (WritingRegion r1 r2 c1 c2);
              SaveWorkbook out (with_sheet k ws' (Word2Excel.ensure_workbook w out));
              Print (ExcelWritten rng out)])
        Returned /\
    title ws' = title ws /\
    forall r c, cell_at ws' r c =
                  imported_cell table_data cols_word r1 r2 c1 c2 (cell_at ws r c) r c.
Proof.
  intros r1 r2 out table_data Hex Hc1 Hc2 Hr1 Hr12 Hc12 Hc2' Hdoc Hidx Htbl Hrows Hsel Hsave.
  pose proof (parse_col_arg_positive _ _ Hc1) as Hpos.
  destruct (read_table_inside doc (Word2Excel.table_index args)) as (tbl' & E & Hread).
  { apply lookup_lt_Some in Htbl. unfold index_inside, len. lia. }
  rewrite Htbl in E. injection E as <-.
  assert (Hmax : exists m, py_max (map len table_data) = Ok m).
  { unfold table_data. destruct (tbl_rows tbl); [done |]. by eexists. }
  destruct Hmax as [cols_word Hmax].
  destruct (write_table_run args w c1 c2 table_data cols_word k ws)
    as (ws' & rng & Hrun & Ht & Hcells); try done.
  exists ws', cols_word, rng. split; [done |]. split; [| done].
  rewrite (import_run args w c1 c2 doc) by done. rewrite Hread.
  fold table_data. rewrite Hrun. reflexivity.
Qed.

Lemma saved_workbooks_import p idx rows cols (b : bool) out msgs wb rng :
  saved_workbooks
    (mkRun (OpenDocument p :: Print (WordTable idx rows cols)
            :: (if b then [LoadWorkbook out] else []) ++
            [Print msgs; SaveWorkbook out wb; Print (ExcelWritten rng out)]) Returned)
  = [(out, wb)].
Proof. by destruct b. Qed.

Lemma select_sheet_new sheet :
  Word2Excel.select_sheet sheet Workbook_new = Ok (Some (0%nat, mkWorksheet (py "Sheet") ∅)).
Proof.
  unfold Word2Excel.select_sheet.
  destruct (truthy sheet && in_sheetnames (default [] sheet) Workbook_new) eqn:E; [| done].
  apply andb_true_iff in E as [_ E]. apply bool_decide_eq_true in E.
  simpl in E. apply list_elem_of_singleton in E. by rewrite E.
Qed.

Lemma write_table_without args w c1 c2 table_data e :
  let out := Word2Excel.excel_out args in
  path_exists w out = true -> load_workbook w out = Raise e ->
  ending (Word2Excel.write_table args w c1 c2 table_data) =
    ending (Word2Excel.write_table args (without out w) c1 c2 table_data) /\
  saved_workbooks (Word2Excel.write_table args w c1 c2 table_data) =
    saved_workbooks (Word2Excel.write_table args (without out w) c1 c2 table_data).
Proof.
  intros out Hex Hload. unfold Word2Excel.write_table. fold out.
  assert (E1 : Word2Excel.ensure_workbook w out = Workbook_new).
  { unfold Word2Excel.ensure_workbook. by rewrite Hex, Hload. }
  assert (E2 : Word2Excel.ensure_workbook (without out w) out = Workbook_new).
  { unfold Word2Excel.ensure_workbook, without. simpl. by rewrite decide_True. }
  rewrite E1, E2, Hex. unfold without at 1 3. simpl path_exists.
  rewrite decide_True by done. simpl save_error.
  repeat case_match; done.
Qed.



Lemma held_spec v :
  (exists rest, v = held v ++ rest) /\ len (held v) = Z.min (len v) 32767.
Proof.
  unfold held. split.
  - exists (skipn (Z.to_nat 32767) v). symmetry. apply firstn_skipn.
  - unfold len. rewrite length_firstn. lia.
Qed.

Lemma held_short v : len v <= 32767 -> held v = v.
Proof. intros H. unfold held. apply firstn_all2. unfold len in H. lia. Qed.

(** C5, as amended.  Import copies exactly min(table rows, target rows) rows
    and min(table columns, target columns) columns, starting at (row-start,
    col-start): a cell of that extent gets the table text, or the empty
    text where its row is shorter, cut to its first 32767 characters when
    it is longer; every other cell of the sheet keeps its value; every cell
    of the target range gets the wrap and top alignment.  On the scenario,
    A1..C1 become "x","y","z" and A2..C2 become "1","2",""; column D is not
    written: it stays absent in a new workbook and keeps "old" where the
    workbook held it. *)
Theorem import_writes_copied_extent :
  (forall args w c1 c2 doc tbl k ws,
     let r1 := Word2Excel.row_start args in
     let r2 := Word2Excel.row_end args in
     let out := Word2Excel.excel_out args in
     let table_data := map (map Word2Excel.clean_text) (tbl_rows tbl) in
     path_exists w (Word2Excel.word_in args) = true ->
     Word2Excel.parse_col_arg (Word2Excel.col_start args) = Ok c1 ->
     Word2Excel.parse_col_arg (Word2Excel.col_end args) = Ok c2 ->
     1 <= r1 -> r1 <= r2 -> r2 <= 1048576 -> c1 <= c2 -> c2 <= 18278 ->
     open_document w (Word2Excel.word_in args) = Ok doc ->
     0 <= Word2Excel.table_index args ->
     tables doc !! Z.to_nat (Word2Excel.table_index args) = Some tbl ->
     tbl_rows tbl <> [] ->
     Word2Excel.select_sheet (Word2Excel.sheet args) (Word2Excel.ensure_workbook w out)
       = Ok (Some (k, ws)) ->
     save_error w out = None ->
     exists ws' cols_word,
       py_max (map len table_data) = Ok cols_word /\
       saved_workbooks (Word2Excel.main args w)
         = [(out, with_sheet k ws' (Word2Excel.ensure_workbook w out))] /\
       let rows_to_write := Z.min (len table_data) (r2 - r1 + 1) in
       let cols_to_write := Z.min cols_word (c2 - c1 + 1) in
       (forall i j, 0 <= i < rows_to_write -> 0 <= j < cols_to_write ->
          cell_value (cell_at ws' (r1 + i) (c1 + j)) = VStr (held (padded table_data i j))) /\
       (forall r c, in_block r1 c1 rows_to_write cols_to_write r c = false ->
          cell_value (cell_at ws' r c) = cell_value (cell_at ws r c)) /\
       (forall r c, r1 <= r <= r2 -> c1 <= c <= c2 ->
          cell_alignment (cell_at ws' r c) = Word2Excel.align)) /\
  (forall v, (exists rest, v = held v ++ rest) /\ len (held v) = Z.min (len v) 32767) /\
  (forall v, len v <= 32767 -> held v = v) /\
  (let row r ws := map (fun c => cell_value (cell_at ws r c)) [1; 2; 3; 4] in
   let new := imported_sheet (Word2Excel.main import_scenario_args import_scenario_world) in
   let old := imported_sheet (Word2Excel.main import_scenario_args import_scenario_world_old) in
   row 1 <$> new = Some [VStr (py "x"); VStr (py "y"); VStr (py "z"); VNone] /\
   row 2 <$> new = Some [VStr (py "1"); VStr (py "2"); VStr (py ""); VNone] /\
   row 1 <$> old = Some [VStr (py "x"); VStr (py "y"); VStr (py "z"); VStr (py "old")] /\
   row 2 <$> old = Some [VStr (py "1"); VStr (py "2"); VStr (py ""); VNone]).
Proof.
  split; [| split; [exact held_spec | split; [exact held_short | by vm_compute]]].
  intros args w c1 c2 doc tbl k ws r1 r2 out table_data
    Hex Hc1 Hc2 Hr1 Hr12 _ Hc12 Hc2' Hdoc Hidx Htbl Hrows Hsel Hsave.
  destruct (import_succeeds args w c1 c2 doc tbl k ws)
    as (ws' & cols_word & rng & Hmax & Hrun & Ht & Hcells); try done.
  exists ws', cols_word. split; [done |].
  rewrite Hrun, saved_workbooks_import. split; [done |].
  fold r1 r2 table_data in Hcells. simpl.
  split; [| split].
  - intros i j Hi Hj. rewrite Hcells. unfold imported_cell.
    assert (in_block r1 c1 (Z.min (len table_data) (r2 - r1 + 1))
              (Z.min cols_word (c2 - c1 + 1)) (r1 + i) (c1 + j) = true) as ->
      by (apply in_block_spec; lia).
    simpl. do 3 f_equal; lia.
  - intros r c Hout. rewrite Hcells. unfold imported_cell. rewrite Hout.
    unfold formatted.
    destruct (in_block r1 c1 (r2 - r1 + 1) (c2 - c1 + 1) r c); [| done].
    by destruct (Word2Excel.border_unset (cell_at ws r c)).
  - intros r c Hr Hc. rewrite Hcells. unfold imported_cell.
    destruct (in_block r1 c1 (Z.min _ _) (Z.min _ _) r c); [done |].
    assert (in_block r1 c1 (r2 - r1 + 1) (c2 - c1 + 1) r c = true) as ->
      by (apply in_block_spec; lia).
    done.
Qed.

Lemma import_writes_copied_extent_witness :
  exists ws' cols_word,
    py_max (map len [[py "x"; py "y"; py "z"]; [py "1"; py "2"]]) = Ok cols_word /\
    saved_workbooks (Word2Excel.main import_scenario_args import_scenario_world)
      = [(py "out.xlsx", mkWorkbook [ws'] 0)] /\
    cell_value (cell_at ws' 2 3) = VStr (py "").
Proof.
  destruct (proj1 import_writes_copied_extent import_scenario_args import_scenario_world
              1 4 import_scenario_document
              (mkTable None None [[py "x"; py "y"; py "z"]; [py "1"; py "2"]])
              0%nat (mkWorksheet (py "Sheet") ∅))
    as (ws' & cols_word & Hmax & Hsaved & Hcopied & _);
    [reflexivity | reflexivity | reflexivity | by vm_compute | by vm_compute | by vm_compute
    | lia | lia
    | reflexivity | by vm_compute | reflexivity | discriminate | reflexivity | reflexivity |].
  exists ws', cols_word. split; [exact Hmax |]. split; [exact Hsaved |].
  injection Hmax as <-. apply (Hcopied 1 2); by vm_compute.
Defined.

(** C5 as stated fails on its own scenario: the importer does not write the
    empty text to D1.  The cell stays absent in a new workbook, and keeps
    "old" in a workbook that held it. *)
Lemma import_leaves_column_D :
  let d1 ws := cell_value (cell_at ws 1 4) in
  d1 <$> imported_sheet (Word2Excel.main import_scenario_args import_scenario_world_old)
    = Some (VStr (py "old")) /\
  d1 <$> imported_sheet (Word2Excel.main import_scenario_args import_scenario_world)
    = Some VNone /\
  d1 <$> imported_sheet (Word2Excel.main import_scenario_args import_scenario_world_old)
    <> Some (VStr (py "")) /\
  d1 <$> imported_sheet (Word2Excel.main import_scenario_args import_scenario_world)
    <> Some (VStr (py "")).
Proof. by vm_compute. Qed.



(** A column reference that normalizes, normalizes to 1 or more, in both
    programs. *)
Theorem column_reference_at_least_one :
  forall x c,
    (Excel2Word.parse_col_arg x = Ok c -> 1 <= c) /\
    (Word2Excel.parse_col_arg x = Ok c -> 1 <= c).
Proof. intros x c. split; apply parse_col_arg_positive. Qed.

(** C6, evaluated where it fails.  A table of one cell is imported into
    rows 1-2, columns A-B.  B2 lies beyond the copied extent: it gets the
    wrap and top alignment, but the second pass leaves its border alone,
    because the left side of the border it finds is not [None] - neither
    in a new workbook, whose cells carry openpyxl's default border of empty
    sides, nor in a workbook where B2 had a medium left border only.  In
    both B2 ends without thin borders on its four sides. *)
Theorem second_pass_keeps_set_left_border :
  let b2 ws := cell_at ws 2 2 in
  b2 <$> imported_sheet (Word2Excel.main small_import_args small_import_world)
    = Some (mkCell VNone Word2Excel.align (Some DEFAULT_BORDER)) /\
  b2 <$> imported_sheet (Word2Excel.main small_import_args small_import_world_bordered)
    = Some (mkCell VNone Word2Excel.align (Some left_bordered)) /\
  ending (Word2Excel.main small_import_args small_import_world) = Returned /\
  ending (Word2Excel.main small_import_args small_import_world_bordered) = Returned /\
  DEFAULT_BORDER <> Word2Excel.border_style /\
  left_bordered <> Word2Excel.border_style.
Proof. by vm_compute. Qed.

Lemma py_max_const xs m :
  xs <> [] -> Forall (fun x => x = m) xs -> py_max xs = Ok m.
Proof.
  intros Hne Hall. destruct xs as [| x xs]; [done |].
  apply Forall_cons in Hall as [-> Hall]. simpl. f_equal.
  clear Hne. induction Hall as [| y ys -> _ IH]; simpl; [done |].
  by rewrite Z.max_id.
Qed.

Lemma padded_map (f : str -> str) grid (i j : nat) x :
  grid !! i ≫= (.!! j) = Some x ->
  padded (map (map f) grid) (Z.of_nat i) (Z.of_nat j) = f x.
Proof.
  intros H. unfold padded. rewrite !Nat2Z.id, list_lookup_fmap.
  destruct (grid !! i) as [row |]; [| done]. simpl in *.
  rewrite list_lookup_fmap, H. done.
Qed.

Lemma clean_text_line_feeds x :
  Word2Excel.clean_text (line_feeds x) = Word2Excel.clean_text x.
Proof.
  unfold Word2Excel.clean_text, split, line_feeds.
  rewrite !split_replace. by rewrite split_replace_white.
Qed.

Lemma length_trim_left s : (length (trim_left s) <= length s)%nat.
Proof.
  induction s as [| c s IH]; [done |]. simpl. destruct (is_white c); simpl; lia.
Qed.

Lemma length_squeeze_from b s : (length (squeeze_from b s) <= length s)%nat.
Proof.
  revert b. induction s as [| c s IH]; intros b; [done |]. simpl.
  destruct (is_white c); [destruct b |]; simpl;
    [pose proof (IH true) | pose proof (IH true) | pose proof (IH false)]; lia.
Qed.

Lemma len_tidy s : len (tidy s) <= len s.
Proof.
  unfold tidy, trim, squeeze, len. rewrite length_rev.
  pose proof (length_trim_left (rev (trim_left (squeeze_from false s)))) as H1.
  rewrite length_rev in H1.
  pose proof (length_trim_left (squeeze_from false s)) as H2.
  pose proof (length_squeeze_from false s) as H3. lia.
Qed.

(** C1, as amended.  A region whose texts XML can hold is exported to a
    document, and the document's single table is imported back into a range
    of the same dimensions: both runs end normally, and every cell of the
    range holds the text of the original cell with its whitespace
    normalized by the import path - the non-breaking space counted as
    whitespace, every run of whitespace collapsed to one space, leading and
    trailing whitespace removed - and cut to its first 32767 characters;
    nothing is cut from an original text of at most 32767 characters. *)
Theorem round_trip_cleans_text
    (ea : Excel2Word.Args) (w1 : World) (c1 c2 : Z) (wb : Workbook) (k : nat) (ws : Worksheet)
    (ia : Word2Excel.Args) (w2 : World) (d : Document) (e1 e2 : Z) (k' : nat) (ws0 : Worksheet) :
  let r1 := Excel2Word.row_start ea in
  let r2 := Excel2Word.row_end ea in
  let t1 := Word2Excel.row_start ia in
  let t2 := Word2Excel.row_end ia in
  let out := Word2Excel.excel_out ia in
  path_exists w1 (Excel2Word.excel ea) = true ->
  Excel2Word.parse_col_arg (Excel2Word.col_start ea) = Ok c1 ->
  Excel2Word.parse_col_arg (Excel2Word.col_end ea) = Ok c2 ->
  1 <= r1 -> r1 <= r2 -> r2 <= 1048576 -> c1 <= c2 ->
  load_workbook w1 (Excel2Word.excel ea) = Ok wb ->
  Excel2Word.select_sheet (Excel2Word.sheet ea) wb = Ok (Some (k, ws)) ->
  xml_region ws r1 r2 c1 c2 ->
  save_error w1 (Excel2Word.word_out ea) = None ->
  saved_documents (Excel2Word.main ea w1) = [(Excel2Word.word_out ea, d)] ->
  path_exists w2 (Word2Excel.word_in ia) = true ->
  open_document w2 (Word2Excel.word_in ia) = Ok d ->
  Word2Excel.table_index ia = 0 ->
  Word2Excel.parse_col_arg (Word2Excel.col_start ia) = Ok e1 ->
  Word2Excel.parse_col_arg (Word2Excel.col_end ia) = Ok e2 ->
  1 <= t1 -> t2 - t1 = r2 - r1 -> t2 <= 1048576 -> e2 - e1 = c2 - c1 -> e2 <= 18278 ->
  Word2Excel.select_sheet (Word2Excel.sheet ia) (Word2Excel.ensure_workbook w2 out)
    = Ok (Some (k', ws0)) ->
  save_error w2 out = None ->
  ending (Excel2Word.main ea w1) = Returned /\
  ending (Word2Excel.main ia w2) = Returned /\
  exists ws',
    saved_workbooks (Word2Excel.main ia w2)
      = [(out, with_sheet k' ws' (Word2Excel.ensure_workbook w2 out))] /\
    forall i j, 0 <= i <= r2 - r1 -> 0 <= j <= c2 - c1 ->
      let original := Excel2Word.cell_text (cell_value (cell_at ws (r1 + i) (c1 + j))) in
      cell_value (cell_at ws' (t1 + i) (e1 + j)) = VStr (held (tidy original)) /\
      (len original <= 32767 ->
         cell_value (cell_at ws' (t1 + i) (e1 + j)) = VStr (tidy original)).
Proof.
  intros r1 r2 t1 t2 out Hex Hc1 Hc2 Hr1 Hr12 _ Hc12 Hload Hsel Hxml Hsave Hd
    Hex2 Hopen Hidx He1 He2 Ht1 Hrows _ Hcols He2' Hsel2 Hsave2.
  pose proof (parse_col_arg_positive _ _ Hc1) as Hc1pos.
  rewrite (export_run ea w1 c1 c2 wb k ws) in * by done.
  fold r1 r2 in Hd |- *. rewrite Hsave in *. split; [done |].
  injection Hd as <-.
  set (grid := grid_of ws r1 r2 c1 c2) in *.
  set (stored := map (map line_feeds) grid) in *.
  set (tbl := mkTable (Some CENTER) (Some (py "Table Grid")) stored).
  assert (Hlen : length grid = Z.to_nat (r2 - r1 + 1)) by apply length_grid_of.
  assert (Hlen' : length stored = Z.to_nat (r2 - r1 + 1))
    by (unfold stored; by rewrite length_map).
  destruct (import_succeeds ia w2 e1 e2 (exported_document stored) tbl k' ws0)
    as (ws' & cols_word & rng & Hmax & Hrun & _ & Hcells); try done.
  { fold t1 t2. lia. }
  { lia. }
  { lia. }
  { by rewrite Hidx. }
  { simpl. intros E. rewrite E in Hlen'. simpl in Hlen'. lia. }
  simpl tbl_rows in *. fold t1 t2 out in Hrun, Hcells.
  rewrite Hrun. split; [done |]. exists ws'.
  rewrite saved_workbooks_import. split; [done |].
  assert (Hw : cols_word = c2 - c1 + 1).
  { assert (E : py_max (map len (map (map Word2Excel.clean_text) stored)) = Ok (c2 - c1 + 1)).
    { apply py_max_const.
      - intros E. apply (f_equal length) in E. rewrite !length_map, Hlen' in E.
        simpl in E. lia.
      - rewrite Forall_forall. intros x Hx.
        apply list_elem_of_In, in_map_iff in Hx as (row & <- & Hrow).
        apply in_map_iff in Hrow as (row0 & <- & Hrow0).
        apply in_map_iff in Hrow0 as (row1 & <- & Hrow1).
        pose proof (rows_grid_of ws r1 r2 c1 c2) as Hall.
        rewrite Forall_forall in Hall. apply list_elem_of_In in Hrow1.
        specialize (Hall _ Hrow1). unfold len. rewrite !length_map, Hall. lia. }
    congruence. }
  assert (Hcell : forall i j, 0 <= i <= r2 - r1 -> 0 <= j <= c2 - c1 ->
            cell_value (cell_at ws' (t1 + i) (e1 + j)) =
              VStr (held (tidy (Excel2Word.cell_text
                                  (cell_value (cell_at ws (r1 + i) (c1 + j))))))).
  { intros i j Hi Hj. rewrite Hcells. unfold imported_cell.
    assert (in_block t1 e1
              (Z.min (len (map (map Word2Excel.clean_text) stored)) (t2 - t1 + 1))
              (Z.min cols_word (e2 - e1 + 1)) (t1 + i) (e1 + j) = true) as ->.
    { apply in_block_spec. unfold len. rewrite length_map, Hlen'. lia. }
    simpl. do 2 f_equal.
    replace (t1 + i - t1) with (Z.of_nat (Z.to_nat i)) by lia.
    replace (e1 + j - e1) with (Z.of_nat (Z.to_nat j)) by lia.
    rewrite (padded_map _ stored _ _
               (line_feeds (Excel2Word.cell_text (cell_value (cell_at ws (r1 + i) (c1 + j)))))).
    - by rewrite clean_text_line_feeds, clean_text_tidy.
    - unfold stored. rewrite list_lookup_fmap.
      assert (Hg : grid !! Z.to_nat i ≫= (.!! Z.to_nat j) =
                Some (Excel2Word.cell_text (cell_value (cell_at ws (r1 + i) (c1 + j))))).
      { unfold grid. rewrite lookup_grid_of by lia. by rewrite !Z2Nat.id by lia. }
      destruct (grid !! Z.to_nat i) as [row |]; simpl in *; [| done].
      by rewrite list_lookup_fmap, Hg. }
  intros i j Hi Hj original. split; [by apply Hcell |].
  intros Hshort. rewrite Hcell by done. fold original. f_equal.
  apply held_short. pose proof (len_tidy original). lia.
Qed.

Lemma round_trip_cleans_text_witness :
  exists ws',
    saved_workbooks
      (Word2Excel.main
         (Word2Excel.mkArgs (py "out.docx") 0 (py "back.xlsx") None 5 7 (py "B") (py "C"))
         (disk_after (Excel2Word.main export_scenario_args export_scenario_world)))
      = [(py "back.xlsx", mkWorkbook [ws'] 0)] /\
    cell_value (cell_at ws' 5 2) = VStr (py "a") /\
    cell_value (cell_at ws' 6 3) = VStr (py "").
Proof.
  destruct (round_trip_cleans_text export_scenario_args export_scenario_world 3 4
              (mkWorkbook [export_scenario_sheet] 0) 0%nat export_scenario_sheet
              (Word2Excel.mkArgs (py "out.docx") 0 (py "back.xlsx") None 5 7 (py "B") (py "C"))
              (disk_after (Excel2Word.main export_scenario_args export_scenario_world))
              (exported_document (grid_of export_scenario_sheet 2 4 3 4))
              2 3 0%nat (mkWorksheet (py "Sheet") ∅))
    as (_ & _ & ws' & Hsaved & Hcells);
    [reflexivity | reflexivity | reflexivity | by vm_compute | by vm_compute | by vm_compute
    | lia | reflexivity | reflexivity | | reflexivity | reflexivity | reflexivity | reflexivity
    | reflexivity | reflexivity | reflexivity | by vm_compute | by vm_compute | by vm_compute
    | lia | lia | reflexivity | reflexivity |].
  - intros r c Hr Hc. simpl in Hr.
    assert (Hr' : r = 2 \/ r = 3 \/ r = 4) by lia.
    assert (Hc' : c = 3 \/ c = 4) by lia.
    destruct Hr' as [-> | [-> | ->]], Hc' as [-> | ->]; reflexivity.
  - exists ws'. split; [exact Hsaved |]. split.
    + apply (Hcells 0 0); by vm_compute.
    + apply (Hcells 1 1); by vm_compute.
Defined.

(** C1 as stated fails on a cell that begins with a space: " a" in A1 comes
    back as "a", which is neither the original text nor the original text
    with its runs of whitespace collapsed to single spaces. *)
Lemma round_trip_trims_outer_space :
  let original := Excel2Word.cell_text (cell_value (cell_at spaced_sheet 1 1)) in
  let back :=
    imported_sheet
      (Word2Excel.main spaced_import_args
         (disk_after (Excel2Word.main spaced_export_args spaced_export_world))) in
  original = py " a" /\
  squeeze original = py " a" /\
  (fun ws => cell_value (cell_at ws 1 1)) <$> back = Some (VStr (py "a")) /\
  (fun ws => cell_value (cell_at ws 1 1)) <$> back <> Some (VStr original) /\
  (fun ws => cell_value (cell_at ws 1 1)) <$> back <> Some (VStr (squeeze original)).
Proof. by vm_compute. Qed.

(** * Further properties *)

(** ** Whitespace around a column token *)

Lemma lstrip_app_white t b :
  forallb isspace b = true ->
  lstrip (t ++ b) = lstrip t ++ b \/ (lstrip t = [] /\ lstrip (t ++ b) = []).
Proof.
  intros Hb. induction t as [| c t IH].
  - right. split; [done |]. simpl. rewrite <- (app_nil_r b). by rewrite lstrip_white_app.
  - simpl. destruct (isspace c); [exact IH | by left].
Qed.

Lemma strip_white_around a t b :
  forallb isspace a = true -> forallb isspace b = true ->
  strip (a ++ t ++ b) = strip t.
Proof.
  intros Ha Hb. unfold strip, rstrip. rewrite lstrip_white_app by done.
  destruct (lstrip_app_white t b Hb) as [-> | [-> ->]]; [| done].
  rewrite rev_app_distr, lstrip_white_app; [done |].
  by rewrite forallb_rev.
Qed.

(** Whitespace around a column token makes no difference: the token with
    any whitespace before and after it is normalized, or rejected, as the
    token alone. *)
Theorem parse_col_arg_ignores_outer_space a t b :
  forallb isspace a = true -> forallb isspace b = true ->
  Excel2Word.parse_col_arg (a ++ t ++ b) = Excel2Word.parse_col_arg t /\
  Word2Excel.parse_col_arg (a ++ t ++ b) = Word2Excel.parse_col_arg t.
Proof.
  intros Ha Hb.
  unfold Word2Excel.parse_col_arg, Excel2Word.parse_col_arg.
  by rewrite strip_white_around.
Qed.

Lemma parse_col_arg_ignores_outer_space_witness :
  Excel2Word.parse_col_arg ([9; 32]%N ++ py "ab" ++ [160; 10]%N)
    = Excel2Word.parse_col_arg (py "ab").
Proof.
  apply (parse_col_arg_ignores_outer_space [9; 32]%N (py "ab") [160; 10]%N);
    reflexivity.
Defined.

(** ** What [clean_text] keeps *)

Lemma split_from_app w p s :
  forallb (fun c => negb (isspace c)) p = true ->
  split_from w (p ++ s) = split_from (rev p ++ w) s.
Proof.
  revert w. induction p as [| c p IH]; intros w Hp; [done |].
  simpl in Hp. apply andb_true_iff in Hp as [Hc Hp]. apply negb_true_iff in Hc.
  simpl. rewrite Hc, (IH _ Hp). by rewrite <- app_assoc.
Qed.

Lemma split_from_end w : w <> [] -> split_from w [] = [rev w].
Proof. by destruct w. Qed.

Lemma split_from_space w c s :
  isspace c = true -> w <> [] -> split_from w (c :: s) = rev w :: split_from [] s.
Proof. intros Hc Hw. cbn [split_from]. rewrite Hc. by destruct w. Qed.

Lemma rev_not_nil {A} (p : list A) : p <> [] -> rev p <> [].
Proof.
  intros Hp E. apply (f_equal (@rev A)) in E. by rewrite rev_involutive in E.
Qed.

Lemma split_join ps : Forall solid ps -> split_from [] (join [32%N] ps) = ps.
Proof.
  induction ps as [| p ps IH]; [done |]. intros H.
  apply Forall_cons in H as [[Hne Hp] Hps].
  destruct ps as [| q r].
  - cbn [join]. rewrite <- (app_nil_r p) at 1. rewrite split_from_app by done.
    rewrite app_nil_r, split_from_end by (by apply rev_not_nil).
    by rewrite rev_involutive.
  - rewrite join_cons2, split_from_app by done. rewrite app_nil_r.
    cbn [app]. rewrite split_from_space by (done || by apply rev_not_nil).
    by rewrite rev_involutive, (IH Hps).
Qed.

Lemma ink_solid w : forallb (fun c => negb (isspace c)) w = true -> ink w = w.
Proof.
  unfold ink. induction w as [| c w IH]; [done |]. simpl. intros H.
  apply andb_true_iff in H as [-> H]. by rewrite IH.
Qed.

Lemma ink_app a b : ink (a ++ b) = ink a ++ ink b.
Proof. unfold ink. apply List.filter_app. Qed.

Lemma ink_join_split w s :
  forallb (fun c => negb (isspace c)) w = true ->
  ink (join [32%N] (split_from w s)) = rev w ++ ink s.
Proof.
  revert w. induction s as [| c s IH]; intros w Hw.
  - simpl. destruct w as [| a w]; [done |].
    cbn [join]. rewrite app_nil_r. apply ink_solid. by rewrite forallb_rev.
  - cbn [split_from]. destruct (isspace c) eqn:Ec.
    + assert (Ei : ink (c :: s) = ink s) by (unfold ink; simpl; by rewrite Ec).
      rewrite Ei. destruct w as [| a w]; [by rewrite IH |].
      destruct (split_from [] s) as [| p ps] eqn:Es.
      * specialize (IH [] eq_refl). rewrite Es in IH. simpl in IH. rewrite <- IH.
        cbn [join]. rewrite app_nil_r. apply ink_solid. by rewrite forallb_rev.
      * rewrite join_cons2, !ink_app. rewrite <- Es, (IH [] eq_refl).
        rewrite ink_solid by (by rewrite forallb_rev). done.
    + rewrite IH by (simpl; by rewrite Ec, Hw).
      unfold ink at 2. simpl. rewrite Ec. simpl. by rewrite <- app_assoc.
Qed.

(** What cleaning a table cell's text does and does not do.  It never
    changes a character that is not whitespace, nor their order; its result
    has no whitespace at either end; and cleaning a cleaned text changes
    nothing. *)
Theorem clean_text_keeps_ink text :
  ink (Word2Excel.clean_text text) = ink text /\
  strip (Word2Excel.clean_text text) = Word2Excel.clean_text text /\
  Word2Excel.clean_text (Word2Excel.clean_text text) = Word2Excel.clean_text text.
Proof.
  unfold Word2Excel.clean_text, split. rewrite !split_replace.
  pose proof (split_solid [] text eq_refl) as Hs.
  split; [| split].
  - by rewrite ink_join_split.
  - destruct (split_from [] text) as [| p ps] eqn:E; [done |].
    destruct (join_tight [32%N] (p :: ps) Hs) as [Ht _]; [done |].
    pose proof (strip_core [] _ [] eq_refl eq_refl Ht) as Hc.
    simpl in Hc. by rewrite app_nil_r in Hc.
  - by rewrite split_join.
Qed.

(** ** How a run ends and what it saves *)

(** Every run of the exporter either returns normally having saved exactly
    one document, at the output path, or ends with exit status 1 with no
    save completed; it never saves a workbook, so the source spreadsheet is
    never written. *)
Theorem export_saves_iff_returns args w :
  let run := Excel2Word.main args w in
  saved_workbooks run = [] /\
  ((ending run = Returned /\
    exists d, saved_documents run = [(Excel2Word.word_out args, d)]) \/
   (exit_status (ending run) = 1 /\ saved_documents run = [])).
Proof.
  unfold Excel2Word.main.
  repeat (case_match; simpl; eauto 6).
Qed.

(** Every run of the importer either returns normally having saved exactly
    one workbook, at the output path, or ends with exit status 1 with no
    save completed; it never saves a document, so the source document is
    never written. *)
Theorem import_saves_iff_returns args w :
  let run := Word2Excel.main args w in
  saved_documents run = [] /\
  ((ending run = Returned /\
    exists wb, saved_workbooks run = [(Word2Excel.excel_out args, wb)]) \/
   (exit_status (ending run) = 1 /\ saved_workbooks run = [])).
Proof.
  unfold Word2Excel.main, Word2Excel.write_table.
  repeat (case_match; simpl; eauto 6).
Qed.

(** The second half of the importer, up to the range name and the save. *)
Lemma write_table_tail args w c1 c2 table_data cols_word k ws :
  let r1 := Word2Excel.row_start args in
  let r2 := Word2Excel.row_end args in
  let out := Word2Excel.excel_out args in
  1 <= r1 -> 1 <= c1 ->
  py_max (map len table_data) = Ok cols_word ->
  Word2Excel.select_sheet (Word2Excel.sheet args) (Word2Excel.ensure_workbook w out)
    = Ok (Some (k, ws)) ->
  exists ws',
    title ws' = title ws /\
    (forall r c, cell_at ws' r c =
                   imported_cell table_data cols_word r1 r2 c1 c2 (cell_at ws r c) r c) /\
    Word2Excel.write_table args w c1 c2 table_data =
      say (WordTable (Word2Excel.table_index args) (len table_data) cols_word)
        (emits (if path_exists w out then [LoadWorkbook out] else [])
           (say (WritingRegion r1 r2 c1 c2)
              match range_name r1 r2 c1 c2 with
              | Raise e => stop (Uncaught e)
              | Ok rng =>
                  match save_error w out with
                  | Some e => stop (Uncaught e)
                  | None =>
                      emit (SaveWorkbook out
                              (with_sheet k ws' (Word2Excel.ensure_workbook w out)))
                        (say (ExcelWritten rng out) (stop Returned))
                  end
              end)).
Proof.
  intros r1 r2 out Hr1 Hc1 Hmax Hsel.
  destruct (import_cells table_data cols_word r1 r2 c1 c2 ws Hr1 Hc1) as (ws' & E & Ht & Hcells).
  exists ws'. split; [done |]. split; [done |].
  unfold Word2Excel.write_table. rewrite Hmax. fold r1 r2 out. rewrite Hsel, E.
  reflexivity.
Qed.

Lemma range_name_beyond r1 r2 c1 c2 : 18278 < c2 -> range_name r1 r2 c1 c2 = Raise ValueError.
Proof.
  intros H. unfold range_name. rewrite (get_column_letter_raise c2 H).
  unfold get_column_letter. repeat case_match; done.
Qed.

(** The importer with a target column beyond ZZZ (18278), which only a
    numeric column token can name: the cells are written in memory, then the
    range name of the last line raises ValueError outside any handler,
    before the save; the run ends with a traceback (exit status 1) and no
    workbook is saved. *)
Theorem import_beyond_last_column args w c1 c2 doc tbl k ws :
  let r1 := Word2Excel.row_start args in
  let r2 := Word2Excel.row_end args in
  let out := Word2Excel.excel_out args in
  let table_data := map (map Word2Excel.clean_text) (tbl_rows tbl) in
  let run := Word2Excel.main args w in
  path_exists w (Word2Excel.word_in args) = true ->
  Word2Excel.parse_col_arg (Word2Excel.col_start args) = Ok c1 ->
  Word2Excel.parse_col_arg (Word2Excel.col_end args) = Ok c2 ->
  1 <= r1 -> r1 <= r2 -> c1 <= c2 -> 18278 < c2 ->
  open_document w (Word2Excel.word_in args) = Ok doc ->
  0 <= Word2Excel.table_index args ->
  tables doc !! Z.to_nat (Word2Excel.table_index args) = Some tbl ->
  tbl_rows tbl <> [] ->
  Word2Excel.select_sheet (Word2Excel.sheet args) (Word2Excel.ensure_workbook w out)
    = Ok (Some (k, ws)) ->
  exists cols_word,
    run = mkRun (OpenDocument (Word2Excel.word_in args)
                 :: Print (WordTable (Word2Excel.table_index args) (len table_data) cols_word)
                 :: (if path_exists w out then [LoadWorkbook out] else []) ++
                 [Print (WritingRegion r1 r2 c1 c2)])
            (Uncaught ValueError) /\
    exit_status (ending run) = 1 /\ saved_workbooks run = [].
Proof.
  intros r1 r2 out table_data run Hex Hc1 Hc2 Hr1 Hr12 Hc12 Hfar Hdoc Hidx Htbl Hrows Hsel.
  subst run. pose proof (parse_col_arg_positive _ _ Hc1) as Hpos.
  destruct (read_table_inside doc (Word2Excel.table_index args)) as (tbl' & E & Hread).
  { apply lookup_lt_Some in Htbl. unfold index_inside, len. lia. }
  rewrite Htbl in E. injection E as <-.
  assert (Hmax : exists m, py_max (map len table_data) = Ok m).
  { unfold table_data. destruct (tbl_rows tbl); [done |]. by eexists. }
  destruct Hmax as [cols_word Hmax]. exists cols_word.
  destruct (write_table_tail args w c1 c2 table_data cols_word k ws)
    as (ws' & _ & _ & Hrun); try done.
  rewrite (import_run args w c1 c2 doc) by done. rewrite Hread.
  fold table_data. rewrite Hrun. fold r1 r2. rewrite range_name_beyond by done.
  subst out. by destruct (path_exists w (Word2Excel.excel_out args)).
Qed.

Lemma import_beyond_last_column_witness :
  ending (Word2Excel.main far_import_args small_import_world) = Uncaught ValueError.
Proof.
  destruct (import_beyond_last_column far_import_args small_import_world 20000 20001
              (table_document [[py "x"]]) (mkTable None None [[py "x"]]) 0%nat
              (mkWorksheet (py "Sheet") ∅))
    as (cols_word & -> & _);
    [reflexivity | reflexivity | reflexivity | by vm_compute | by vm_compute | lia | lia
    | reflexivity | by vm_compute | reflexivity | discriminate | reflexivity |].
  reflexivity.
Defined.

(** The exporter, once its arguments are valid and the sheet is found: the
    rest of the run is a function of the grid of the region. *)
Lemma export_run_data args w c1 c2 wb k ws :
  let r1 := Excel2Word.row_start args in
  let r2 := Excel2Word.row_end args in
  let out := Excel2Word.word_out args in
  path_exists w (Excel2Word.excel args) = true ->
  Excel2Word.parse_col_arg (Excel2Word.col_start args) = Ok c1 ->
  Excel2Word.parse_col_arg (Excel2Word.col_end args) = Ok c2 ->
  1 <= r1 -> r1 <= r2 -> c1 <= c2 ->
  load_workbook w (Excel2Word.excel args) = Ok wb ->
  Excel2Word.select_sheet (Excel2Word.sheet args) wb = Ok (Some (k, ws)) ->
  Excel2Word.main args w =
    emit (LoadWorkbook (Excel2Word.excel args))
      (say (ReadingRegion r1 r2 c1 c2 (r2 - r1 + 1) (c2 - c1 + 1))
         match (doc ← Excel2Word.build_document (grid_of ws r1 r2 c1 c2)
                        (r2 - r1 + 1) (c2 - c1 + 1);
                match save_error w out with
                | Some e => Raise e
                | None => Ok doc
                end) with
         | Raise e => say (WriteWordError e) (stop (SysExit 1))
         | Ok doc => emit (SaveDocument out doc) (say (WordWritten out) (stop Returned))
         end).
Proof.
  intros r1 r2 out Hex Hc1 Hc2 Hr1 Hr12 Hc12 Hload Hsel.
  pose proof (parse_col_arg_positive _ _ Hc1) as Hpos.
  unfold Excel2Word.main. rewrite Hex, Hc1, Hc2. simpl.
  fold r1 r2 out.
  destruct (Z.ltb_spec r1 1); [lia |]. destruct (Z.ltb_spec r2 1); [lia |]. simpl.
  destruct (Z.gtb_spec c1 c2); [lia |]. destruct (Z.gtb_spec r1 r2); [lia |]. simpl.
  rewrite Hload. simpl. rewrite Hsel.
  by rewrite read_region_grid by done.
Qed.

(** A save that raises.  The exporter catches it, as it catches whatever
    building the document raises: it prints a write error - the error of
    the save when the texts of the region are texts XML can hold - and
    exits with status 1.  The importer has no handler around its save: the
    exception ends the run (traceback, exit status 1).  In neither run is a
    save completed. *)
Theorem failed_save_ends_run :
  (forall args w c1 c2 wb k ws e,
     let r1 := Excel2Word.row_start args in
     let r2 := Excel2Word.row_end args in
     path_exists w (Excel2Word.excel args) = true ->
     Excel2Word.parse_col_arg (Excel2Word.col_start args) = Ok c1 ->
     Excel2Word.parse_col_arg (Excel2Word.col_end args) = Ok c2 ->
     1 <= r1 -> r1 <= r2 -> r2 <= 1048576 -> c1 <= c2 ->
     load_workbook w (Excel2Word.excel args) = Ok wb ->
     Excel2Word.select_sheet (Excel2Word.sheet args) wb = Ok (Some (k, ws)) ->
     save_error w (Excel2Word.word_out args) = Some e ->
     exists e',
       Excel2Word.main args w =
         mkRun [LoadWorkbook (Excel2Word.excel args);
                Print (ReadingRegion r1 r2 c1 c2 (r2 - r1 + 1) (c2 - c1 + 1));
                Print (WriteWordError e')]
           (SysExit 1) /\
       (xml_region ws r1 r2 c1 c2 -> e' = e)) /\
  (forall args w c1 c2 doc tbl k ws e,
     let r1 := Word2Excel.row_start args in
     let r2 := Word2Excel.row_end args in
     let out := Word2Excel.excel_out args in
     let table_data := map (map Word2Excel.clean_text) (tbl_rows tbl) in
     path_exists w (Word2Excel.word_in args) = true ->
     Word2Excel.parse_col_arg (Word2Excel.col_start args) = Ok c1 ->
     Word2Excel.parse_col_arg (Word2Excel.col_end args) = Ok c2 ->
     1 <= r1 -> r1 <= r2 -> r2 <= 1048576 -> c1 <= c2 -> c2 <= 18278 ->
     open_document w (Word2Excel.word_in args) = Ok doc ->
     0 <= Word2Excel.table_index args ->
     tables doc !! Z.to_nat (Word2Excel.table_index args) = Some tbl ->
     tbl_rows tbl <> [] ->
     Word2Excel.select_sheet (Word2Excel.sheet args) (Word2Excel.ensure_workbook w out)
       = Ok (Some (k, ws)) ->
     save_error w out = Some e ->
     exists cols_word,
       Word2Excel.main args w =
         mkRun (OpenDocument (Word2Excel.word_in args)
                :: Print (WordTable (Word2Excel.table_index args) (len table_data) cols_word)
                :: (if path_exists w out then [LoadWorkbook out] else []) ++
                [Print (WritingRegion r1 r2 c1 c2)])
           (Uncaught e)).
Proof.
  split.
  - intros args w c1 c2 wb k ws e r1 r2 Hex Hc1 Hc2 Hr1 Hr12 _ Hc12 Hload Hsel Hsave.
    rewrite (export_run_data args w c1 c2 wb k ws) by done. fold r1 r2. rewrite Hsave.
    destruct (Excel2Word.build_document _ _ _) as [doc | e'] eqn:Eb; simpl.
    + exists e. done.
    + exists e'. split; [done |]. intros Hxml.
      rewrite build_document_grid in Eb by done. done.
  - intros args w c1 c2 doc tbl k ws e r1 r2 out table_data
      Hex Hc1 Hc2 Hr1 Hr12 _ Hc12 Hc2' Hdoc Hidx Htbl Hrows Hsel Hsave.
    pose proof (parse_col_arg_positive _ _ Hc1) as Hpos.
    destruct (read_table_inside doc (Word2Excel.table_index args)) as (tbl' & E & Hread).
    { apply lookup_lt_Some in Htbl. unfold index_inside, len. lia. }
    rewrite Htbl in E. injection E as <-.
    assert (Hmax : exists m, py_max (map len table_data) = Ok m).
    { unfold table_data. destruct (tbl_rows tbl); [done |]. by eexists. }
    destruct Hmax as [cols_word Hmax]. exists cols_word.
    destruct (write_table_tail args w c1 c2 table_data cols_word k ws)
      as (ws' & _ & _ & Hrun); try done.
    rewrite (import_run args w c1 c2 doc) by done. rewrite Hread.
    fold table_data. rewrite Hrun. fold r1 r2 out. rewrite Hsave.
    destruct (get_column_letter_ok c1) as [a Ha]; [lia |].
    destruct (get_column_letter_ok c2) as [b Hb]; [lia |].
    unfold range_name. rewrite Ha, Hb. simpl.
    subst out. by destruct (path_exists w (Word2Excel.excel_out args)).
Qed.

Lemma failed_save_ends_run_witness :
  ending (Excel2Word.main export_scenario_args (read_only export_scenario_world)) = SysExit 1 /\
  ending (Word2Excel.main small_import_args (read_only small_import_world)) = Uncaught OSError.
Proof.
  split.
  - destruct (proj1 failed_save_ends_run export_scenario_args (read_only export_scenario_world)
                3 4 (mkWorkbook [export_scenario_sheet] 0) 0%nat export_scenario_sheet OSError)
      as (e' & -> & _);
      [reflexivity | reflexivity | reflexivity | by vm_compute | by vm_compute | by vm_compute
      | lia | reflexivity | reflexivity | reflexivity |].
    reflexivity.
  - destruct (proj2 failed_save_ends_run small_import_args (read_only small_import_world) 1 2
                (table_document [[py "x"]]) (mkTable None None [[py "x"]]) 0%nat
                (mkWorksheet (py "Sheet") ∅) OSError)
      as (cols_word & ->);
      [reflexivity | reflexivity | reflexivity | by vm_compute | by vm_compute | by vm_compute
      | lia | lia
      | reflexivity | by vm_compute | reflexivity | discriminate | reflexivity | reflexivity |].
    reflexivity.
Defined.

(** ** Which sheet is used *)

Lemma find_sheet_Some name l k ws :
  find_sheet name l = Some (k, ws) ->
  l !! k = Some ws /\ title ws = name /\
  forall j ws', (j < k)%nat -> l !! j = Some ws' -> title ws' <> name.
Proof.
  revert k. induction l as [| x l IH]; intros k; [done |]. simpl.
  destruct (decide (title x = name)) as [E | Hne].
  - intros [= <- <-]. split; [done |]. split; [done |]. intros j ws' Hj. lia.
  - destruct (find_sheet name l) as [[k0 ws0] |] eqn:Ef; [| done]. simpl.
    intros [= <- <-]. destruct (IH k0 eq_refl) as (H1 & H2 & H3).
    split; [done |]. split; [done |].
    intros [| j] ws' Hj Hl.
    + simpl in Hl. by injection Hl as <-.
    + simpl in Hl. apply (H3 j); [lia | done].
Qed.

Lemma find_sheet_None name l : find_sheet name l = None <-> ~ In name (map title l).
Proof.
  induction l as [| x l IH]; [simpl; tauto |]. simpl.
  destruct (decide (title x = name)) as [E | Hne].
  - split; [done |]. intros H. destruct H. by left.
  - destruct (find_sheet name l) as [[k0 ws0] |]; simpl.
    + split; [done |]. intros H. exfalso.
      assert (E : Some (k0, ws0) = None) by (apply IH; intros Hin; apply H; by right).
      discriminate E.
    + split; [| done]. intros _ [E | Hin]; [done |]. by apply (proj1 IH).
Qed.

Lemma in_sheetnames_In name wb :
  in_sheetnames name wb = true <-> In name (map title (sheets wb)).
Proof.
  unfold in_sheetnames. rewrite bool_decide_eq_true. apply list_elem_of_In.
Qed.

Lemma export_select_missing sheet wb :
  truthy sheet = true -> ~ In (default [] sheet) (map title (sheets wb)) ->
  Excel2Word.select_sheet sheet wb = Raise KeyError.
Proof.
  intros Ht Hnin. unfold Excel2Word.select_sheet, wb_getitem. rewrite Ht.
  by rewrite (proj2 (find_sheet_None _ _) Hnin).
Qed.

(** Which sheet each program uses.  A named sheet that exists is the sheet
    both use, the first with that title.  A named sheet that does not exist
    makes the exporter fail with KeyError, while the importer never fails
    and uses the active sheet instead.  No name, or the empty name, is the
    active sheet in both. *)
Theorem sheet_selection_differs :
  (forall sheet wb, exists r, Word2Excel.select_sheet sheet wb = Ok r) /\
  (forall name wb,
     name <> [] -> In name (map title (sheets wb)) ->
     exists k ws,
       Word2Excel.select_sheet (Some name) wb = Ok (Some (k, ws)) /\
       Excel2Word.select_sheet (Some name) wb = Ok (Some (k, ws)) /\
       sheets wb !! k = Some ws /\ title ws = name /\
       forall j ws', (j < k)%nat -> sheets wb !! j = Some ws' -> title ws' <> name) /\
  (forall name wb,
     name <> [] -> ~ In name (map title (sheets wb)) ->
     Word2Excel.select_sheet (Some name) wb = Ok (wb_active wb) /\
     Excel2Word.select_sheet (Some name) wb = Raise KeyError) /\
  (forall wb,
     Word2Excel.select_sheet None wb = Ok (wb_active wb) /\
     Excel2Word.select_sheet None wb = Ok (wb_active wb) /\
     Word2Excel.select_sheet (Some []) wb = Ok (wb_active wb) /\
     Excel2Word.select_sheet (Some []) wb = Ok (wb_active wb)).
Proof.
  assert (Htrue : forall name : str, name <> [] -> truthy (Some name) = true)
    by (by intros [| c name]).
  split; [| split; [| split]].
  - intros sheet wb. unfold Word2Excel.select_sheet.
    destruct (truthy sheet && in_sheetnames (default [] sheet) wb) eqn:E; [| by eexists].
    apply andb_true_iff in E as [_ E]. apply in_sheetnames_In in E.
    unfold wb_getitem.
    destruct (find_sheet (default [] sheet) (sheets wb)) eqn:Ef; [by eexists |].
    by apply find_sheet_None in Ef.
  - intros name wb Hne Hin.
    unfold Word2Excel.select_sheet, Excel2Word.select_sheet, wb_getitem.
    rewrite (Htrue _ Hne). simpl default.
    rewrite (proj2 (in_sheetnames_In _ _) Hin). simpl.
    destruct (find_sheet name (sheets wb)) as [[k ws] |] eqn:Ef.
    + exists k, ws. destruct (find_sheet_Some _ _ _ _ Ef) as (H1 & H2 & H3). done.
    + by apply find_sheet_None in Ef.
  - intros name wb Hne Hnin.
    unfold Word2Excel.select_sheet, Excel2Word.select_sheet, wb_getitem.
    rewrite (Htrue _ Hne). simpl default.
    replace (in_sheetnames name wb) with false.
    2:{ symmetry. apply not_true_is_false. intros E. by apply in_sheetnames_In in E. }
    by rewrite (proj2 (find_sheet_None _ _) Hnin).
  - done.
Qed.

Lemma sheet_selection_differs_witness :
  Excel2Word.select_sheet (Some (py "Data")) Workbook_new = Raise KeyError /\
  Word2Excel.select_sheet (Some (py "Data")) Workbook_new = Ok (wb_active Workbook_new).
Proof.
  destruct (proj1 (proj2 (proj2 sheet_selection_differs)) (py "Data") Workbook_new)
    as [H1 H2]; [discriminate | | by split].
  simpl. intros [H | []]. discriminate H.
Defined.

Lemma import_select_lookup sheet wb k ws :
  Word2Excel.select_sheet sheet wb = Ok (Some (k, ws)) -> sheets wb !! k = Some ws.
Proof.
  unfold Word2Excel.select_sheet, wb_getitem, wb_active.
  destruct (_ && _).
  - destruct (find_sheet _ _) as [[k0 ws0] |] eqn:Ef; [| done]. simpl.
    intros [= <- <-]. by destruct (find_sheet_Some _ _ _ _ Ef).
  - destruct (sheets wb !! active_index wb) eqn:E; [| done]. simpl.
    by intros [= <- <-].
Qed.

Lemma export_select_lookup sheet wb k ws :
  Excel2Word.select_sheet sheet wb = Ok (Some (k, ws)) -> sheets wb !! k = Some ws.
Proof.
  unfold Excel2Word.select_sheet, wb_getitem, wb_active.
  destruct (truthy sheet).
  - destruct (find_sheet _ _) as [[k0 ws0] |] eqn:Ef; [| done]. simpl.
    intros [= <- <-]. by destruct (find_sheet_Some _ _ _ _ Ef).
  - destruct (sheets wb !! active_index wb) eqn:E; [| done]. simpl.
    by intros [= <- <-].
Qed.

(** ** What the exporter reports *)

(** The exporter on a source it cannot use, its arguments being valid.  An
    exception of [load_workbook] ends the run with one error line and exit
    status 1; a KeyError among them is reported as a missing sheet, whether
    or not a sheet was named.  A workbook that opens but lacks the sheet
    named is reported as a missing sheet too.  Nothing is saved. *)
Theorem export_reports_unusable_source args w c1 c2 :
  let r1 := Excel2Word.row_start args in
  let r2 := Excel2Word.row_end args in
  let path := Excel2Word.excel args in
  path_exists w path = true ->
  Excel2Word.parse_col_arg (Excel2Word.col_start args) = Ok c1 ->
  Excel2Word.parse_col_arg (Excel2Word.col_end args) = Ok c2 ->
  1 <= r1 -> r1 <= r2 -> c1 <= c2 ->
  (load_workbook w path = Raise KeyError ->
     Excel2Word.main args w =
       mkRun [LoadWorkbook path; Print (SheetNotFound (Excel2Word.sheet args))] (SysExit 1)) /\
  (forall e, e <> KeyError -> load_workbook w path = Raise e ->
     Excel2Word.main args w =
       mkRun [LoadWorkbook path; Print (OpenExcelError e)] (SysExit 1)) /\
  (forall wb name, load_workbook w path = Ok wb ->
     Excel2Word.sheet args = Some name -> name <> [] ->
     ~ In name (map title (sheets wb)) ->
     Excel2Word.main args w =
       mkRun [LoadWorkbook path; Print (SheetNotFound (Some name))] (SysExit 1)).
Proof.
  intros r1 r2 path Hex Hc1 Hc2 Hr1 Hr12 Hc12.
  pose proof (parse_col_arg_positive _ _ Hc1) as Hpos.
  assert (Hstart : forall res,
    (wb ← load_workbook w path; Excel2Word.select_sheet (Excel2Word.sheet args) wb)
      = Raise res ->
    Excel2Word.main args w =
      emit (LoadWorkbook path)
        match res with
        | KeyError => say (SheetNotFound (Excel2Word.sheet args)) (stop (SysExit 1))
        | e => say (OpenExcelError e) (stop (SysExit 1))
        end).
  { intros res Hres. unfold Excel2Word.main. fold path. rewrite Hex, Hc1, Hc2. simpl.
    fold r1 r2.
    destruct (Z.ltb_spec r1 1); [lia |]. destruct (Z.ltb_spec r2 1); [lia |]. simpl.
    destruct (Z.gtb_spec c1 c2); [lia |]. destruct (Z.gtb_spec r1 r2); [lia |]. simpl.
    rewrite Hres. by destruct res. }
  split; [| split].
  - intros Hload. rewrite (Hstart KeyError); [done |]. by rewrite Hload.
  - intros e He Hload. rewrite (Hstart e); [| by rewrite Hload]. by destruct e.
  - intros wb name Hload Hname Hne Hnin. rewrite (Hstart KeyError); [by rewrite Hname |].
    rewrite Hload, Hname. simpl.
    rewrite export_select_missing; [done | by destruct name | done].
Qed.

Lemma export_reports_unusable_source_witness :
  Excel2Word.main export_scenario_args broken_archive_world
  = mkRun [LoadWorkbook (py "in.xlsx"); Print (SheetNotFound None)] (SysExit 1).
Proof.
  apply (proj1 (export_reports_unusable_source export_scenario_args broken_archive_world 3 4
                  eq_refl eq_refl eq_refl ltac:(by vm_compute) ltac:(by vm_compute)
                  ltac:(lia))).
  reflexivity.
Defined.

(** ** What an import leaves alone *)

(** An import that succeeds changes one sheet of the workbook, inside the
    target range only: every cell outside rows r1..r2, columns c1..c2 is as
    it was (value, alignment and border), the sheet keeps its title, and
    the other sheets, their order and the active sheet are unchanged. *)
Theorem import_touches_only_the_range args w c1 c2 doc tbl k ws :
  let r1 := Word2Excel.row_start args in
  let r2 := Word2Excel.row_end args in
  let out := Word2Excel.excel_out args in
  let wb := Word2Excel.ensure_workbook w out in
  path_exists w (Word2Excel.word_in args) = true ->
  Word2Excel.parse_col_arg (Word2Excel.col_start args) = Ok c1 ->
  Word2Excel.parse_col_arg (Word2Excel.col_end args) = Ok c2 ->
  1 <= r1 -> r1 <= r2 -> r2 <= 1048576 -> c1 <= c2 -> c2 <= 18278 ->
  open_document w (Word2Excel.word_in args) = Ok doc ->
  0 <= Word2Excel.table_index args ->
  tables doc !! Z.to_nat (Word2Excel.table_index args) = Some tbl ->
  tbl_rows tbl <> [] ->
  Word2Excel.select_sheet (Word2Excel.sheet args) wb = Ok (Some (k, ws)) ->
  save_error w out = None ->
  exists wb' ws',
    saved_workbooks (Word2Excel.main args w) = [(out, wb')] /\
    sheets wb !! k = Some ws /\ sheets wb' !! k = Some ws' /\
    title ws' = title ws /\
    (forall r c, ~ (r1 <= r <= r2 /\ c1 <= c <= c2) -> cell_at ws' r c = cell_at ws r c) /\
    length (sheets wb') = length (sheets wb) /\
    active_index wb' = active_index wb /\
    (forall j, j <> k -> sheets wb' !! j = sheets wb !! j).
Proof.
  intros r1 r2 out wb Hex Hc1 Hc2 Hr1 Hr12 _ Hc12 Hc2' Hdoc Hidx Htbl Hrows Hsel Hsave.
  destruct (import_succeeds args w c1 c2 doc tbl k ws)
    as (ws' & cols_word & rng & Hmax & Hrun & Ht & Hcells); try done.
  pose proof (import_select_lookup _ _ _ _ Hsel) as Hk.
  exists (with_sheet k ws' wb), ws'.
  rewrite Hrun, saved_workbooks_import. split; [done |]. split; [done |].
  unfold with_sheet. simpl.
  split; [apply list_lookup_insert_eq; by eapply lookup_lt_Some |].
  split; [done |]. split.
  - intros r c Hout. rewrite Hcells. unfold imported_cell.
    destruct (in_block _ _ (Z.min _ _) (Z.min _ _) r c) eqn:E.
    { apply in_block_spec in E. fold r1 r2 in E. lia. }
    destruct (in_block _ _ (_ - _ + 1) (c2 - c1 + 1) r c) eqn:E'; [| done].
    apply in_block_spec in E'. fold r1 r2 in E'. lia.
  - split; [apply length_insert |]. split; [done |].
    intros j Hj. by apply list_lookup_insert_ne.
Qed.

Lemma import_touches_only_the_range_witness :
  exists wb' ws',
    saved_workbooks (Word2Excel.main import_scenario_args import_scenario_world_old)
      = [(py "out.xlsx", wb')] /\
    sheets wb' !! 0%nat = Some ws' /\
    cell_at ws' 3 1 = new_cell /\ cell_at ws' 1 5 = new_cell.
Proof.
  destruct (import_touches_only_the_range import_scenario_args import_scenario_world_old
              1 4 import_scenario_document
              (mkTable None None [[py "x"; py "y"; py "z"]; [py "1"; py "2"]]) 0%nat
              (mkWorksheet (py "Sheet") (<[(1, 4) := text_cell "old"]> ∅)))
    as (wb' & ws' & Hsaved & _ & Hk & _ & Hcells & _);
    [reflexivity | reflexivity | reflexivity | by vm_compute | by vm_compute | by vm_compute | lia | lia
    | reflexivity | by vm_compute | reflexivity | discriminate | reflexivity | reflexivity |].
  exists wb', ws'. split; [exact Hsaved |]. split; [exact Hk |]. split.
  - rewrite (Hcells 3 1); [reflexivity |]. simpl. lia.
  - rewrite (Hcells 1 5); [reflexivity |]. simpl. lia.
Defined.

(** ** What the exporter reads *)

(** The exporter reads the text of the cells of the region and nothing else
    of the sheet: on two source sheets whose cells in rows r1..r2, columns
    c1..c2 have the same text - whatever their styles, their other cells and
    the types of the values - it prints the same lines, ends the same way
    and saves the same document. *)
Theorem export_reads_only_the_region args w w' c1 c2 wb wb' k k' ws ws' :
  let r1 := Excel2Word.row_start args in
  let r2 := Excel2Word.row_end args in
  path_exists w (Excel2Word.excel args) = true ->
  path_exists w' (Excel2Word.excel args) = true ->
  Excel2Word.parse_col_arg (Excel2Word.col_start args) = Ok c1 ->
  Excel2Word.parse_col_arg (Excel2Word.col_end args) = Ok c2 ->
  1 <= r1 -> r1 <= r2 -> c1 <= c2 ->
  load_workbook w (Excel2Word.excel args) = Ok wb ->
  load_workbook w' (Excel2Word.excel args) = Ok wb' ->
  Excel2Word.select_sheet (Excel2Word.sheet args) wb = Ok (Some (k, ws)) ->
  Excel2Word.select_sheet (Excel2Word.sheet args) wb' = Ok (Some (k', ws')) ->
  save_error w (Excel2Word.word_out args) = save_error w' (Excel2Word.word_out args) ->
  (forall r c, r1 <= r <= r2 -> c1 <= c <= c2 ->
     Excel2Word.cell_text (cell_value (cell_at ws r c)) =
     Excel2Word.cell_text (cell_value (cell_at ws' r c))) ->
  Excel2Word.main args w = Excel2Word.main args w'.
Proof.
  intros r1 r2 Hex Hex' Hc1 Hc2 Hr1 Hr12 Hc12 Hload Hload' Hsel Hsel' Hsave Hsame.
  rewrite (export_run_data args w c1 c2 wb k ws),
    (export_run_data args w' c1 c2 wb' k' ws') by done.
  rewrite Hsave. fold r1 r2.
  replace (grid_of ws' r1 r2 c1 c2) with (grid_of ws r1 r2 c1 c2); [done |].
  unfold grid_of. apply map_ext_in. intros r Hr. apply in_py_range in Hr.
  apply map_ext_in. intros c Hc. apply in_py_range in Hc. apply Hsame; lia.
Qed.

Lemma export_reads_only_the_region_witness :
  Excel2Word.main export_scenario_args export_scenario_world
  = Excel2Word.main export_scenario_args export_scenario_world_restyled.
Proof.
  apply (export_reads_only_the_region export_scenario_args export_scenario_world
           export_scenario_world_restyled 3 4
           (mkWorkbook [export_scenario_sheet] 0)
           (mkWorkbook [export_scenario_sheet_restyled] 0) 0%nat 0%nat
           export_scenario_sheet export_scenario_sheet_restyled);
    [reflexivity | reflexivity | reflexivity | reflexivity | by vm_compute | by vm_compute
    | lia | reflexivity | reflexivity | reflexivity | reflexivity | reflexivity |].
  intros r c Hr Hc. change (Excel2Word.row_start export_scenario_args) with 2 in Hr.
  change (Excel2Word.row_end export_scenario_args) with 4 in Hr.
  assert (Hr' : r = 2 \/ r = 3 \/ r = 4) by lia.
  assert (Hc' : c = 3 \/ c = 4) by lia.
  destruct Hr' as [-> | [-> | ->]], Hc' as [-> | ->]; reflexivity.
Defined.

(** ** Document, sheet, document *)

Lemma grid_of_rectangle ws table_data width r1 c1 :
  Forall (fun row => len row <= width) table_data ->
  (forall i j : nat, (i < length table_data)%nat -> (j < Z.to_nat width)%nat ->
     cell_value (cell_at ws (r1 + Z.of_nat i) (c1 + Z.of_nat j))
       = VStr (padded table_data (Z.of_nat i) (Z.of_nat j))) ->
  grid_of ws r1 (r1 + len table_data - 1) c1 (c1 + width - 1) = rectangle table_data width.
Proof.
  intros Hall Hcells. unfold grid_of, rectangle, len.
  replace (r1 + Z.of_nat (length table_data) - 1 + 1) with (r1 + Z.of_nat (length table_data))
    by lia.
  replace (c1 + width - 1 + 1) with (c1 + width) by lia.
  apply list_eq. intros i. rewrite !list_lookup_fmap.
  destruct (decide (i < length table_data)%nat) as [Hi | Hi].
  - rewrite lookup_py_range by lia.
    destruct (lookup_lt_is_Some_2 table_data i Hi) as [row Hrow]. rewrite Hrow. simpl.
    f_equal. rewrite Forall_forall in Hall.
    assert (Hlen : len row <= width) by (apply Hall; by eapply list_elem_of_lookup_2).
    unfold len in Hlen.
    apply list_eq. intros j. rewrite list_lookup_fmap.
    destruct (decide (j < Z.to_nat width)%nat) as [Hj | Hj].
    + rewrite lookup_py_range by lia. simpl. rewrite (Hcells i j Hi Hj). simpl.
      unfold padded. rewrite !Nat2Z.id, Hrow.
      destruct (decide (j < length row)%nat) as [Hjr | Hjr].
      * rewrite lookup_app_l by done.
        destruct (lookup_lt_is_Some_2 row j Hjr) as [x Hx]. by rewrite Hx.
      * rewrite lookup_app_r by lia. rewrite (lookup_ge_None_2 row j) by lia. simpl.
        symmetry. f_equal. apply lookup_replicate_2. lia.
    + rewrite (lookup_ge_None_2 (py_range _ _)) by (rewrite length_py_range; lia). simpl.
      symmetry. apply lookup_ge_None_2. rewrite length_app, length_replicate. lia.
  - rewrite (lookup_ge_None_2 (py_range _ _)) by (rewrite length_py_range; lia).
    by rewrite (lookup_ge_None_2 table_data) by lia.
Qed.

Lemma py_max_bounds xs m : py_max xs = Ok m -> Forall (fun x => x <= m) xs.
Proof.
  destruct xs as [| x xs]; [done |]. simpl. intros [= <-].
  apply Forall_forall. intros y Hy. apply fold_left_max_bound. by apply list_elem_of_In.
Qed.

Lemma join_forall (P : N -> bool) sep ps :
  forallb P sep = true -> Forall (fun p => forallb P p = true) ps ->
  forallb P (join sep ps) = true.
Proof.
  intros Hsep. induction ps as [| p ps IH]; [done |]. intros H.
  apply Forall_cons in H as [Hp Hps].
  destruct ps as [| q r]; [done |].
  rewrite join_cons2, !forallb_app, Hp, Hsep. simpl. by apply IH.
Qed.

Lemma split_from_forall (P : N -> bool) w s :
  forallb P w = true -> forallb P s = true ->
  Forall (fun p => forallb P p = true) (split_from w s).
Proof.
  revert w. induction s as [| c s IH]; intros w Hw Hs.
  - simpl. destruct w as [| a w]; [constructor |].
    constructor; [| constructor]. by rewrite forallb_rev.
  - simpl in Hs. apply andb_true_iff in Hs as [Hc Hs]. simpl.
    destruct (isspace c).
    + destruct w as [| a w]; [by apply IH |].
      constructor; [by rewrite forallb_rev | by apply IH].
    + apply IH; [| done]. simpl. by rewrite Hc, Hw.
Qed.

Lemma forallb_firstn {A} (P : A -> bool) n l :
  forallb P l = true -> forallb P (firstn n l) = true.
Proof.
  revert n. induction l as [| a l IH]; intros n H; [by destruct n |].
  simpl in H. apply andb_true_iff in H as [Ha Hl].
  destruct n; [done |]. simpl. by rewrite Ha, IH.
Qed.

Lemma in_firstn {A} (x : A) n l : In x (firstn n l) -> In x l.
Proof.
  revert n. induction l as [| a l IH]; intros n; [by destruct n |].
  destruct n; [done |]. simpl. intros [-> | H]; [by left | right; by apply (IH n)].
Qed.

(** Cleaning keeps a text within what XML can hold, and leaves it no
    carriage return. *)
Lemma clean_text_xml s : xml_text s -> xml_text (Word2Excel.clean_text s).
Proof.
  intros H. unfold xml_text, Word2Excel.clean_text, split. rewrite split_replace.
  apply join_forall; [done |]. by apply split_from_forall.
Qed.

Lemma clean_text_no_return s : ~ In 13%N (Word2Excel.clean_text s).
Proof.
  unfold Word2Excel.clean_text, split. rewrite split_replace.
  assert (H : forallb (fun c => negb (isspace c) || (c =? 32)%N)
                (join [32%N] (split_from [] s)) = true).
  { apply join_forall; [done |].
    eapply Forall_impl; [apply (split_solid [] s eq_refl) |].
    intros p [_ Hp]. eapply forallb_impl; [| exact Hp].
    intros c Hc. simpl in Hc. by rewrite Hc. }
  intros Hin. rewrite forallb_forall in H. by specialize (H _ Hin).
Qed.

Lemma held_nil : held [] = [].
Proof. done. Qed.

Lemma padded_held table_data i j :
  padded (map (map held) table_data) i j = held (padded table_data i j).
Proof.
  unfold padded. rewrite list_lookup_fmap.
  destruct (table_data !! Z.to_nat i) as [row |]; [| done]. simpl.
  rewrite list_lookup_fmap. by destruct (row !! Z.to_nat j).
Qed.

Lemma padded_forall (P : str -> Prop) table_data i j :
  P [] -> Forall (Forall P) table_data -> P (padded table_data i j).
Proof.
  intros Hnil Hall. unfold padded.
  destruct (table_data !! Z.to_nat i) as [row |] eqn:Er; [| done].
  destruct (row !! Z.to_nat j) as [x |] eqn:Ex; [| done]. simpl.
  rewrite Forall_forall in Hall.
  assert (Hrow : Forall P row) by (apply Hall; by eapply list_elem_of_lookup_2).
  rewrite Forall_forall in Hrow. apply Hrow. by eapply list_elem_of_lookup_2.
Qed.

(** A table imported into a range of its own size (as many rows as the
    table, as many columns as its widest row) and that range exported again
    from the saved workbook, read back as it was saved: both runs end
    normally and the new document's table is the old one with every text
    cleaned (and cut to 32767 characters) and every short row padded with
    empty texts to the width of the widest.  The texts of the first
    document are texts XML can hold, as those of a document read from a
    file are. *)
Theorem import_then_export_pads_rows
    (ia : Word2Excel.Args) (w2 : World) (doc : Document) (tbl : Table) (e1 e2 : Z)
    (k : nat) (ws0 : Worksheet) (cols_word : Z)
    (ea : Excel2Word.Args) (w1 : World) (wb' : Workbook) (ws1 : Worksheet) :
  let t1 := Word2Excel.row_start ia in
  let t2 := Word2Excel.row_end ia in
  let out := Word2Excel.excel_out ia in
  let table_data := map (map Word2Excel.clean_text) (tbl_rows tbl) in
  path_exists w2 (Word2Excel.word_in ia) = true ->
  Word2Excel.parse_col_arg (Word2Excel.col_start ia) = Ok e1 ->
  Word2Excel.parse_col_arg (Word2Excel.col_end ia) = Ok e2 ->
  open_document w2 (Word2Excel.word_in ia) = Ok doc ->
  0 <= Word2Excel.table_index ia ->
  tables doc !! Z.to_nat (Word2Excel.table_index ia) = Some tbl ->
  Forall (Forall xml_text) (tbl_rows tbl) ->
  py_max (map len table_data) = Ok cols_word ->
  1 <= t1 -> t2 - t1 + 1 = len table_data -> t2 <= 1048576 ->
  e1 <= e2 -> e2 - e1 + 1 = cols_word -> e2 <= 18278 ->
  Word2Excel.select_sheet (Word2Excel.sheet ia) (Word2Excel.ensure_workbook w2 out)
    = Ok (Some (k, ws0)) ->
  save_error w2 out = None ->
  saved_workbooks (Word2Excel.main ia w2) = [(out, wb')] ->
  path_exists w1 (Excel2Word.excel ea) = true ->
  load_workbook w1 (Excel2Word.excel ea) = Ok wb' ->
  Excel2Word.select_sheet (Excel2Word.sheet ea) wb' = Ok (Some (k, ws1)) ->
  Excel2Word.row_start ea = t1 -> Excel2Word.row_end ea = t2 ->
  Excel2Word.parse_col_arg (Excel2Word.col_start ea) = Ok e1 ->
  Excel2Word.parse_col_arg (Excel2Word.col_end ea) = Ok e2 ->
  save_error w1 (Excel2Word.word_out ea) = None ->
  ending (Word2Excel.main ia w2) = Returned /\
  ending (Excel2Word.main ea w1) = Returned /\
  saved_documents (Excel2Word.main ea w1)
    = [(Excel2Word.word_out ea,
        exported_document (rectangle (map (map held) table_data) cols_word))].
Proof.
  intros t1 t2 out table_data Hex He1 He2 Hopen Hidx Htbl Hxml Hmax Ht1 Hrows _ He12 Hcols He2'
    Hsel Hsave Hsaved Hex1 Hload Hsel1 Hr1 Hr2 Hc1 Hc2 Hsave1.
  assert (Hne : tbl_rows tbl <> []).
  { intros E. subst table_data. rewrite E in Hmax. discriminate Hmax. }
  assert (Hrowsnat : (0 < length table_data)%nat).
  { subst table_data. rewrite length_map. destruct (tbl_rows tbl); [done | simpl; lia]. }
  destruct (import_succeeds ia w2 e1 e2 doc tbl k ws0)
    as (ws' & cw & rng & Hmax' & Hrun & _ & Hcells); try done.
  { fold t1 t2. unfold len in Hrows. lia. }
  fold table_data in Hmax', Hcells. fold t1 t2 out in Hrun, Hcells.
  assert (cw = cols_word) as -> by congruence.
  rewrite Hrun in Hsaved |- *. rewrite saved_workbooks_import in Hsaved.
  injection Hsaved as <-. split; [done |].
  pose proof (import_select_lookup _ _ _ _ Hsel) as Hk.
  pose proof (export_select_lookup _ _ _ _ Hsel1) as Hk1.
  unfold with_sheet in Hk1. simpl in Hk1.
  rewrite list_lookup_insert_eq in Hk1 by (by eapply lookup_lt_Some).
  injection Hk1 as <-.
  assert (Hin : forall i j : nat, (i < length table_data)%nat -> (j < Z.to_nat cols_word)%nat ->
            cell_value (cell_at ws' (t1 + Z.of_nat i) (e1 + Z.of_nat j))
              = VStr (held (padded table_data (Z.of_nat i) (Z.of_nat j)))).
  { intros i j Hi Hj. rewrite Hcells. unfold imported_cell.
    assert (in_block t1 e1 (Z.min (len table_data) (t2 - t1 + 1))
              (Z.min cols_word (e2 - e1 + 1)) (t1 + Z.of_nat i) (e1 + Z.of_nat j) = true)
      as ->.
    { apply in_block_spec. unfold len in *. lia. }
    simpl. do 3 f_equal; lia. }
  assert (Hclean : Forall (Forall (fun s => xml_text s /\ ~ In 13%N s)) table_data).
  { unfold table_data. apply Forall_forall. intros row Hrow.
    apply list_elem_of_In, in_map_iff in Hrow as (row0 & <- & Hrow0).
    apply Forall_forall. intros x Hx.
    apply list_elem_of_In, in_map_iff in Hx as (x0 & <- & Hx0).
    split; [| apply clean_text_no_return]. apply clean_text_xml.
    rewrite Forall_forall in Hxml. apply list_elem_of_In in Hrow0.
    specialize (Hxml _ Hrow0). rewrite Forall_forall in Hxml.
    apply Hxml. by apply list_elem_of_In. }
  assert (Hpad : forall i j, xml_text (padded table_data i j) /\ ~ In 13%N (padded table_data i j)).
  { intros i j. apply (padded_forall (fun s => xml_text s /\ ~ In 13%N s)); [| done].
    split; [done | by intros []]. }
  assert (Hg : grid_of ws' t1 t2 e1 e2 = rectangle (map (map held) table_data) cols_word).
  { replace t2 with (t1 + len (map (map held) table_data) - 1)
      by (unfold len in *; rewrite length_map; lia).
    replace e2 with (e1 + cols_word - 1) by lia.
    apply grid_of_rectangle.
    - pose proof (py_max_bounds _ _ Hmax) as Hb. apply Forall_forall.
      intros row Hrow. apply list_elem_of_In, in_map_iff in Hrow as (row0 & <- & Hrow0).
      rewrite Forall_forall in Hb. unfold len. rewrite length_map.
      apply Hb, list_elem_of_In. change (In (len row0) (map len table_data)).
      by apply in_map.
    - intros i j Hi Hj. rewrite length_map in Hi. rewrite padded_held. by apply Hin. }
  assert (Hx : xml_region ws' t1 t2 e1 e2).
  { intros r c Hr Hc.
    replace r with (t1 + Z.of_nat (Z.to_nat (r - t1))) by lia.
    replace c with (e1 + Z.of_nat (Z.to_nat (c - e1))) by lia.
    rewrite Hin by (unfold len in *; lia). simpl.
    apply forallb_firstn, Hpad. }
  assert (Hlf : map (map line_feeds) (grid_of ws' t1 t2 e1 e2) = grid_of ws' t1 t2 e1 e2).
  { rewrite <- (map_id (grid_of ws' t1 t2 e1 e2)) at 2. apply map_ext_in. intros row Hrow.
    rewrite <- (map_id row) at 2. apply map_ext_in. intros x Hx'.
    apply line_feeds_id. unfold grid_of in Hrow.
    apply in_map_iff in Hrow as (r & <- & Hr). apply in_py_range in Hr.
    apply in_map_iff in Hx' as (c & <- & Hc). apply in_py_range in Hc.
    replace r with (t1 + Z.of_nat (Z.to_nat (r - t1))) by lia.
    replace c with (e1 + Z.of_nat (Z.to_nat (c - e1))) by lia.
    rewrite Hin by (unfold len in *; lia). simpl.
    intros H13. apply (proj2 (Hpad (Z.of_nat (Z.to_nat (r - t1))) (Z.of_nat (Z.to_nat (c - e1))))).
    unfold held in H13. by apply in_firstn in H13. }
  rewrite (export_run ea w1 e1 e2 _ k ws')
    by (rewrite ?Hr1, ?Hr2; done || (fold t1 t2; unfold len in Hrows; lia)).
  rewrite Hr1, Hr2, Hsave1. fold t1 t2. rewrite Hlf, Hg. done.
Qed.

(** ** Importing twice *)

Lemma find_sheet_insert name l k ws ws' :
  find_sheet name l = Some (k, ws) -> title ws' = title ws ->
  find_sheet name (<[k := ws']> l) = Some (k, ws').
Proof.
  revert k. induction l as [| x l IH]; intros k; [done |]. simpl.
  destruct (decide (title x = name)) as [E | Hne].
  - intros [= <- <-] Ht. simpl. rewrite decide_True by congruence. done.
  - destruct (find_sheet name l) as [[k0 ws0] |] eqn:Ef; [| done]. simpl.
    intros [= <- <-] Ht. simpl. rewrite decide_False by done.
    by rewrite (IH k0).
Qed.

Lemma titles_insert (l : list Worksheet) k ws ws' :
  l !! k = Some ws -> title ws' = title ws -> map title (<[k := ws']> l) = map title l.
Proof.
  intros Hk Ht. rewrite list_fmap_insert, Ht. apply list_insert_id.
  by rewrite list_lookup_fmap, Hk.
Qed.

(** The importer finds again the sheet it wrote. *)
Lemma import_select_again sheet wb k ws ws' :
  Word2Excel.select_sheet sheet wb = Ok (Some (k, ws)) -> title ws' = title ws ->
  Word2Excel.select_sheet sheet (with_sheet k ws' wb) = Ok (Some (k, ws')).
Proof.
  intros Hsel Ht. pose proof (import_select_lookup _ _ _ _ Hsel) as Hk.
  revert Hsel. unfold Word2Excel.select_sheet, in_sheetnames, wb_getitem, wb_active, with_sheet.
  simpl. rewrite (titles_insert _ _ _ _ Hk Ht).
  destruct (_ && _).
  - destruct (find_sheet _ (sheets wb)) as [[k0 ws0] |] eqn:Ef; [| done]. simpl.
    intros [= <- <-]. by rewrite (find_sheet_insert _ _ _ _ _ Ef Ht).
  - destruct (sheets wb !! active_index wb) eqn:E; [| done]. simpl.
    intros [= <- <-]. rewrite list_lookup_insert_eq by (by eapply lookup_lt_Some). done.
Qed.

Lemma imported_cell_idem table_data cols_word r1 r2 c1 c2 old r c :
  imported_cell table_data cols_word r1 r2 c1 c2
    (imported_cell table_data cols_word r1 r2 c1 c2 old r c) r c
  = imported_cell table_data cols_word r1 r2 c1 c2 old r c.
Proof.
  unfold imported_cell. destruct (in_block _ _ (Z.min _ _) _ r c); [done |].
  destruct (in_block _ _ _ _ r c); [| done]. apply formatted_idem.
Qed.

(** Importing the same table a second time into the workbook the first
    import saved, read back as it was saved, changes nothing one can read
    from it: the second run saves a workbook whose written sheet has the
    same title and, at every position, the same cell (value, alignment and
    border) as after the first run, with the other sheets and the active
    sheet as they were. *)
Theorem import_again_changes_nothing args w w' c1 c2 doc tbl k ws wb1 :
  let r1 := Word2Excel.row_start args in
  let r2 := Word2Excel.row_end args in
  let out := Word2Excel.excel_out args in
  path_exists w (Word2Excel.word_in args) = true ->
  Word2Excel.parse_col_arg (Word2Excel.col_start args) = Ok c1 ->
  Word2Excel.parse_col_arg (Word2Excel.col_end args) = Ok c2 ->
  1 <= r1 -> r1 <= r2 -> r2 <= 1048576 -> c1 <= c2 -> c2 <= 18278 ->
  open_document w (Word2Excel.word_in args) = Ok doc ->
  0 <= Word2Excel.table_index args ->
  tables doc !! Z.to_nat (Word2Excel.table_index args) = Some tbl ->
  tbl_rows tbl <> [] ->
  Word2Excel.select_sheet (Word2Excel.sheet args) (Word2Excel.ensure_workbook w out)
    = Ok (Some (k, ws)) ->
  save_error w out = None ->
  saved_workbooks (Word2Excel.main args w) = [(out, wb1)] ->
  path_exists w' (Word2Excel.word_in args) = true ->
  open_document w' (Word2Excel.word_in args) = Ok doc ->
  path_exists w' out = true ->
  load_workbook w' out = Ok wb1 ->
  save_error w' out = None ->
  exists ws1 wb2 ws2,
    sheets wb1 !! k = Some ws1 /\
    saved_workbooks (Word2Excel.main args w') = [(out, wb2)] /\
    ending (Word2Excel.main args w') = Returned /\
    sheets wb2 !! k = Some ws2 /\
    title ws2 = title ws1 /\
    (forall r c, cell_at ws2 r c = cell_at ws1 r c) /\
    active_index wb2 = active_index wb1 /\
    (forall j, j <> k -> sheets wb2 !! j = sheets wb1 !! j).
Proof.
  intros r1 r2 out Hex Hc1 Hc2 Hr1 Hr12 _ Hc12 Hc2' Hdoc Hidx Htbl Hrows Hsel Hsave Hsaved
    Hex' Hdoc' Hout' Hload' Hsave'.
  destruct (import_succeeds args w c1 c2 doc tbl k ws)
    as (ws1 & cols_word & rng & Hmax & Hrun & Ht & Hcells); try done.
  fold r1 r2 out in Hrun, Hcells.
  rewrite Hrun, saved_workbooks_import in Hsaved. injection Hsaved as <-.
  pose proof (import_select_lookup _ _ _ _ Hsel) as Hk.
  assert (Hlt : (k < length (sheets (Word2Excel.ensure_workbook w out)))%nat)
    by (by eapply lookup_lt_Some).
  assert (Hwb' : Word2Excel.ensure_workbook w' out
                 = with_sheet k ws1 (Word2Excel.ensure_workbook w out)).
  { unfold Word2Excel.ensure_workbook at 1. by rewrite Hout', Hload'. }
  destruct (import_succeeds args w' c1 c2 doc tbl k ws1)
    as (ws2 & cols_word' & rng' & Hmax' & Hrun' & Ht' & Hcells'); try done.
  { fold out. rewrite Hwb'. by apply (import_select_again _ _ _ ws). }
  fold r1 r2 out in Hrun', Hcells'.
  assert (cols_word' = cols_word) as -> by congruence.
  exists ws1, (with_sheet k ws2 (Word2Excel.ensure_workbook w' out)), ws2.
  rewrite Hrun', saved_workbooks_import, Hwb'. unfold with_sheet. simpl.
  split; [by apply list_lookup_insert_eq |]. split; [done |]. split; [done |].
  split; [apply list_lookup_insert_eq; by rewrite length_insert |].
  split; [done |]. split.
  - intros r c. rewrite Hcells', Hcells. apply imported_cell_idem.
  - split; [done |]. intros j Hj. by rewrite list_lookup_insert_ne.
Qed.


Lemma import_again_changes_nothing_witness :
  exists ws1 wb2 ws2,
    sheets first_import_workbook !! 0%nat = Some ws1 /\
    saved_workbooks (Word2Excel.main import_scenario_args second_import_world)
      = [(py "out.xlsx", wb2)] /\
    sheets wb2 !! 0%nat = Some ws2 /\
    forall r c, cell_at ws2 r c = cell_at ws1 r c.
Proof.
  destruct (import_again_changes_nothing import_scenario_args import_scenario_world_old
              second_import_world 1 4 import_scenario_document
              (mkTable None None [[py "x"; py "y"; py "z"]; [py "1"; py "2"]]) 0%nat
              (mkWorksheet (py "Sheet") (<[(1, 4) := text_cell "old"]> ∅))
              first_import_workbook)
    as (ws1 & wb2 & ws2 & H1 & H2 & _ & H3 & _ & H4 & _);
    [reflexivity | reflexivity | reflexivity | by vm_compute | by vm_compute | by vm_compute | lia | lia
    | reflexivity | by vm_compute | reflexivity | discriminate | reflexivity | reflexivity
    | by vm_compute | reflexivity | by vm_compute | reflexivity | by vm_compute | reflexivity |].
  exists ws1, wb2, ws2. repeat split; assumption.
Defined.

(** ** What the exporter cannot write *)

Lemma for_each_Ok_each {St X} (xs : list X) (body : X -> St -> Exc St) s s' x :
  for_each xs body s = Ok s' -> In x xs -> exists s1 s2, body x s1 = Ok s2.
Proof.
  revert s. induction xs as [| y xs IH]; intros s H Hin; [done |].
  simpl in H. destruct (body y s) as [s1 |] eqn:Ey; [| done]. simpl in H.
  destruct Hin as [-> | Hin]; [by exists s, s1 | by apply (IH s1)].
Qed.

Lemma control_not_xml ch :
  (ch < 32)%N -> ch <> 9%N -> ch <> 10%N -> ch <> 13%N -> xml_char ch = false.
Proof. intros H1 H2 H3 H4. unfold xml_char. compare_all. Qed.

(** A control character in the region - any character below U+0020 other
    than tab, line feed and carriage return - cannot be written to the
    document: the exporter reads the region, prints the write error and
    exits with status 1, and no document is saved. *)
Theorem export_refuses_control_characters args w c1 c2 wb k ws r c ch :
  let r1 := Excel2Word.row_start args in
  let r2 := Excel2Word.row_end args in
  path_exists w (Excel2Word.excel args) = true ->
  Excel2Word.parse_col_arg (Excel2Word.col_start args) = Ok c1 ->
  Excel2Word.parse_col_arg (Excel2Word.col_end args) = Ok c2 ->
  1 <= r1 -> r1 <= r2 -> r2 <= 1048576 -> c1 <= c2 ->
  load_workbook w (Excel2Word.excel args) = Ok wb ->
  Excel2Word.select_sheet (Excel2Word.sheet args) wb = Ok (Some (k, ws)) ->
  r1 <= r <= r2 -> c1 <= c <= c2 ->
  In ch (Excel2Word.cell_text (cell_value (cell_at ws r c))) ->
  (ch < 32)%N -> ch <> 9%N -> ch <> 10%N -> ch <> 13%N ->
  exists e,
    Excel2Word.main args w =
      mkRun [LoadWorkbook (Excel2Word.excel args);
             Print (ReadingRegion r1 r2 c1 c2 (r2 - r1 + 1) (c2 - c1 + 1));
             Print (WriteWordError e)]
        (SysExit 1) /\
    saved_documents (Excel2Word.main args w) = [].
Proof.
  intros r1 r2 Hex Hc1 Hc2 Hr1 Hr12 _ Hc12 Hload Hsel Hr Hc Hin Hch H9 H10 H13.
  rewrite (export_run_data args w c1 c2 wb k ws) by done. fold r1 r2.
  destruct (Excel2Word.build_document _ _ _) as [doc | e] eqn:Eb; simpl; [| by exists e].
  exfalso. unfold Excel2Word.build_document in Eb.
  destruct (Excel2Word.fill_table _ _ _ _) as [tbl |] eqn:Ef; [| done]. clear Eb.
  unfold Excel2Word.fill_table in Ef.
  destruct (for_each_Ok_each _ _ _ _ (r - r1) Ef) as (t1 & t2 & Erow);
    [apply in_py_range; lia |].
  destruct (for_each_Ok_each _ _ _ _ (c - c1) Erow) as (t3 & t4 & Ecell);
    [apply in_py_range; lia |].
  destruct (tbl_cell t3 (r - r1) (c - c1)) as [ref |]; [| done]. simpl in Ecell.
  destruct (py_index (grid_of ws r1 r2 c1 c2) (r - r1)) as [row |] eqn:Ei; [| done].
  simpl in Ecell.
  destruct (py_index row (c - c1)) as [text |] eqn:Ej; [| done]. simpl in Ecell.
  apply py_index_inv in Ei; [| lia]. apply py_index_inv in Ej; [| lia].
  pose proof (lookup_grid_of ws r1 r2 c1 c2 (Z.to_nat (r - r1)) (Z.to_nat (c - c1))) as Hg.
  rewrite Ei in Hg. simpl in Hg. rewrite Ej in Hg.
  specialize (Hg ltac:(lia) ltac:(lia)). injection Hg as ->.
  replace (r1 + Z.of_nat (Z.to_nat (r - r1))) with r in Ecell by lia.
  replace (c1 + Z.of_nat (Z.to_nat (c - c1))) with c in Ecell by lia.
  unfold set_text in Ecell.
  destruct (forallb xml_char _) eqn:Ex; [| done].
  rewrite forallb_forall in Ex. specialize (Ex _ Hin).
  by rewrite control_not_xml in Ex.
Qed.

Lemma export_refuses_control_characters_witness :
  exists e,
    Excel2Word.main cr_export_args bell_export_world =
      mkRun [LoadWorkbook (py "in.xlsx"); Print (ReadingRegion 1 1 1 1 1 1);
             Print (WriteWordError e)] (SysExit 1) /\
    saved_documents (Excel2Word.main cr_export_args bell_export_world) = [].
Proof.
  apply (export_refuses_control_characters cr_export_args bell_export_world 1 1
           (mkWorkbook [bell_sheet] 0) 0%nat bell_sheet 1 1 7%N);
    [reflexivity | reflexivity | reflexivity | by vm_compute | by vm_compute | by vm_compute
    | lia | reflexivity | reflexivity | by vm_compute | lia | right; by left
    | reflexivity | discriminate | discriminate | discriminate].
Defined.

(** ** The range the importer names *)

(** The letters of a column, read as a column label, are the column. *)
Lemma get_column_letter_value c :
  1 <= c <= 18278 ->
  exists a, get_column_letter c = Ok a /\ capital_token a /\ column_value a = c.
Proof.
  intros Hc.
  assert (H : holds_from (fun n => names_column (Z.of_N n)) (N.to_nat 18278) 1 = true)
    by (by vm_compute).
  pose proof (holds_from_spec _ _ _ (Z.to_N c) H ltac:(lia)) as Hn. clear H.
  cbv beta in Hn. rewrite Z2N.id in Hn by lia. unfold names_column in Hn.
  destruct (get_column_letter c) as [a |]; [| done].
  apply andb_true_iff in Hn as [Hn Hval]. apply andb_true_iff in Hn as [Hn Hcap].
  apply andb_true_iff in Hn as [Hpos Hlen].
  apply Z.ltb_lt in Hpos. apply Z.leb_le in Hlen. apply Z.eqb_eq in Hval.
  exists a. split; [done |]. split; [| done].
  split; [intros ->; unfold len in Hpos; simpl in Hpos; lia |].
  split; [unfold len in Hlen; lia | done].
Qed.

Lemma parse_capital_token a :
  capital_token a -> Excel2Word.parse_col_arg a = Ok (column_value a).
Proof.
  intros (Hne & Hlen & Hall).
  assert (Hlet : forallb isletter a = true).
  { eapply forallb_impl; [| exact Hall]. intros x Hx. unfold iscapital in Hx.
    unfold isletter. by rewrite Hx. }
  assert (Hs : strip a = a).
  { apply strip_id. eapply forallb_impl; [| exact Hlet].
    intros x Hx. by destruct (letter_char x Hx) as [-> _]. }
  rewrite <- Hs at 2. apply parse_letters. rewrite Hs. done.
Qed.

(** The closing line of a successful import names the range written: the
    letters of the first column and the first row, a colon, the letters of
    the last column and the last row.  Read back by [parse_col_arg], the
    letters are the columns given; the row numerals denote the rows. *)
Theorem import_names_the_range args w c1 c2 doc tbl k ws :
  let r1 := Word2Excel.row_start args in
  let r2 := Word2Excel.row_end args in
  let out := Word2Excel.excel_out args in
  path_exists w (Word2Excel.word_in args) = true ->
  Word2Excel.parse_col_arg (Word2Excel.col_start args) = Ok c1 ->
  Word2Excel.parse_col_arg (Word2Excel.col_end args) = Ok c2 ->
  1 <= r1 -> r1 <= r2 -> r2 <= 1048576 -> c1 <= c2 -> c2 <= 18278 ->
  open_document w (Word2Excel.word_in args) = Ok doc ->
  0 <= Word2Excel.table_index args ->
  tables doc !! Z.to_nat (Word2Excel.table_index args) = Some tbl ->
  tbl_rows tbl <> [] ->
  Word2Excel.select_sheet (Word2Excel.sheet args) (Word2Excel.ensure_workbook w out)
    = Ok (Some (k, ws)) ->
  save_error w out = None ->
  exists a b,
    last (trace (Word2Excel.main args w))
      = Some (Print (ExcelWritten (a ++ str_of_int r1 ++ py ":" ++ b ++ str_of_int r2) out)) /\
    Word2Excel.parse_col_arg a = Ok c1 /\
    Word2Excel.parse_col_arg b = Ok c2 /\
    all_decimal (str_of_int r1) /\ decimal_value (str_of_int r1) = r1 /\
    all_decimal (str_of_int r2) /\ decimal_value (str_of_int r2) = r2.
Proof.
  intros r1 r2 out Hex Hc1 Hc2 Hr1 Hr12 _ Hc12 Hc2' Hdoc Hidx Htbl Hrows Hsel Hsave.
  pose proof (parse_col_arg_positive _ _ Hc1) as Hpos.
  destruct (read_table_inside doc (Word2Excel.table_index args)) as (tbl' & E & Hread).
  { apply lookup_lt_Some in Htbl. unfold index_inside, len. lia. }
  rewrite Htbl in E. injection E as <-.
  set (table_data := map (map Word2Excel.clean_text) (tbl_rows tbl)) in *.
  assert (Hmax : exists m, py_max (map len table_data) = Ok m).
  { unfold table_data. destruct (tbl_rows tbl); [done |]. by eexists. }
  destruct Hmax as [cols_word Hmax].
  destruct (write_table_tail args w c1 c2 table_data cols_word k ws)
    as (ws' & _ & _ & Hrun); try done.
  destruct (get_column_letter_value c1) as (a & Ha & Hacap & Haval); [lia |].
  destruct (get_column_letter_value c2) as (b & Hb & Hbcap & Hbval); [lia |].
  exists a, b.
  rewrite (import_run args w c1 c2 doc) by done. rewrite Hread.
  rewrite Hrun. fold r1 r2 out. unfold range_name. rewrite Ha, Hb. simpl. rewrite Hsave.
  split.
  { by destruct (path_exists w out). }
  split; [change (Excel2Word.parse_col_arg a = Ok c1); by rewrite parse_capital_token, Haval |].
  split; [change (Excel2Word.parse_col_arg b = Ok c2); by rewrite parse_capital_token, Hbval |].
  destruct (str_of_int_decimal r1) as [? ?]; [lia |].
  destruct (str_of_int_decimal r2) as [? ?]; [lia |]. done.
Qed.

Lemma import_names_the_range_witness :
  last (trace (Word2Excel.main import_scenario_args import_scenario_world))
    = Some (Print (ExcelWritten (py "A1:D2") (py "out.xlsx"))).
Proof.
  destruct (import_names_the_range import_scenario_args import_scenario_world
              1 4 import_scenario_document
              (mkTable None None [[py "x"; py "y"; py "z"]; [py "1"; py "2"]])
              0%nat (mkWorksheet (py "Sheet") ∅))
    as (a & b & H & _);
    [reflexivity | reflexivity | reflexivity | by vm_compute | by vm_compute | by vm_compute
    | lia | lia
    | reflexivity | by vm_compute | reflexivity | discriminate | reflexivity | reflexivity |].
  reflexivity.
Defined.
